(** * Favorites-and-search core of the component marketplace backend

    A shallow embedding of the Express/Mongoose backend (controllers,
    models, auth middleware and the centralized error responder)
    together with the properties of its favorites toggle, catalog
    query, registration and login handlers.

    Conventions of the embedding:
    - a JavaScript string is a [string] holding its UTF-8 bytes;
      [Js.length] counts its UTF-16 code units; [Js.trim] and
      [Js.toLowerCase] are the JavaScript functions on strings of ASCII
      characters ([Js.isAscii]), and the case-by-case statements about
      registration, the profile update and component creation assume
      such fields;
    - an [ObjectId] is twelve bytes; its string form is the 24-digit
      lower-case hexadecimal rendering produced by [toString()], and a
      request string is cast to an [ObjectId] when it is 24 hexadecimal
      digits of either case (the driver's rule);
    - a collection is the list of its documents in insertion order;
    - a handler is a state-passing function over the two collections
      that either answers or throws; a thrown error reaches the
      centralized error responder of [index.ts];
    - collaborators the handlers call but do not implement (bcrypt, JWT
      signing, the text index, the clock, identifier and salt
      generation, the wording of a validation error) are fields of a
      [World] record. *)

From Stdlib Require Import List String Ascii Bool Arith ZArith NArith Lia.
From Stdlib Require Import Strings.Byte Sorting.Sorted Sorting.Permutation.
Import ListNotations.
Local Open Scope string_scope.
Local Open Scope list_scope.

(* ================================================================== *)
(** ** Hexadecimal strings and object identifiers *)

Module Hex.

(** Digit [n] (0..15) in lower case, as [toHexString] prints it. *)
Definition digit (n : N) : ascii :=
  if (n <? 10)%N then ascii_of_N (48 + n) else ascii_of_N (87 + n).

(** Value of a hexadecimal digit of either case: [0-9a-fA-F]. *)
Definition value (c : ascii) : option N :=
  let n := N_of_ascii c in
  if ((48 <=? n) && (n <=? 57))%N then Some (n - 48)%N
  else if ((97 <=? n) && (n <=? 102))%N then Some (n - 87)%N
  else if ((65 <=? n) && (n <=? 70))%N then Some (n - 55)%N
  else None.

Definition hi (b : byte) : ascii := digit (Byte.to_N b / 16).
Definition lo (b : byte) : ascii := digit (Byte.to_N b mod 16).

Definition byte_of_digits (h l : ascii) : option byte :=
  match value h, value l with
  | Some x, Some y => Byte.of_N (16 * x + y)
  | _, _ => None
  end.

Fixpoint encode (bs : list byte) : string :=
  match bs with
  | [] => EmptyString
  | b :: rest => String (hi b) (String (lo b) (encode rest))
  end.

Fixpoint decode (s : string) : option (list byte) :=
  match s with
  | EmptyString => Some []
  | String h (String l rest) =>
      match byte_of_digits h l, decode rest with
      | Some b, Some bs => Some (b :: bs)
      | _, _ => None
      end
  | String _ EmptyString => None
  end.

End Hex.

Module ObjectId.

(** The twelve bytes of a BSON object identifier. *)
Inductive t : Set :=
  Oid (b0 b1 b2 b3 b4 b5 b6 b7 b8 b9 b10 b11 : byte).

Definition bytes (o : t) : list byte :=
  match o with
  | Oid b0 b1 b2 b3 b4 b5 b6 b7 b8 b9 b10 b11 =>
      [b0; b1; b2; b3; b4; b5; b6; b7; b8; b9; b10; b11]
  end.

Definition of_bytes (bs : list byte) : option t :=
  match bs with
  | [b0; b1; b2; b3; b4; b5; b6; b7; b8; b9; b10; b11] =>
      Some (Oid b0 b1 b2 b3 b4 b5 b6 b7 b8 b9 b10 b11)
  | _ => None
  end.

(** [id.toString()]: 24 lower-case hexadecimal digits. *)
Definition toString (o : t) : string := Hex.encode (bytes o).

(** [new ObjectId(s)] / the cast Mongoose applies to an [_id]
    condition: succeeds exactly on 24 hexadecimal digits. *)
Definition cast (s : string) : option t :=
  match Hex.decode s with
  | Some bs => of_bytes bs
  | None => None
  end.

Definition eqb (a b : t) : bool :=
  if list_eq_dec Byte.byte_eq_dec (bytes a) (bytes b) then true else false.

(** The string comparison [favId.toString() === id] used by the
    controllers. *)
Definition str_is (id : string) (o : t) : bool := String.eqb (toString o) id.

End ObjectId.

Abbreviation ObjectId := ObjectId.t.

(* ================================================================== *)
(** ** JavaScript values used by the handlers *)

Module Js.

(** Truthiness of an optional string ([undefined] and the empty
    string are falsy), as tested by [if (search)], [if (userId)],
    [if (!token)]. *)
Definition truthy (v : option string) : bool :=
  match v with
  | Some s => negb (String.eqb s "")
  | None => false
  end.

(** [v === lit] for an optional string and a string literal. *)
Definition is_lit (v : option string) (lit : string) : bool :=
  match v with
  | Some s => String.eqb s lit
  | None => false
  end.

(** [a || b] on optional status codes: [undefined] and [0] are falsy. *)
Definition or_status (a : option nat) (b : nat) : nat :=
  match a with
  | Some 0 | None => b
  | Some n => n
  end.

(** [a || b] on strings. *)
Definition or_string (a : option string) (b : string) : string :=
  if truthy a then match a with Some s => s | None => b end else b.

(** [Array.prototype.findIndex]: the first index whose element
    satisfies [p], or [-1]. *)
Fixpoint findIndex {A} (p : A -> bool) (l : list A) : Z :=
  match l with
  | [] => (-1)%Z
  | x :: rest =>
      if p x then 0%Z
      else let i := findIndex p rest in
           if (i =? -1)%Z then (-1)%Z else (i + 1)%Z
  end.

(** [Array.prototype.splice(start, deleteCount)] without inserted
    items; a negative [start] counts from the end. *)
Definition splice {A} (start : Z) (deleteCount : nat) (l : list A) : list A :=
  let len := Z.of_nat (List.length l) in
  let from := if (start <? 0)%Z then Z.max (len + start) 0 else Z.min start len in
  let k := Z.to_nat from in
  firstn k l ++ skipn (k + deleteCount) l.

(** [Array.prototype.push] of one item. *)
Definition push {A} (l : list A) (x : A) : list A := l ++ [x].

(** [Array.prototype.includes] on strings. *)
Definition includes (l : list string) (s : string) : bool :=
  existsb (String.eqb s) l.

(** [Array.prototype.some]. *)
Definition some {A} (p : A -> bool) (l : list A) : bool := existsb p l.

(** A string of ASCII characters only. *)
Definition isAscii (s : string) : bool :=
  forallb (fun c => (N_of_ascii c <? 128)%N) (list_ascii_of_string s).

(** [String.prototype.length]: the number of UTF-16 code units of the
    string whose UTF-8 bytes are [s].  A byte that starts a sequence of
    one, two or three bytes counts one unit, a byte that starts a
    four-byte sequence (a character outside the basic plane, a surrogate
    pair in UTF-16) counts two, and a continuation byte counts
    nothing. *)
Fixpoint length (s : string) : nat :=
  match s with
  | EmptyString => 0
  | String c rest =>
      let n := N_of_ascii c in
      (if (n <? 128)%N then 1
       else if (n <? 192)%N then 0
       else if (n <? 240)%N then 1
       else 2) + length rest
  end.

(** The white space [trim] strips from a string of ASCII characters:
    tab, line feed, vertical tab, form feed, carriage return, space. *)
Definition isSpace (c : ascii) : bool :=
  let n := N_of_ascii c in
  (((9 <=? n) && (n <=? 13)) || (n =? 32))%N.

Fixpoint trimStart (s : string) : string :=
  match s with
  | EmptyString => EmptyString
  | String c rest => if isSpace c then trimStart rest else s
  end.

Fixpoint trimEnd (s : string) : string :=
  match s with
  | EmptyString => EmptyString
  | String c rest =>
      let rest' := trimEnd rest in
      if isSpace c && String.eqb rest' "" then EmptyString
      else String c rest'
  end.

(** [String.prototype.trim] of a string of ASCII characters. *)
Definition trim (s : string) : string := trimEnd (trimStart s).

Definition lowerChar (c : ascii) : ascii :=
  let n := N_of_ascii c in
  if ((65 <=? n) && (n <=? 90))%N then ascii_of_N (n + 32) else c.

(** [String.prototype.toLowerCase] of a string of ASCII characters. *)
Fixpoint toLowerCase (s : string) : string :=
  match s with
  | EmptyString => EmptyString
  | String c rest => String (lowerChar c) (toLowerCase rest)
  end.

(** The part of [s] before the first space and the rest after it. *)
Fixpoint cutAtSpace (s : string) : string * option string :=
  match s with
  | EmptyString => (EmptyString, None)
  | String c rest =>
      if Ascii.eqb c " "%char then (EmptyString, Some rest)
      else let '(w, r) := cutAtSpace rest in (String c w, r)
  end.

(** [s.split(" ")[1]]: the second space-separated field, if any. *)
Definition splitSpace1 (s : string) : option string :=
  match snd (cutAtSpace s) with
  | Some rest => Some (fst (cutAtSpace rest))
  | None => None
  end.

End Js.

(* ================================================================== *)
(** ** Documents of the two collections *)

Module User.

(** A stored user ([IUser]).  [password] holds the bcrypt hash once
    the document has been saved. *)
Record t := mk {
  _id : ObjectId;
  username : string;
  email : string;
  password : string;
  favorites : list ObjectId;
  createdAt : Z;
  updatedAt : Z
}.

Definition set_password (p : string) (u : t) : t :=
  mk (_id u) (username u) (email u) p (favorites u) (createdAt u) (updatedAt u).

Definition set_favorites (f : list ObjectId) (u : t) : t :=
  mk (_id u) (username u) (email u) (password u) f (createdAt u) (updatedAt u).

Definition set_username (n : string) (u : t) : t :=
  mk (_id u) n (email u) (password u) (favorites u) (createdAt u) (updatedAt u).

Definition set_email (e : string) (u : t) : t :=
  mk (_id u) (username u) e (password u) (favorites u) (createdAt u) (updatedAt u).

Definition set_timestamps (c m : Z) (u : t) : t :=
  mk (_id u) (username u) (email u) (password u) (favorites u) c m.

(** Schema setters: [trim] on the username, [trim] and [lowercase]
    on the email.  Mongoose runs them when a field is assigned and
    when a query condition on the field is cast. *)
Definition setUsername (s : string) : string := Js.trim s.
Definition setEmail (s : string) : string := Js.toLowerCase (Js.trim s).

(** The stored username and email are fixed points of the setters. *)
Definition canonical (u : t) : Prop :=
  setUsername (username u) = username u /\ setEmail (email u) = email u.

End User.

Module Component.

(** A stored component ([IComponent]). *)
Record t := mk {
  _id : ObjectId;
  name : string;
  description : string;
  category : string;
  tags : list string;
  code : string;
  author : ObjectId;
  createdAt : Z;
  updatedAt : Z
}.

End Component.

(** A lean component row as the catalog queries return it: the stored
    fields, the author populated with its [username] only ([None] when
    the author no longer resolves), and the optional [isFavorite]
    annotation. *)
Record Row := mkRow {
  row_doc : Component.t;
  row_author : option (ObjectId * string);
  isFavorite : option bool
}.

Definition set_isFavorite (b : bool) (r : Row) : Row :=
  mkRow (row_doc r) (row_author r) (Some b).

(** The two collections. *)
Record Store := mkStore {
  users : list User.t;
  components : list Component.t
}.

(* ================================================================== *)
(** ** Errors, responses and the handler monad *)

(** A thrown JavaScript error, with the two properties the error
    responder reads. *)
Record Error := mkError {
  err_name : string;
  statusCode : option nat;
  message : string
}.

Inductive Body :=
| Message (text : string)
| ComponentList (rows : list Row)
| ComponentOne (row : Row)
| FavoriteState (isFav : bool)
| LoginOk (token : string) (id : ObjectId) (name mail : string).

Record Response := mkResponse {
  status : nat;
  json : Body
}.

Inductive Outcome (A : Type) :=
| Ok (a : A)
| Throw (e : Error).
Arguments Ok {A} a.
Arguments Throw {A} e.

(** A computation over the store that returns or throws.  The store
    is threaded through a throw: what was written stays written. *)
Definition M (A : Type) : Type := Store -> Outcome A * Store.

Definition ret {A} (a : A) : M A := fun st => (Ok a, st).
Definition throw {A} (e : Error) : M A := fun st => (Throw e, st).
Definition bind {A B} (c : M A) (k : A -> M B) : M B :=
  fun st =>
    match c st with
    | (Ok a, st') => k a st'
    | (Throw e, st') => (Throw e, st')
    end.
Definition getStore : M Store := fun st => (Ok st, st).
Definition putStore (st' : Store) : M unit := fun _ => (Ok tt, st').

Notation "x <- c ;; k" := (bind c (fun x => k))
  (at level 61, c at next level, right associativity).

(** [res.status(n).json(b)] and [res.json(b)]. *)
Definition respond (n : nat) (b : Body) : M Response := ret (mkResponse n b).
Definition respondOk (b : Body) : M Response := respond 200 b.

(** The error-handling middleware of [index.ts]. *)
Definition errorMiddleware (err : Error) : Response :=
  mkResponse (Js.or_status (statusCode err) 500)
             (Message (Js.or_string (Some (message err)) "服务器内部错误")).

(** A route handler: [try { ... } catch (error) { next(error) }], with
    [next(error)] reaching [errorMiddleware]. *)
Definition handle (body : M Response) (st : Store) : Response * Store :=
  match body st with
  | (Ok r, st') => (r, st')
  | (Throw e, st') => (errorMiddleware e, st')
  end.

(** Collaborators of the handlers. *)
Record World := mkWorld {
  now : Z;                                   (* the clock, for timestamps *)
  freshId : ObjectId;                        (* identifier of a new document *)
  genSalt : string;                          (* bcrypt.genSalt(10) *)
  bcryptHash : string -> string -> string;   (* bcrypt.hash(plain, salt) *)
  bcryptCompare : string -> string -> bool;  (* bcrypt.compare(plain, hash) *)
  jwtSign : ObjectId -> string;              (* jwt.sign({ id }, secret, ...) *)
  jwtVerify : string -> option string;       (* jwt.verify: the payload id, or it throws *)
  textSearch : string -> Component.t -> bool; (* the $text index match *)
  validationMessage : string -> list (string * option string) -> string
    (* the message of a Mongoose ValidationError: the model name and the
       failing paths, each with its value when it is a string *)
}.

(* ================================================================== *)
(** ** Mongoose errors *)

Definition dquote : string := String (ascii_of_nat 34) EmptyString.

(** [CastError]: an [_id] condition that is not an object identifier. *)
Definition castError (value model : string) : Error :=
  mkError "CastError" None
    ("Cast to ObjectId failed for value " ++ dquote ++ value ++ dquote
       ++ " (type string) at path " ++ dquote ++ "_id" ++ dquote
       ++ " for model " ++ dquote ++ model ++ dquote).

(** [ValidationError]: the validators of the listed paths failed. *)
Definition validationError (w : World) (model : string)
  (failed : list (string * option string)) : Error :=
  mkError "ValidationError" None (validationMessage w model failed).

Definition duplicateKeyError (collection : string) : Error :=
  mkError "MongoServerError" None
    ("E11000 duplicate key error collection: " ++ collection).

Definition documentNotFoundError (model : string) : Error :=
  mkError "DocumentNotFoundError" None
    ("No document found for query on model " ++ dquote ++ model ++ dquote).

Definition bsonError : Error :=
  mkError "BSONError" None
    "input must be a 24 character hex string, 12 byte Uint8Array, or an integer".

(* ================================================================== *)
(** ** The User model *)

Inductive UserPath := P_username | P_email | P_password | P_favorites.

Definition UserPath_eqb (a b : UserPath) : bool :=
  match a, b with
  | P_username, P_username | P_email, P_email
  | P_password, P_password | P_favorites, P_favorites => true
  | _, _ => false
  end.

(** A hydrated Mongoose document of the User model: the field values,
    whether it has never been stored, and the paths assigned since it
    was loaded or created. *)
Record UserDoc := mkUserDoc {
  fields : User.t;
  isNew : bool;
  modifiedPaths : list UserPath
}.

Definition isModified (doc : UserDoc) (p : UserPath) : bool :=
  existsb (UserPath_eqb p) (modifiedPaths doc).

Definition markModified (p : UserPath) (doc : UserDoc) : list UserPath :=
  if isModified doc p then modifiedPaths doc else modifiedPaths doc ++ [p].

(** A document as a query hands it out. *)
Definition hydrate (u : User.t) : UserDoc := mkUserDoc u false [].

(** [new User({ username, email, password })]: the setters run on the
    assigned fields, [favorites] defaults to the empty array, and the
    timestamps are filled in when the document is saved. *)
Definition newUser (w : World) (username email password : string) : UserDoc :=
  mkUserDoc
    (User.mk (freshId w) (User.setUsername username) (User.setEmail email)
             password [] 0%Z 0%Z)
    true [P_username; P_email; P_password].

(** [user.favorites.push(x)] and [user.favorites.splice(i, 1)] on a
    document: the array changes and the path becomes modified. *)
Definition favorites_push (x : ObjectId) (doc : UserDoc) : UserDoc :=
  mkUserDoc (User.set_favorites (Js.push (User.favorites (fields doc)) x) (fields doc))
            (isNew doc) (markModified P_favorites doc).

Definition favorites_splice (index : Z) (doc : UserDoc) : UserDoc :=
  mkUserDoc (User.set_favorites (Js.splice index 1 (User.favorites (fields doc))) (fields doc))
            (isNew doc) (markModified P_favorites doc).

Definition byId (o : ObjectId) (u : User.t) : bool := ObjectId.eqb (User._id u) o.

(** [User.findById(id)].  Mongoose turns [findById(undefined)] into a
    query that matches nothing; a string that is not an object
    identifier makes the query throw a [CastError]. *)
Definition User_findById (id : option string) : M (option UserDoc) :=
  match id with
  | None => ret None
  | Some s =>
      match ObjectId.cast s with
      | None => throw (castError s "User")
      | Some o =>
          st <- getStore ;;
          ret (option_map hydrate (find (byId o) (users st)))
      end
  end.

(** [User.findOne({ email })]. *)
Definition User_findOne_email (email : string) : M (option UserDoc) :=
  st <- getStore ;;
  ret (option_map hydrate
         (find (fun u => String.eqb (User.email u) (User.setEmail email)) (users st))).

(** [User.findOne({ $or: [{ email }, { username }] })]. *)
Definition User_findOne_email_or_username (email username : string)
  : M (option UserDoc) :=
  st <- getStore ;;
  ret (option_map hydrate
         (find (fun u => String.eqb (User.email u) (User.setEmail email)
                         || String.eqb (User.username u) (User.setUsername username))
               (users st))).

(** Schema validators of one path. *)
Definition validPath (u : User.t) (p : UserPath) : bool :=
  match p with
  | P_username =>
      ((3 <=? Js.length (User.username u))
       && (Js.length (User.username u) <=? 30))%nat
  | P_email => negb (String.eqb (User.email u) "")
  | P_password => (6 <=? Js.length (User.password u))%nat
  | P_favorites => true
  end.

Definition pathName (p : UserPath) : string :=
  match p with
  | P_username => "username"
  | P_email => "email"
  | P_password => "password"
  | P_favorites => "favorites"
  end.

Definition pathValue (u : User.t) (p : UserPath) : option string :=
  match p with
  | P_username => Some (User.username u)
  | P_email => Some (User.email u)
  | P_password => Some (User.password u)
  | P_favorites => None
  end.

Definition userPaths : list UserPath := [P_username; P_email; P_password; P_favorites].

(** Every path of a user passes its validators. *)
Definition validUser (u : User.t) : bool := forallb (validPath u) userPaths.

(** The built-in validation hook of [save()].  The validators of every
    path run, on a new document and on a stored one alike: Mongoose
    validates the paths a query loaded as well as the modified ones (the
    schema does not set [validateModifiedOnly]), and a document found by
    [findById] has all its paths loaded.  The failing paths are reported
    together. *)
Definition validate (w : World) (doc : UserDoc) : option Error :=
  match filter (fun p => negb (validPath (fields doc) p)) userPaths with
  | [] => None
  | failed =>
      Some (validationError w "User"
              (map (fun p => (pathName p, pathValue (fields doc) p)) failed))
  end.

(** The schema's [pre("save")] hook: the password is hashed when, and
    only when, the path is modified. *)
Definition preSave (w : World) (doc : UserDoc) : UserDoc :=
  if negb (isModified doc P_password) then doc
  else
    let salt := genSalt w in
    mkUserDoc (User.set_password (bcryptHash w (User.password (fields doc)) salt)
                                 (fields doc))
              (isNew doc) (modifiedPaths doc).

(** The unique indexes on [username] and [email]. *)
Definition uniqueClash (u : User.t) (others : list User.t) : bool :=
  existsb (fun v => String.eqb (User.username v) (User.username u)
                    || String.eqb (User.email v) (User.email u)) others.

(** The value of one modified path copied onto the stored document. *)
Definition applyPath (src : User.t) (p : UserPath) (stored : User.t) : User.t :=
  match p with
  | P_username => User.set_username (User.username src) stored
  | P_email => User.set_email (User.email src) stored
  | P_password => User.set_password (User.password src) stored
  | P_favorites => User.set_favorites (User.favorites src) stored
  end.

Definition applyPaths (src : User.t) (ps : list UserPath) (stored : User.t) : User.t :=
  fold_left (fun acc p => applyPath src p acc) ps stored.

(** The stored document with the given [_id] replaced by [f] of it. *)
Fixpoint updateFirst (o : ObjectId) (f : User.t -> User.t) (l : list User.t)
  : list User.t :=
  match l with
  | [] => []
  | u :: rest => if byId o u then f u :: rest else u :: updateFirst o f rest
  end.

(** [doc.save()]: validation, the pre-save hook, then the write. A
    new document is inserted with both timestamps; a stored one has
    its modified paths and [updatedAt] written; nothing is written
    when no path is modified. *)
Definition User_save (w : World) (doc : UserDoc) : M unit :=
  match validate w doc with
  | Some e => throw e
  | None =>
      let doc := preSave w doc in
      st <- getStore ;;
      if isNew doc then
        if uniqueClash (fields doc) (users st) then throw (duplicateKeyError "users")
        else putStore (mkStore (users st ++ [User.set_timestamps (now w) (now w) (fields doc)])
                               (components st))
      else
        match modifiedPaths doc with
        | [] => ret tt
        | ps =>
            let o := User._id (fields doc) in
            match find (byId o) (users st) with
            | None => throw (documentNotFoundError "User")
            | Some _ =>
                if (isModified doc P_username || isModified doc P_email)
                   && uniqueClash (fields doc)
                        (filter (fun v => negb (byId o v)) (users st))
                then throw (duplicateKeyError "users")
                else
                  putStore
                    (mkStore
                       (updateFirst o
                          (fun stored =>
                             User.set_timestamps (User.createdAt stored) (now w)
                               (applyPaths (fields doc) ps stored))
                          (users st))
                       (components st))
            end
        end
  end.

(* ================================================================== *)
(** ** The Component model *)

(** The filter object the list query builds. *)
Record Query := mkQuery {
  q_text : option string;            (* $text: { $search } *)
  q_category : option string;        (* category *)
  q_idIn : option (list ObjectId)    (* _id: { $in } *)
}.

Definition matches (w : World) (q : Query) (c : Component.t) : bool :=
  (match q_text q with Some s => textSearch w s c | None => true end)
  && (match q_category q with
      | Some cat => String.eqb (Component.category c) cat
      | None => true
      end)
  && (match q_idIn q with
      | Some ids => existsb (ObjectId.eqb (Component._id c)) ids
      | None => true
      end).

Inductive SortOption :=
| CreatedAtDesc   (* { createdAt: -1 } *)
| NameAsc.        (* { name: 1 } *)

(** [le a b]: [a] may come before [b] under the sort option. *)
Definition sortLe (o : SortOption) (a b : Component.t) : bool :=
  match o with
  | CreatedAtDesc => (Component.createdAt b <=? Component.createdAt a)%Z
  | NameAsc => String.leb (Component.name a) (Component.name b)
  end.

Fixpoint insertBy {A} (le : A -> A -> bool) (x : A) (l : list A) : list A :=
  match l with
  | [] => [x]
  | y :: rest => if le x y then x :: l else y :: insertBy le x rest
  end.

(** The store's sort, as a stable insertion sort. *)
Fixpoint sortBy {A} (le : A -> A -> bool) (l : list A) : list A :=
  match l with
  | [] => []
  | x :: rest => insertBy le x (sortBy le rest)
  end.

(** [.populate("author", "username")] on a lean document. *)
Definition populateAuthor (st : Store) (c : Component.t) : Row :=
  mkRow c
        (option_map (fun u => (User._id u, User.username u))
                    (find (byId (Component.author c)) (users st)))
        None.

(** The rows a query selects from a store: filtered, sorted, then
    populated. *)
Definition findRows (w : World) (st : Store) (q : Query) (o : SortOption) : list Row :=
  map (populateAuthor st) (sortBy (sortLe o) (filter (matches w q) (components st))).

(** [Component.find(query).sort(sortOption).populate(...).lean()]. *)
Definition Component_find (w : World) (q : Query) (o : SortOption) : M (list Row) :=
  st <- getStore ;;
  ret (findRows w st q o).

(** [Component.findById(id)], optionally populated and lean. *)
Definition Component_findById (id : string) : M (option Row) :=
  match ObjectId.cast id with
  | None => throw (castError id "Component")
  | Some o =>
      st <- getStore ;;
      ret (option_map (populateAuthor st)
             (find (fun c => ObjectId.eqb (Component._id c) o) (components st)))
  end.

(* ================================================================== *)
(** ** Requests, the auth middleware and the controllers *)

Record Request := mkRequest {
  authorization : option string;    (* req.headers.authorization *)
  user : option string;             (* req.user?.id *)
  params_id : string;               (* req.params.id *)
  query_search : option string;
  query_category : option string;
  query_sort : option string;
  query_favorites : option string;
  body_username : string;
  body_email : string;
  body_password : string
}.

Definition set_user (id : string) (req : Request) : Request :=
  mkRequest (authorization req) (Some id) (params_id req)
            (query_search req) (query_category req) (query_sort req)
            (query_favorites req)
            (body_username req) (body_email req) (body_password req).

Definition set_query_favorites (f : option string) (req : Request) : Request :=
  mkRequest (authorization req) (user req) (params_id req)
            (query_search req) (query_category req) (query_sort req) f
            (body_username req) (body_email req) (body_password req).

(** [authHeader && authHeader.split(" ")[1]]. *)
Definition bearerToken (req : Request) : option string :=
  match authorization req with
  | Some h => Js.splitSpace1 h
  | None => None
  end.

(** The mandatory auth middleware. *)
Definition authMiddleware (w : World) (next : Request -> M Response)
  (req : Request) : M Response :=
  let token := bearerToken req in
  if negb (Js.truthy token) then respond 401 (Message "未提供认证令牌")
  else
    match token with
    | None => respond 401 (Message "未提供认证令牌")
    | Some tok =>
        match jwtVerify w tok with
        | Some id => next (set_user id req)
        | None => respond 401 (Message "无效的认证令牌")
        end
    end.

(** The optional auth middleware: a missing or invalid token proceeds
    with no identity attached. *)
Definition optionalAuthMiddleware (w : World) (next : Request -> M Response)
  (req : Request) : M Response :=
  let token := bearerToken req in
  if negb (Js.truthy token) then next req
  else
    match token with
    | None => next req
    | Some tok =>
        match jwtVerify w tok with
        | Some id => next (set_user id req)
        | None => next req
        end
    end.

(** The sort option chosen from the [sort] query parameter. *)
Definition sortOptionOf (sort : option string) : SortOption :=
  if Js.is_lit sort "popular" then CreatedAtDesc
  else if Js.is_lit sort "name" then NameAsc
  else CreatedAtDesc.

(** The [isFavorite] annotation of the list query. *)
Definition annotate (favorites : list string) (rows : list Row) : list Row :=
  map (fun component =>
         set_isFavorite
           (Js.includes favorites (ObjectId.toString (Component._id (row_doc component))))
           component)
      rows.

(** [getComponents], from the sort onwards. *)
Definition getComponents_run (w : World) (req : Request) (query : Query)
  : M Response :=
  let userId := user req in
  let sortOption := sortOptionOf (query_sort req) in
  components <- Component_find w query sortOption ;;
  if Js.truthy userId then
    user <- User_findById userId ;;
    match user with
    | Some user =>
        let favorites := map ObjectId.toString (User.favorites (fields user)) in
        respondOk (ComponentList (annotate favorites components))
    | None => respondOk (ComponentList components)
    end
  else respondOk (ComponentList components).

Definition getComponents (w : World) (req : Request) : M Response :=
  let userId := user req in
  let query := mkQuery None None None in
  let query :=
    if Js.truthy (query_search req)
    then mkQuery (query_search req) (q_category query) (q_idIn query)
    else query in
  let query :=
    if Js.truthy (query_category req)
    then mkQuery (q_text query) (query_category req) (q_idIn query)
    else query in
  if Js.is_lit (query_favorites req) "true" && Js.truthy userId then
    user <- User_findById userId ;;
    match user with
    | None => respond 404 (Message "用户不存在")
    | Some user =>
        getComponents_run w req
          (mkQuery (q_text query) (q_category query)
                   (Some (User.favorites (fields user))))
    end
  else getComponents_run w req query.

Definition getComponent (req : Request) : M Response :=
  let id := params_id req in
  let userId := user req in
  component <- Component_findById id ;;
  match component with
  | None => respond 404 (Message "组件不存在")
  | Some component =>
      if Js.truthy userId then
        user <- User_findById userId ;;
        match user with
        | Some user =>
            respondOk
              (ComponentOne
                 (set_isFavorite
                    (Js.some (ObjectId.str_is id) (User.favorites (fields user)))
                    component))
        | None => respondOk (ComponentOne component)
        end
      else respondOk (ComponentOne component)
  end.

(** [new mongoose.Types.ObjectId(id)]. *)
Definition newObjectId (id : string) : M ObjectId :=
  match ObjectId.cast id with
  | Some o => ret o
  | None => throw bsonError
  end.

Definition toggleFavorite (w : World) (req : Request) : M Response :=
  let id := params_id req in
  let userId := user req in
  component <- Component_findById id ;;
  match component with
  | None => respond 404 (Message "组件不存在")
  | Some _ =>
      user <- User_findById userId ;;
      match user with
      | None => respond 404 (Message "用户不存在")
      | Some user =>
          let index := Js.findIndex (ObjectId.str_is id) (User.favorites (fields user)) in
          user' <- (if (index =? -1)%Z
                    then o <- newObjectId id ;; ret (favorites_push o user)
                    else ret (favorites_splice index user)) ;;
          _ <- User_save w user' ;;
          respondOk (FavoriteState (index =? -1)%Z)
      end
  end.

Definition register (w : World) (req : Request) : M Response :=
  let username := body_username req in
  let email := body_email req in
  let password := body_password req in
  existingUser <- User_findOne_email_or_username email username ;;
  match existingUser with
  | Some _ => respond 400 (Message "用户名或邮箱已被使用")
  | None =>
      let user := newUser w username email password in
      _ <- User_save w user ;;
      respond 201 (Message "注册成功")
  end.

(** [user.comparePassword(candidate)]. *)
Definition comparePassword (w : World) (u : UserDoc) (candidate : string) : bool :=
  bcryptCompare w candidate (User.password (fields u)).

Definition login (w : World) (req : Request) : M Response :=
  let email := body_email req in
  let password := body_password req in
  user <- User_findOne_email email ;;
  match user with
  | None => respond 401 (Message "邮箱或密码不正确")
  | Some user =>
      let isMatch := comparePassword w user password in
      if negb isMatch then respond 401 (Message "邮箱或密码不正确")
      else
        let token := jwtSign w (User._id (fields user)) in
        respondOk (LoginOk token (User._id (fields user))
                           (User.username (fields user)) (User.email (fields user)))
  end.

(** The routes of [component.routes.ts] and [auth.routes.ts], as
    mounted in [index.ts]. *)
Definition GET_components (w : World) (req : Request) : Store -> Response * Store :=
  handle (optionalAuthMiddleware w (getComponents w) req).

Definition GET_component (w : World) (req : Request) : Store -> Response * Store :=
  handle (optionalAuthMiddleware w getComponent req).

Definition POST_favorite (w : World) (req : Request) : Store -> Response * Store :=
  handle (authMiddleware w (toggleFavorite w) req).

Definition POST_register (w : World) (req : Request) : Store -> Response * Store :=
  handle (register w req).

Definition POST_login (w : World) (req : Request) : Store -> Response * Store :=
  handle (login w req).

(* ================================================================== *)
(** ** Views of the store used in the statements *)

(** The stored user and component with a given identifier, and a
    user's favorites. *)
Definition lookupUser (st : Store) (uid : ObjectId) : option User.t :=
  find (byId uid) (users st).

Definition lookupComponent (st : Store) (cid : ObjectId) : option Component.t :=
  find (fun c => ObjectId.eqb (Component._id c) cid) (components st).

Definition favoritesOf (st : Store) (uid : ObjectId) : list ObjectId :=
  match lookupUser st uid with
  | Some u => User.favorites u
  | None => []
  end.

(** The write performed by the toggle: the favorites of the stored
    user replaced, [updatedAt] refreshed. *)
Definition writeFavorites (w : World) (uid : ObjectId) (favs : list ObjectId)
  (st : Store) : Store :=
  mkStore
    (updateFirst uid
       (fun stored =>
          User.set_timestamps (User.createdAt stored) (now w)
            (User.set_favorites favs stored))
       (users st))
    (components st).

(** The data-model invariant on favorites: no user's list holds the
    same identifier twice. *)
Definition favoritesNoDup (st : Store) : Prop :=
  Forall (fun u => NoDup (User.favorites u)) (users st).

(** A string that does not start with a space. *)
Definition headOk (s : string) : Prop :=
  match s with
  | EmptyString => True
  | String c _ => Js.isSpace c = false
  end.

(** The two ways a login fails: no stored user has the (normalised)
    email, or the stored user's hash does not match the password. *)
Definition userByEmail (st : Store) (email : string) : option User.t :=
  find (fun u => String.eqb (User.email u) (User.setEmail email)) (users st).

Definition noSuchUser (st : Store) (req : Request) : Prop :=
  userByEmail st (body_email req) = None.

Definition wrongPassword (w : World) (st : Store) (req : Request) : Prop :=
  exists u, userByEmail st (body_email req) = Some u
            /\ bcryptCompare w (body_password req) (User.password u) = false.

(** The two orders of the list query: ascending lexicographic by name,
    descending by creation time. *)
Definition nameAsc (a b : Component.t) : Prop :=
  String.leb (Component.name a) (Component.name b) = true.

Definition createdDesc (a b : Component.t) : Prop :=
  (Component.createdAt b <= Component.createdAt a)%Z.

(* ================================================================== *)
(** ** A concrete world and store *)

Module Sample.

Definition oid (b : byte) : ObjectId :=
  ObjectId.Oid x50 x7f x1f x77 xbc xf8 x6c xd7 x99 x43 x90 b.

Definition alice_id : ObjectId := oid x01.
Definition bob_id : ObjectId := oid x02.
Definition btn_id : ObjectId := oid x11.
Definition card_id : ObjectId := oid x12.
Definition nav_id : ObjectId := oid x13.

(** A toy stand-in for bcrypt: the "hash" is salt and plaintext
    joined, and a comparison re-derives it with the fixed salt. *)
Definition toyHash (plain salt : string) : string := "$" ++ salt ++ "$" ++ plain.
Definition toyCompare (plain hash : string) : bool :=
  String.eqb hash (toyHash plain "s4lt").

Definition toyVerify (tok : string) : option string :=
  if String.prefix "jwt." tok
  then Some (String.substring 4 (String.length tok - 4) tok)
  else None.

Definition world : World :=
  mkWorld 5000%Z (oid x99) "s4lt" toyHash toyCompare
          (fun o => ("jwt." ++ ObjectId.toString o)%string)
          toyVerify
          (fun s c => String.eqb s (Component.name c))
          (fun model failed =>
             (model ++ " validation failed: "
                    ++ String.concat ", " (map fst failed))%string).

Definition alice : User.t :=
  User.mk alice_id "alice" "alice@x.com" (toyHash "secret1" "s4lt") [] 1000%Z 1000%Z.

Definition bob : User.t :=
  User.mk bob_id "bob" "bob@x.com" (toyHash "hunter22" "s4lt") [card_id] 1100%Z 1100%Z.

Definition btn : Component.t :=
  Component.mk btn_id "Btn" "A nice button component" "buttons" ["ui"]
               "<button/>" alice_id 2000%Z 2000%Z.

Definition card : Component.t :=
  Component.mk card_id "Card" "A simple content card" "cards" ["ui"]
               "<div/>" bob_id 3000%Z 3000%Z.

Definition nav : Component.t :=
  Component.mk nav_id "Anchor bar" "A top navigation bar" "navigation" []
               "<nav/>" alice_id 2500%Z 2500%Z.

Definition store : Store := mkStore [alice; bob] [btn; card; nav].

Definition request : Request :=
  mkRequest None None "" None None None None "" "" "".

Definition with_id (id : string) (req : Request) : Request :=
  mkRequest (authorization req) (user req) id
            (query_search req) (query_category req) (query_sort req)
            (query_favorites req)
            (body_username req) (body_email req) (body_password req).

Definition with_bearer (tok : string) (req : Request) : Request :=
  mkRequest (Some ("Bearer " ++ tok)%string) (user req) (params_id req)
            (query_search req) (query_category req) (query_sort req)
            (query_favorites req)
            (body_username req) (body_email req) (body_password req).

Definition with_query (sort favorites : option string) (req : Request) : Request :=
  mkRequest (authorization req) (user req) (params_id req)
            (query_search req) (query_category req) sort favorites
            (body_username req) (body_email req) (body_password req).

Definition with_body (username email password : string) (req : Request) : Request :=
  mkRequest (authorization req) (user req) (params_id req)
            (query_search req) (query_category req) (query_sort req)
            (query_favorites req) username email password.

Definition alice_token : string := jwtSign world alice_id.
Definition bob_token : string := jwtSign world bob_id.

(** Requests as the auth middleware hands them to a controller, with
    the caller identity attached. *)
Definition as_user (uid : ObjectId) (req : Request) : Request :=
  set_user (ObjectId.toString uid) req.

(** [POST /api/components/<id of Btn>/favorite] by alice. *)
Definition favorite_btn : Request :=
  with_bearer alice_token (with_id (ObjectId.toString btn_id) request).

(** The same request with the identifier spelled in upper case. *)
Definition favorite_btn_upper : Request :=
  with_bearer alice_token (with_id "507F1F77BCF86CD799439011" request).

(** [GET /api/components?favorites=true] with no [Authorization]
    header. *)
Definition list_favorites_anonymous : Request :=
  with_query None (Some "true") request.

(** [GET /api/components?sort=name] by bob. *)
Definition list_by_name : Request :=
  with_bearer bob_token (with_query (Some "name") None request).

(** [POST /api/auth/register] reusing alice's email with a new
    username, and reusing bob's username with a new email. *)
Definition register_alice_email : Request :=
  with_body "carol" "alice@x.com" "secret9" request.

Definition register_bob_name : Request :=
  with_body "bob" "robert@x.com" "secret9" request.

Definition register_carol : Request :=
  with_body "carol" " Carol@X.com" "secret9" request.

(** [POST /api/auth/login] for alice with a wrong password, and for
    an email nobody registered. *)
Definition login_wrong_password : Request :=
  with_body "" "alice@x.com" "secret2" request.

Definition login_unknown_email : Request :=
  with_body "" "nobody@x.com" "secret1" request.

Definition login_alice : Request :=
  with_body "" "Alice@X.com" "secret1" request.

(** [GET /api/components?category=forms]. *)
Definition list_forms : Request :=
  mkRequest None None "" None (Some "forms") None None "" "" "".

(** [GET /api/components/abc]. *)
Definition get_malformed : Request := with_id "abc" request.

(** [POST /api/components/<id of Card>/favorite] by bob, who has
    Card in his favorites. *)
Definition favorite_card : Request :=
  with_bearer bob_token (with_id (ObjectId.toString card_id) request).

End Sample.

(* ================================================================== *)
(** ** More of the backend: views of requests and stores *)

Definition set_authorization (h : option string) (req : Request) : Request :=
  mkRequest h (user req) (params_id req)
            (query_search req) (query_category req) (query_sort req)
            (query_favorites req)
            (body_username req) (body_email req) (body_password req).

(** The filter object of the list query before the favorites filter:
    [search] and [category], each when truthy. *)
Definition baseQuery (req : Request) : Query :=
  mkQuery (if Js.truthy (query_search req) then query_search req else None)
          (if Js.truthy (query_category req) then query_category req else None)
          None.

(** A stored user already has the normalised email or username of a
    registration. *)
Definition registerConflict (st : Store) (req : Request) : bool :=
  existsb (fun u => String.eqb (User.email u) (User.setEmail (body_email req))
                    || String.eqb (User.username u)
                         (User.setUsername (body_username req)))
          (users st).

(** The username and the email of a body are strings of ASCII
    characters, on which the schema setters are modelled exactly. *)
Definition asciiCredentials (req : Request) : bool :=
  Js.isAscii (body_username req) && Js.isAscii (body_email req).

(** The fields of a registration pass the schema validators: a
    trimmed username of 3 to 30 characters, a non-empty normalised
    email, a password of at least 6 characters. *)
Definition registrable (req : Request) : bool :=
  ((3 <=? Js.length (User.setUsername (body_username req)))%nat
   && (Js.length (User.setUsername (body_username req)) <=? 30)%nat
   && negb (String.eqb (User.setEmail (body_email req)) "")
   && (6 <=? Js.length (body_password req))%nat).

(** The user a successful registration stores. *)
Definition registeredUser (w : World) (req : Request) : User.t :=
  User.mk (freshId w)
          (User.setUsername (body_username req))
          (User.setEmail (body_email req))
          (bcryptHash w (body_password req) (genSalt w))
          [] (now w) (now w).

(** No two stored users share a username or an email. *)
Definition usersUnique (st : Store) : Prop :=
  NoDup (map User.username (users st)) /\ NoDup (map User.email (users st)).

(** A string without a space character. *)
Fixpoint noSpace (s : string) : bool :=
  match s with
  | EmptyString => true
  | String c rest => negb (Ascii.eqb c " "%char) && noSpace rest
  end.

(** A computation whose results all satisfy [P] and whose thrown
    errors carry no [statusCode]. *)
Definition yields {A} (P : A -> Prop) (c : M A) : Prop :=
  forall st, match fst (c st) with
             | Ok a => P a
             | Throw e => statusCode e = None
             end.

(** A handler whose answers have their status in [codes]. *)
Definition answers (codes : list nat) (c : M Response) : Prop :=
  yields (fun r => In (status r) codes) c.

(** A computation that never writes the store, whether it returns or
    throws. *)
Definition readOnly {A} (c : M A) : Prop := forall st, snd (c st) = st.

(* ================================================================== *)
(** ** Component creation and the user controller *)

(** The body of [POST /api/components]. *)
Record ComponentBody := mkComponentBody {
  c_name : string;
  c_description : string;
  c_category : string;
  c_tags : list string;
  c_code : string
}.

(** A hydrated document of the Component model that has not been
    stored yet.  The author is [None] when the assigned value is
    missing or is not an object identifier. *)
Record ComponentDoc := mkComponentDoc {
  cd_id : ObjectId;
  cd_name : string;
  cd_description : string;
  cd_category : string;
  cd_tags : list string;
  cd_code : string;
  cd_author : option ObjectId
}.

(** [new Component({ name, description, category, tags, code, author })]:
    the schema trims the name, the description and each tag. *)
Definition newComponent (w : World) (b : ComponentBody) (author : option string)
  : ComponentDoc :=
  mkComponentDoc (freshId w)
                 (Js.trim (c_name b)) (Js.trim (c_description b)) (c_category b)
                 (map Js.trim (c_tags b)) (c_code b)
                 (match author with Some s => ObjectId.cast s | None => None end).

(** The enumeration of the [category] path. *)
Definition categories : list string :=
  ["buttons"; "cards"; "forms"; "navigation"; "other"].

Inductive ComponentPath := CP_name | CP_description | CP_category | CP_code | CP_author.

Definition componentPathName (p : ComponentPath) : string :=
  match p with
  | CP_name => "name"
  | CP_description => "description"
  | CP_category => "category"
  | CP_code => "code"
  | CP_author => "author"
  end.

(** Schema validators of one path of a component. *)
Definition validComponentPath (d : ComponentDoc) (p : ComponentPath) : bool :=
  match p with
  | CP_name =>
      ((3 <=? Js.length (cd_name d)) && (Js.length (cd_name d) <=? 100))%nat
  | CP_description =>
      ((10 <=? Js.length (cd_description d))
       && (Js.length (cd_description d) <=? 500))%nat
  | CP_category => existsb (String.eqb (cd_category d)) categories
  | CP_code => negb (String.eqb (cd_code d) "")
  | CP_author => match cd_author d with Some _ => true | None => false end
  end.

Definition componentPathValue (d : ComponentDoc) (p : ComponentPath) : option string :=
  match p with
  | CP_name => Some (cd_name d)
  | CP_description => Some (cd_description d)
  | CP_category => Some (cd_category d)
  | CP_code => Some (cd_code d)
  | CP_author => None
  end.

Definition validateComponent (w : World) (d : ComponentDoc) : option Error :=
  match filter (fun p => negb (validComponentPath d p))
               [CP_name; CP_description; CP_category; CP_code; CP_author] with
  | [] => None
  | failed =>
      Some (validationError w "Component"
              (map (fun p => (componentPathName p, componentPathValue d p)) failed))
  end.

(** [component.save()] of a new document: validation, then the insert
    with both timestamps; the collection's [_id] index rejects an
    identifier already stored.  The saved document is returned. *)
Definition Component_save (w : World) (d : ComponentDoc) : M Component.t :=
  match validateComponent w d, cd_author d with
  | Some e, _ => throw e
  | None, None => throw (validationError w "Component" [("author", None)])
  | None, Some author =>
      st <- getStore ;;
      if existsb (fun c => ObjectId.eqb (Component._id c) (cd_id d)) (components st)
      then throw (duplicateKeyError "components")
      else
        let c := Component.mk (cd_id d) (cd_name d) (cd_description d) (cd_category d)
                              (cd_tags d) (cd_code d) author (now w) (now w) in
        _ <- putStore (mkStore (users st) (components st ++ [c])) ;;
        ret c
  end.

(** A user document without its password, as [select("-password")]
    hands it out. *)
Record Profile := mkProfile {
  p_id : ObjectId;
  p_username : string;
  p_email : string;
  p_favorites : list ObjectId;
  p_createdAt : Z;
  p_updatedAt : Z
}.

Definition profileOf (u : User.t) : Profile :=
  mkProfile (User._id u) (User.username u) (User.email u) (User.favorites u)
            (User.createdAt u) (User.updatedAt u).

(** What these handlers answer: one of the responses above, a created
    component, or a profile. *)
Inductive Reply :=
| Std (r : Response)
| CreatedReply (code : nat) (c : Component.t)
| ProfileReply (code : nat) (p : Profile).

Definition replyStatus (r : Reply) : nat :=
  match r with
  | Std r => status r
  | CreatedReply code _ => code
  | ProfileReply code _ => code
  end.

(** A route handler answering a [Reply], with the same error path. *)
Definition handleReply (body : M Reply) (st : Store) : Reply * Store :=
  match body st with
  | (Ok r, st') => (r, st')
  | (Throw e, st') => (Std (errorMiddleware e), st')
  end.

(** The mandatory auth middleware in front of a handler of any answer
    type [R]; [deny] builds the middleware's own 401 answers. *)
Definition authMiddlewareFor {R} (deny : Response -> R) (w : World)
  (next : Request -> M R) (req : Request) : M R :=
  let token := bearerToken req in
  if negb (Js.truthy token) then ret (deny (mkResponse 401 (Message "未提供认证令牌")))
  else
    match token with
    | None => ret (deny (mkResponse 401 (Message "未提供认证令牌")))
    | Some tok =>
        match jwtVerify w tok with
        | Some id => next (set_user id req)
        | None => ret (deny (mkResponse 401 (Message "无效的认证令牌")))
        end
    end.

Definition createComponent (w : World) (body : ComponentBody) (req : Request) : M Reply :=
  let userId := user req in
  let component := newComponent w body userId in
  saved <- Component_save w component ;;
  ret (CreatedReply 201 saved).

Definition getCurrentUser (req : Request) : M Reply :=
  let userId := user req in
  user <- User_findById userId ;;
  match user with
  | None => ret (Std (mkResponse 404 (Message "用户不存在")))
  | Some user => ret (ProfileReply 200 (profileOf (fields user)))
  end.

(** [User.findOne({ $and: [{ _id: { $ne: userId } },
    { $or: [{ username }, { email }] }] })]. *)
Definition User_findOne_other (userId username email : string) : M (option UserDoc) :=
  match ObjectId.cast userId with
  | None => throw (castError userId "User")
  | Some o =>
      st <- getStore ;;
      ret (option_map hydrate
             (find (fun u => negb (byId o u)
                             && (String.eqb (User.username u) (User.setUsername username)
                                 || String.eqb (User.email u) (User.setEmail email)))
                   (users st)))
  end.

(** [User.findByIdAndUpdate(userId, { username, email }, { new: true })]:
    the setters run on the assigned values, no validator and no save
    hook runs, [updatedAt] is refreshed, the unique indexes are
    enforced, and the updated document is returned. *)
Definition User_findByIdAndUpdate (w : World) (userId username email : string)
  : M (option User.t) :=
  match ObjectId.cast userId with
  | None => throw (castError userId "User")
  | Some o =>
      st <- getStore ;;
      match find (byId o) (users st) with
      | None => ret None
      | Some stored =>
          let updated :=
            User.set_timestamps (User.createdAt stored) (now w)
              (User.set_email (User.setEmail email)
                 (User.set_username (User.setUsername username) stored)) in
          if uniqueClash updated (filter (fun v => negb (byId o v)) (users st))
          then throw (duplicateKeyError "users")
          else
            _ <- putStore (mkStore (updateFirst o (fun _ => updated) (users st))
                                   (components st)) ;;
            ret (Some updated)
      end
  end.

(** [updateUser] for the identity [userId] the mandatory middleware
    attached and a body carrying both [username] and [email]. *)
Definition updateUser (w : World) (userId : string) (req : Request) : M Reply :=
  let username := body_username req in
  let email := body_email req in
  existingUser <- User_findOne_other userId username email ;;
  match existingUser with
  | Some _ => ret (Std (mkResponse 400 (Message "用户名或邮箱已被使用")))
  | None =>
      user <- User_findByIdAndUpdate w userId username email ;;
      match user with
      | None => ret (Std (mkResponse 404 (Message "用户不存在")))
      | Some user => ret (ProfileReply 200 (profileOf user))
      end
  end.

(** The protected routes of [component.routes.ts] and of the user
    routes.  Their express-validator chains only record findings on the
    request: no middleware of these routes reads them, so the
    controller runs whatever they found. *)
Definition POST_components (w : World) (body : ComponentBody) (req : Request)
  : Store -> Reply * Store :=
  handleReply (authMiddlewareFor Std w (createComponent w body) req).

Definition GET_me (w : World) (req : Request) : Store -> Reply * Store :=
  handleReply (authMiddlewareFor Std w getCurrentUser req).

Definition PUT_me (w : World) (req : Request) : Store -> Reply * Store :=
  handleReply
    (authMiddlewareFor Std w
       (fun req' =>
          match user req' with
          | Some userId => updateUser w userId req'
          | None => ret (Std (mkResponse 401 (Message "未提供认证令牌")))
          end)
       req).

(** The trimmed fields of a component body are strings of ASCII
    characters. *)
Definition asciiComponent (b : ComponentBody) : bool :=
  Js.isAscii (c_name b) && Js.isAscii (c_description b)
  && forallb Js.isAscii (c_tags b).

(** The fields of a component body pass the schema validators. *)
Definition creatable (b : ComponentBody) : bool :=
  ((3 <=? Js.length (Js.trim (c_name b)))%nat
   && (Js.length (Js.trim (c_name b)) <=? 100)%nat
   && (10 <=? Js.length (Js.trim (c_description b)))%nat
   && (Js.length (Js.trim (c_description b)) <=? 500)%nat
   && existsb (String.eqb (c_category b)) categories
   && negb (String.eqb (c_code b) "")).

(** The component a successful creation stores. *)
Definition createdComponent (w : World) (b : ComponentBody) (author : ObjectId)
  : Component.t :=
  Component.mk (freshId w) (Js.trim (c_name b)) (Js.trim (c_description b))
               (c_category b) (map Js.trim (c_tags b)) (c_code b) author (now w) (now w).

Definition replies (codes : list nat) (c : M Reply) : Prop :=
  yields (fun r => In (replyStatus r) codes) c.

(** A request carries a token that verifies to [id]. *)
Definition authenticatedAs (w : World) (req : Request) (id : string) : Prop :=
  exists tok, bearerToken req = Some tok /\ Js.truthy (Some tok) = true
              /\ jwtVerify w tok = Some id.

(** A request carries no token, or one that does not verify. *)
Definition unauthenticated (w : World) (req : Request) : Prop :=
  Js.truthy (bearerToken req) = false
  \/ exists tok, bearerToken req = Some tok /\ jwtVerify w tok = None.

(* ================================================================== *)
(** ** The editor client *)

Module Client.

(** The outcome of one HTTP call made through axios: the response
    data of a 2xx answer, or a rejection carrying the [message] of the
    error body when the server sent one. *)
Inductive Http (A : Type) :=
| Resolved (data : A)
| Rejected (serverMessage : option string).
Arguments Resolved {A} data.
Arguments Rejected {A} serverMessage.

(** [new Error(msg)]. *)
Definition jsError (msg : string) : Error := mkError "Error" None msg.

(** [User] of [types.ts]. *)
Record User := mkUser {
  id : string;
  username : string;
  email : string
}.

(** The auth service: the token and profile it holds, and the entry
    of the editor's secret storage it owns. *)
Record AuthService := mkAuthService {
  _token : option string;
  _currentUser : option User;
  secret : option string
}.

(** The service as the constructor leaves it, over a secret storage. *)
Definition fresh (stored : option string) : AuthService :=
  mkAuthService None None stored.

Definition isAuthenticated (a : AuthService) : bool := Js.truthy (_token a).

Definition getCurrentUser (a : AuthService) : option User := _currentUser a.

(** The [Authorization] header value of [getAuthHeader()], if any. *)
Definition getAuthHeader (a : AuthService) : option string :=
  if Js.truthy (_token a)
  then match _token a with
       | Some t => Some ("Bearer " ++ t)%string
       | None => None
       end
  else None.

(** [_fetchCurrentUser], given the outcome of [GET /users/me]. *)
Definition fetchCurrentUser (resp : Http User) (a : AuthService)
  : Outcome unit * AuthService :=
  match resp with
  | Resolved u => (Ok tt, mkAuthService (_token a) (Some u) (secret a))
  | Rejected _ => (Throw (jsError "获取用户信息失败"), a)
  end.

(** [initialize]: the token is read from the secret storage; when
    there is one, the profile is fetched with it, and a failure
    discards the token in memory and in the storage. *)
Definition initialize (resp : Http User) (a : AuthService) : AuthService :=
  let a1 := mkAuthService (secret a) (_currentUser a) (secret a) in
  if Js.truthy (_token a1) then
    match fetchCurrentUser resp a1 with
    | (Ok _, a2) => a2
    | (Throw _, a2) => mkAuthService None (_currentUser a2) None
    end
  else a1.

(** The header [initialize] sends with its request, when it makes one. *)
Definition initializeRequest (a : AuthService) : option (option string) :=
  let a1 := mkAuthService (secret a) (_currentUser a) (secret a) in
  if Js.truthy (_token a1) then Some (getAuthHeader a1) else None.

(** [login], given the outcome of [POST /auth/login]. *)
Definition login (resp : Http (option string * User)) (a : AuthService)
  : Outcome unit * AuthService :=
  match resp with
  | Resolved (token, u) =>
      (Ok tt,
       mkAuthService token (Some u)
                     (if Js.truthy token then token else secret a))
  | Rejected m => (Throw (jsError (Js.or_string m "登录失败")), a)
  end.

(** [register], given the outcome of [POST /auth/register]. *)
Definition register (resp : Http unit) (a : AuthService)
  : Outcome unit * AuthService :=
  match resp with
  | Resolved _ => (Ok tt, a)
  | Rejected m => (Throw (jsError (Js.or_string m "注册失败")), a)
  end.

Definition logout (a : AuthService) : AuthService := mkAuthService None None None.

(** [Component] and [ComponentFilters] of [types.ts]. *)
Record Component := mkComponent {
  c_id : string;
  c_name : string;
  c_description : string;
  c_category : string;
  c_tags : list string;
  c_code : string;
  c_isFavorite : option bool
}.

Record ComponentFilters := mkFilters {
  searchTerm : option string;
  category : option string;
  sort : option string;
  favorites : option bool
}.

Definition noFilters : ComponentFilters := mkFilters None None None None.

(** The entries [ComponentService.getComponents] appends to its
    [URLSearchParams], in order. *)
Definition queryParams (f : ComponentFilters) : list (string * string) :=
  (match searchTerm f with
   | Some s => if Js.truthy (Some s) then [("search", s)] else []
   | None => []
   end)
  ++ (match category f with
      | Some s => if Js.truthy (Some s) then [("category", s)] else []
      | None => []
      end)
  ++ (match sort f with
      | Some s => if Js.truthy (Some s) then [("sort", s)] else []
      | None => []
      end)
  ++ (match favorites f with
      | Some true => [("favorites", "true")]
      | _ => []
      end).

(** [ComponentService.getComponents], given the outcome of its GET. *)
Definition getComponents (resp : Http (list Component)) : Outcome (list Component) :=
  match resp with
  | Resolved data => Ok data
  | Rejected _ => Throw (jsError "获取组件列表失败")
  end.

(** [ComponentService.toggleFavorite], given the outcome of its POST. *)
Definition toggleFavorite (resp : Http unit) : Outcome unit :=
  match resp with
  | Resolved _ => Ok tt
  | Rejected _ => Throw (jsError "收藏操作失败")
  end.

(** Items of the two tree views: a plain item with its label and
    context value, or the item of a component. *)
Inductive TreeItem :=
| Plain (label contextValue : string)
| ComponentItem (component : Component).

Definition itemLabel (i : TreeItem) : string :=
  match i with
  | Plain label _ => label
  | ComponentItem c => c_name c
  end.

Definition itemContext (i : TreeItem) : string :=
  match i with
  | Plain _ ctx => ctx
  | ComponentItem _ => "component"
  end.

(** The data of a message posted to the panel's page. *)
Inductive Payload :=
| ComponentsPayload (components : list Component) (error : option string)
                    (filters : ComponentFilters)
| LoginPayload (success : bool) (user : option User) (error : option string)
| ResultPayload (success : bool) (error : option string).

(** What the client does besides answering: HTTP requests (method,
    path under the API base, query entries, [Authorization] header),
    editor notifications and commands, view refreshes, and messages
    posted to the panel's page. *)
Inductive Effect :=
| HttpRequest (method path : string) (params : list (string * string))
              (authorization : option string)
| ShowErrorMessage (text : string)
| ShowInformationMessage (text : string)
| ExecuteCommand (command : string) (argument : option string)
| RefreshFavorites
| PostMessage (command : string) (payload : Payload).

(** The requests of [ComponentService] and [AuthService]. *)
Definition getComponentsRequest (f : ComponentFilters) (auth : AuthService) : Effect :=
  HttpRequest "GET" "/components" (queryParams f) (getAuthHeader auth).

Definition toggleFavoriteRequest (componentId : string) (auth : AuthService) : Effect :=
  HttpRequest "POST" ("/components/" ++ componentId ++ "/favorite")%string []
              (getAuthHeader auth).

Definition createComponentRequest (auth : AuthService) : Effect :=
  HttpRequest "POST" "/components" [] (getAuthHeader auth).

Definition loginRequest : Effect := HttpRequest "POST" "/auth/login" [] None.

Definition registerRequest : Effect := HttpRequest "POST" "/auth/register" [] None.

(** [ComponentService.createComponent], given the outcome of its POST. *)
Definition createComponent (resp : Http Component) : Outcome Component :=
  match resp with
  | Resolved data => Ok data
  | Rejected m => Throw (jsError (Js.or_string m "创建组件失败"))
  end.

(** [FavoriteProvider.getChildren]: the items, the provider's
    [_favorites] afterwards, and what was done on the way.  [resp] is
    the outcome of the GET, read only when the request is made. *)
Definition favoritesChildren (element : option TreeItem) (auth : AuthService)
  (resp : Http (list Component)) (_favorites : list Component)
  : list TreeItem * list Component * list Effect :=
  match element with
  | Some _ => ([], _favorites, [])
  | None =>
      if negb (isAuthenticated auth) then
        ([Plain "请登录以查看收藏" "login"], _favorites, [])
      else
        let request := getComponentsRequest (mkFilters None None None (Some true)) auth in
        match getComponents resp with
        | Ok data =>
            if (List.length data =? 0)%nat
            then ([Plain "暂无收藏" "empty"], data, [request])
            else (map ComponentItem data, data, [request])
        | Throw _ =>
            ([Plain "加载失败" "error"], _favorites,
             [request; ShowErrorMessage "无法加载收藏列表"])
        end
  end.

(** [ComponentProvider.getChildren]. *)
Definition componentsChildren (element : option TreeItem) (auth : AuthService)
  (resp : Http (list Component)) (_components : list Component)
  : list TreeItem * list Component * list Effect :=
  match element with
  | Some _ => ([], _components, [])
  | None =>
      let request := getComponentsRequest noFilters auth in
      match getComponents resp with
      | Ok data =>
          if (List.length data =? 0)%nat
          then ([Plain "暂无组件" "empty"], data, [request])
          else (map ComponentItem data, data, [request])
      | Throw _ =>
          ([Plain "加载失败" "error"], _components,
           [request; ShowErrorMessage "无法加载组件列表"])
      end
  end.

(** The [tailwindcss-block.toggleFavorite] command of [extension.ts].
    [choice] is what the user picked in the login prompt, [resp] the
    outcome of the POST; each is read only when it is asked for. *)
Definition toggleFavoriteCommand (componentId : string) (auth : AuthService)
  (choice : option string) (resp : Http unit) : list Effect :=
  if negb (isAuthenticated auth) then
    ShowInformationMessage "需要登录才能收藏组件"
    :: (if Js.is_lit choice "登录"
        then [ExecuteCommand "tailwindcss-block.openComponentMarket" (Some "login")]
        else [])
  else
    toggleFavoriteRequest componentId auth
    :: match toggleFavorite resp with
       | Ok _ => [RefreshFavorites]
       | Throw e => [ShowErrorMessage ("收藏操作失败: Error: " ++ message e)%string]
       end.

(** A message posted by the panel's page. *)
Record WebviewMessage := mkMessage {
  command : string;
  m_filters : ComponentFilters;
  m_username : string;
  m_email : string;
  m_password : string;
  m_componentId : option string
}.

(** The outcomes of the HTTP calls a message can lead to; each is
    read only by the command that makes the call. *)
Record Responses := mkResponses {
  r_components : Http (list Component);
  r_login : Http (option string * User);
  r_register : Http unit;
  r_upload : Http Component
}.

(** [ComponentMarketPanel._handleWebviewMessage]: what is done, and
    the auth service afterwards. *)
Definition handleWebviewMessage (msg : WebviewMessage) (resp : Responses)
  (auth : AuthService) : list Effect * AuthService :=
  let cmd := command msg in
  if String.eqb cmd "getComponents" then
    (getComponentsRequest (m_filters msg) auth
     :: match getComponents (r_components resp) with
        | Ok components =>
            [PostMessage "componentsResult"
               (ComponentsPayload components None (m_filters msg))]
        | Throw e =>
            [PostMessage "componentsResult"
               (ComponentsPayload []
                  (Some ("无法加载组件: Error: " ++ message e)%string)
                  (m_filters msg));
             ShowErrorMessage ("无法加载组件: Error: " ++ message e)%string]
        end,
     auth)
  else if String.eqb cmd "login" then
    match login (r_login resp) auth with
    | (Ok _, auth') =>
        ([loginRequest;
          PostMessage "loginResult" (LoginPayload true (getCurrentUser auth') None)],
         auth')
    | (Throw e, auth') =>
        ([loginRequest;
          PostMessage "loginResult"
            (LoginPayload false None (Some ("登录失败: Error: " ++ message e)%string))],
         auth')
    end
  else if String.eqb cmd "register" then
    match register (r_register resp) auth with
    | (Ok _, auth') =>
        ([registerRequest; PostMessage "registerResult" (ResultPayload true None)], auth')
    | (Throw e, auth') =>
        ([registerRequest;
          PostMessage "registerResult"
            (ResultPayload false (Some ("注册失败: Error: " ++ message e)%string))],
         auth')
    end
  else if String.eqb cmd "uploadComponent" then
    (createComponentRequest auth
     :: match createComponent (r_upload resp) with
        | Ok _ =>
            [PostMessage "uploadResult" (ResultPayload true None);
             ExecuteCommand "tailwindcss-block.refreshComponents" None]
        | Throw e =>
            [PostMessage "uploadResult"
               (ResultPayload false (Some ("上传失败: Error: " ++ message e)%string))]
        end,
     auth)
  else if String.eqb cmd "insertComponent" then
    ([ExecuteCommand "tailwindcss-block.insertComponent" (m_componentId msg)], auth)
  else if String.eqb cmd "toggleFavorite" then
    ([ExecuteCommand "tailwindcss-block.toggleFavorite" (m_componentId msg)], auth)
  else
    ([ShowErrorMessage ("操作失败: Error: 未知的命令: " ++ cmd)%string], auth).

(** The commands [_handleWebviewMessage] has a case for. *)
Definition panelCommands : list string :=
  ["getComponents"; "login"; "register"; "uploadComponent";
   "insertComponent"; "toggleFavorite"].

(** The commands the page's script posts. *)
Definition pageCommands : list string :=
  ["getComponents"; "login"; "register"; "uploadComponent"; "logout";
   "insertComponent"; "toggleFavorite"].

End Client.

(** Another stored user already has the normalised username or email
    of a profile update by the user [o]. *)
Definition updateConflict (st : Store) (o : ObjectId) (req : Request) : bool :=
  existsb (fun v => String.eqb (User.username v) (User.setUsername (body_username req))
                    || String.eqb (User.email v) (User.setEmail (body_email req)))
          (filter (fun v => negb (byId o v)) (users st)).

(** The document a profile update leaves for the stored user [u]. *)
Definition updatedUser (w : World) (u : User.t) (req : Request) : User.t :=
  User.mk (User._id u) (User.setUsername (body_username req))
          (User.setEmail (body_email req)) (User.password u) (User.favorites u)
          (User.createdAt u) (now w).

(** No two stored users share an identifier. *)
Definition idsUnique (st : Store) : Prop := NoDup (map User._id (users st)).

(* ================================================================== *)
(** ** Between the client and the backend *)

Module Wire.

(** The request the backend sees for a client GET of the component
    list: the [Authorization] header as sent, and each query entry
    under its key. *)
Definition param (key : string) (params : list (string * string)) : option string :=
  option_map snd (find (fun kv => String.eqb (fst kv) key) params).

Definition listRequest (params : list (string * string)) (authorization : option string)
  : Request :=
  mkRequest authorization None ""
            (param "search" params) (param "category" params)
            (param "sort" params) (param "favorites" params)
            "" "" "".

(** A request with the given [Authorization] header and nothing else. *)
Definition bareRequest (authorization : option string) : Request :=
  mkRequest authorization None "" None None None None "" "" "".

(** What axios hands the client for a backend answer: the data of a
    2xx answer, otherwise a rejection carrying the answer's message. *)
Definition rejection (b : Body) : option string :=
  match b with
  | Message m => Some m
  | _ => None
  end.

Definition is2xx (code : nat) : bool := ((200 <=? code) && (code <=? 299))%nat.

Definition loginData (r : Response) : Client.Http (option string * Client.User) :=
  if is2xx (status r) then
    match json r with
    | LoginOk token id name mail =>
        Client.Resolved (Some token, Client.mkUser (ObjectId.toString id) name mail)
    | _ => Client.Rejected None
    end
  else Client.Rejected (rejection (json r)).

Definition componentsData (decode : Row -> Client.Component) (r : Response)
  : Client.Http (list Client.Component) :=
  if is2xx (status r) then
    match json r with
    | ComponentList rows => Client.Resolved (map decode rows)
    | _ => Client.Rejected None
    end
  else Client.Rejected (rejection (json r)).

End Wire.

(** Further requests on the sample store. *)
Module Cases.

(** [GET /api/components?favorites=true] by bob. *)
Definition list_favorites_bob : Request :=
  Sample.as_user Sample.bob_id
    (Sample.with_bearer Sample.bob_token (Sample.with_query None (Some "true") Sample.request)).

(** [GET /api/components/<id of Card>] by bob. *)
Definition get_card_bob : Request :=
  Sample.as_user Sample.bob_id
    (Sample.with_bearer Sample.bob_token
       (Sample.with_id (ObjectId.toString Sample.card_id) Sample.request)).

(** [POST /api/components/<id of Card, in upper case>/favorite] by bob. *)
Definition favorite_card_upper : Request :=
  Sample.as_user Sample.bob_id
    (Sample.with_bearer Sample.bob_token
       (Sample.with_id "507F1F77BCF86CD799439012" Sample.request)).

(** [GET /api/components?category=buttons] with no token. *)
Definition list_buttons : Request :=
  mkRequest None None "" None (Some "buttons") None None "" "" "".

(** [POST /api/components/abc/favorite] by alice. *)
Definition favorite_malformed : Request :=
  Sample.with_bearer Sample.alice_token (Sample.with_id "abc" Sample.request).

(** A component body that passes the schema validators, posted by
    alice. *)
Definition badge_body : ComponentBody :=
  mkComponentBody " Badge " "A small status badge" "other" [" ui "; "status"] "<span/>".

Definition create_as_alice : Request :=
  Sample.as_user Sample.alice_id (Sample.with_bearer Sample.alice_token Sample.request).

(** [GET /api/components/<the new identifier>] with no token. *)
Definition get_new : Request :=
  Sample.with_id (ObjectId.toString (freshId Sample.world)) Sample.request.

(** [PUT /api/users/me] by alice: a new name and email, and bob's
    name. *)
Definition rename_alice : Request :=
  Sample.with_bearer Sample.alice_token
    (Sample.with_body " al " "Alice@Y.com" "" Sample.request).

Definition rename_alice_to_bob : Request :=
  Sample.with_bearer Sample.alice_token
    (Sample.with_body "bob" "alice@x.com" "" Sample.request).

(** A client whose token the sample world does not verify. *)
Definition stale_client : Client.AuthService :=
  Client.mkAuthService (Some "expired.token") None (Some "expired.token").

(** A client logged in as bob. *)
Definition bob_client : Client.AuthService :=
  Client.mkAuthService (Some Sample.bob_token)
    (Some (Client.mkUser (ObjectId.toString Sample.bob_id) "bob" "bob@x.com"))
    (Some Sample.bob_token).

(** A reading of the rows the backend sends as client components. *)
Definition decode (r : Row) : Client.Component :=
  Client.mkComponent (ObjectId.toString (Component._id (row_doc r)))
                     (Component.name (row_doc r))
                     (Component.description (row_doc r))
                     (Component.category (row_doc r))
                     (Component.tags (row_doc r))
                     (Component.code (row_doc r))
                     (isFavorite r).

End Cases.

(* ================================================================== *)
(** ** The identifier codec *)

Module HexFacts.
Import Hex.

Lemma byte_roundtrip (b : byte) : byte_of_digits (hi b) (lo b) = Some b.
Proof. destruct b; vm_compute; reflexivity. Qed.

Lemma decode_encode (bs : list byte) : decode (encode bs) = Some bs.
Proof.
  induction bs as [|b rest IH]; [reflexivity|].
  cbn [encode decode]. now rewrite byte_roundtrip, IH.
Qed.

Lemma encode_inj (xs ys : list byte) : encode xs = encode ys -> xs = ys.
Proof.
  intros E. apply (f_equal decode) in E.
  rewrite !decode_encode in E. congruence.
Qed.

End HexFacts.

Module ObjectIdFacts.
Import ObjectId.

Lemma of_bytes_bytes (o : t) : of_bytes (bytes o) = Some o.
Proof. destruct o; reflexivity. Qed.

Lemma bytes_inj (a b : t) : bytes a = bytes b -> a = b.
Proof.
  intros E. apply (f_equal of_bytes) in E.
  rewrite !of_bytes_bytes in E. congruence.
Qed.

Lemma cast_toString (o : t) : cast (toString o) = Some o.
Proof.
  unfold cast, toString. rewrite HexFacts.decode_encode. apply of_bytes_bytes.
Qed.

Lemma toString_inj (a b : t) : toString a = toString b -> a = b.
Proof. intros E. apply bytes_inj, HexFacts.encode_inj, E. Qed.

Lemma eqb_eq (a b : t) : eqb a b = true <-> a = b.
Proof.
  unfold eqb. destruct (list_eq_dec _ _ _) as [E|N]; split; intros H.
  - now apply bytes_inj.
  - reflexivity.
  - discriminate.
  - subst. now contradiction N.
Qed.

Lemma eqb_refl (a : t) : eqb a a = true.
Proof. now apply eqb_eq. Qed.

Lemma eqb_neq (a b : t) : eqb a b = false <-> a <> b.
Proof.
  rewrite <- eqb_eq. destruct (eqb a b); split; congruence.
Qed.

Lemma eq_dec (a b : t) : {a = b} + {a <> b}.
Proof.
  destruct (eqb a b) eqn:E.
  - left. now apply eqb_eq.
  - right. now apply eqb_neq.
Defined.

Lemma str_is_toString (a b : t) : str_is (toString a) b = eqb b a.
Proof.
  unfold str_is. destruct (String.eqb_spec (toString b) (toString a)) as [E|N].
  - apply toString_inj in E. subst. now rewrite eqb_refl.
  - symmetry. apply eqb_neq. intros ->. now apply N.
Qed.

End ObjectIdFacts.

(* ================================================================== *)
(** ** Array operations *)

Section Arrays.

Context {A : Type}.
Variable p : A -> bool.

Lemma findIndex_ge (l : list A) : (-1 <= Js.findIndex p l)%Z.
Proof.
  induction l as [|x rest IH]; cbn [Js.findIndex]; [lia|].
  destruct (p x); [lia|].
  destruct (Js.findIndex p rest =? -1)%Z; lia.
Qed.

(** [findIndex] answers [-1] exactly when no element satisfies [p]. *)
Lemma findIndex_none (l : list A) :
  Js.findIndex p l = (-1)%Z <-> (forall x, In x l -> p x = false).
Proof.
  induction l as [|x rest IH]; cbn [Js.findIndex].
  - split; [intros _ y []|reflexivity].
  - destruct (p x) eqn:Px.
    + split; [discriminate|].
      intros H. specialize (H x (or_introl eq_refl)). congruence.
    + pose proof (findIndex_ge rest) as G.
      destruct (Js.findIndex p rest =? -1)%Z eqn:E.
      * apply Z.eqb_eq in E. split; [|reflexivity].
        intros _ y [<-|Hy]; [exact Px|]. now apply IH.
      * apply Z.eqb_neq in E. split; [lia|].
        intros H. exfalso. apply E, IH. intros y Hy. apply H. now right.
Qed.

(** Otherwise it is the position of the first element satisfying [p]. *)
Lemma findIndex_some (l : list A) :
  Js.findIndex p l <> (-1)%Z ->
  exists l1 x l2,
    l = l1 ++ x :: l2 /\ p x = true
    /\ (forall y, In y l1 -> p y = false)
    /\ Js.findIndex p l = Z.of_nat (List.length l1).
Proof.
  induction l as [|x rest IH]; cbn [Js.findIndex]; [congruence|].
  destruct (p x) eqn:Px.
  - intros _. exists [], x, rest. repeat split; auto. intros y [].
  - destruct (Js.findIndex p rest =? -1)%Z eqn:E; [congruence|].
    apply Z.eqb_neq in E. intros _.
    destruct (IH E) as (l1 & y & l2 & -> & Py & Hl1 & Hi).
    exists (x :: l1), y, l2. repeat split; auto.
    + intros z [<-|Hz]; auto.
    + rewrite Hi. cbn [List.length]. lia.
Qed.

(** [splice(i, 1)] at the position of an element removes exactly it. *)
Lemma splice_at (l1 l2 : list A) (x : A) :
  Js.splice (Z.of_nat (List.length l1)) 1 (l1 ++ x :: l2) = l1 ++ l2.
Proof.
  unfold Js.splice.
  assert (H : (Z.of_nat (List.length l1) <? 0)%Z = false) by (apply Z.ltb_ge; lia).
  rewrite H, length_app. cbn [List.length].
  rewrite Z.min_l by lia. rewrite Nat2Z.id.
  rewrite firstn_app, firstn_all, Nat.sub_diag. cbn [firstn].
  rewrite app_nil_r. f_equal.
  rewrite skipn_app.
  rewrite skipn_all2 by lia.
  replace (List.length l1 + 1 - List.length l1) with 1 by lia.
  reflexivity.
Qed.

End Arrays.

(* ================================================================== *)
(** ** Sorting *)

Section Sorting.

Context {A : Type}.
Variable le : A -> A -> bool.
Hypothesis le_total : forall a b, le a b = true \/ le b a = true.

Let leP (a b : A) : Prop := le a b = true.

Lemma insertBy_HdRel (x a : A) (l : list A) :
  leP a x -> HdRel leP a l -> HdRel leP a (insertBy le x l).
Proof.
  intros Hax H. destruct l as [|y rest]; cbn [insertBy].
  - now constructor.
  - destruct (le x y); constructor; auto. now inversion H.
Qed.

Lemma insertBy_Sorted (x : A) (l : list A) :
  Sorted leP l -> Sorted leP (insertBy le x l).
Proof.
  induction l as [|y rest IH]; intros S; cbn [insertBy].
  - repeat constructor.
  - destruct (le x y) eqn:E.
    + constructor; [assumption|]. now constructor.
    + inversion S as [|? ? S' H]; subst.
      constructor; [now apply IH|].
      apply insertBy_HdRel; [|assumption].
      destruct (le_total x y) as [F|F]; [congruence|exact F].
Qed.

Lemma sortBy_Sorted (l : list A) : Sorted leP (sortBy le l).
Proof.
  induction l as [|x rest IH]; cbn [sortBy]; [constructor|].
  now apply insertBy_Sorted.
Qed.

Lemma insertBy_Permutation (x : A) (l : list A) :
  Permutation (x :: l) (insertBy le x l).
Proof.
  induction l as [|y rest IH]; cbn [insertBy]; [reflexivity|].
  destruct (le x y); [reflexivity|].
  rewrite perm_swap. now constructor.
Qed.

Lemma sortBy_Permutation (l : list A) : Permutation l (sortBy le l).
Proof.
  induction l as [|x rest IH]; cbn [sortBy]; [constructor|].
  rewrite <- insertBy_Permutation. now constructor.
Qed.

End Sorting.

(* ================================================================== *)
(** ** Queries and writes on the user collection *)

Ltac mstep :=
  unfold handle, bind, ret, throw, getStore, putStore, respond, respondOk in *;
  cbn [fst snd] in *.

Lemma byId_eq (o : ObjectId) (u : User.t) : byId o u = true <-> User._id u = o.
Proof. unfold byId. apply ObjectIdFacts.eqb_eq. Qed.

Lemma lookupUser_id (st : Store) (uid : ObjectId) (u : User.t) :
  lookupUser st uid = Some u -> User._id u = uid.
Proof.
  unfold lookupUser. intros H. apply find_some in H. now apply byId_eq.
Qed.

Lemma User_findById_cast (s : string) (o : ObjectId) (st : Store) :
  ObjectId.cast s = Some o ->
  User_findById (Some s) st = (Ok (option_map hydrate (lookupUser st o)), st).
Proof. intros C. unfold User_findById. rewrite C. reflexivity. Qed.

Lemma User_findById_malformed (s : string) (st : Store) :
  ObjectId.cast s = None ->
  User_findById (Some s) st = (Throw (castError s "User"), st).
Proof. intros C. unfold User_findById. rewrite C. reflexivity. Qed.

Lemma User_findById_store (id : option string) (st st' : Store) (r : Outcome (option UserDoc)) :
  User_findById id st = (r, st') -> st' = st.
Proof.
  unfold User_findById. destruct id as [s|]; [destruct (ObjectId.cast s)|];
    mstep; congruence.
Qed.

(** A found user is a stored one, handed out with no path modified. *)
Lemma User_findById_found (id : option string) (st st' : Store) (doc : UserDoc) :
  User_findById id st = (Ok (Some doc), st') ->
  exists uid u, id <> None /\ lookupUser st uid = Some u /\ doc = hydrate u /\ st' = st
                /\ match id with Some s => ObjectId.cast s = Some uid | None => False end.
Proof.
  unfold User_findById. destruct id as [s|]; [|mstep; congruence].
  destruct (ObjectId.cast s) as [o|] eqn:C; [|mstep; congruence].
  mstep. fold (lookupUser st o). destruct (lookupUser st o) as [u|] eqn:L; cbn; [|congruence].
  intros [= <- <-]. exists o, u. repeat split; congruence.
Qed.

Lemma Component_findById_cast (s : string) (o : ObjectId) (st : Store) :
  ObjectId.cast s = Some o ->
  Component_findById s st
  = (Ok (option_map (populateAuthor st) (lookupComponent st o)), st).
Proof. intros C. unfold Component_findById. rewrite C. reflexivity. Qed.

Lemma Component_findById_malformed (s : string) (st : Store) :
  ObjectId.cast s = None ->
  Component_findById s st = (Throw (castError s "Component"), st).
Proof. intros C. unfold Component_findById. rewrite C. reflexivity. Qed.

Lemma find_updateFirst (o : ObjectId) (f : User.t -> User.t) (l : list User.t) :
  (forall u, User._id (f u) = User._id u) ->
  find (byId o) (updateFirst o f l) = option_map f (find (byId o) l).
Proof.
  intros Hf. induction l as [|u rest IH]; cbn [updateFirst find]; [reflexivity|].
  destruct (byId o u) eqn:E; cbn [find].
  - assert (byId o (f u) = true) as ->; [|reflexivity].
    apply byId_eq. rewrite Hf. now apply byId_eq.
  - now rewrite E.
Qed.

Lemma find_updateFirst_other (o o' : ObjectId) (f : User.t -> User.t) (l : list User.t) :
  (forall u, User._id (f u) = User._id u) -> o' <> o ->
  find (byId o') (updateFirst o f l) = find (byId o') l.
Proof.
  intros Hf N. induction l as [|u rest IH]; cbn [updateFirst find]; [reflexivity|].
  destruct (byId o u) eqn:E; cbn [find].
  - apply byId_eq in E.
    assert (byId o' u = false) as ->.
    { apply ObjectIdFacts.eqb_neq. congruence. }
    assert (byId o' (f u) = false) as ->; [|reflexivity].
    apply ObjectIdFacts.eqb_neq. rewrite Hf. congruence.
  - now rewrite IH.
Qed.

Lemma map_updateFirst {B} (g : User.t -> B) (o : ObjectId) (f : User.t -> User.t)
  (l : list User.t) :
  (forall u, g (f u) = g u) -> map g (updateFirst o f l) = map g l.
Proof.
  intros Hf. induction l as [|u rest IH]; cbn [updateFirst map]; [reflexivity|].
  destruct (byId o u); cbn [map]; [now rewrite Hf|now rewrite IH].
Qed.

Lemma lookupUser_writeFavorites w uid favs st :
  lookupUser (writeFavorites w uid favs st) uid
  = option_map (fun stored =>
                  User.set_timestamps (User.createdAt stored) (now w)
                    (User.set_favorites favs stored))
               (lookupUser st uid).
Proof. unfold lookupUser, writeFavorites. cbn [users]. now apply find_updateFirst. Qed.

Lemma favoritesOf_writeFavorites w uid favs st u :
  lookupUser st uid = Some u ->
  favoritesOf (writeFavorites w uid favs st) uid = favs.
Proof.
  intros L. unfold favoritesOf. rewrite lookupUser_writeFavorites, L. reflexivity.
Qed.

Lemma lookupComponent_writeFavorites w uid favs st cid :
  lookupComponent (writeFavorites w uid favs st) cid = lookupComponent st cid.
Proof. reflexivity. Qed.

(** On a string of ASCII characters the code units are the bytes. *)
Lemma length_ascii (s : string) :
  Js.isAscii s = true -> Js.length s = String.length s.
Proof.
  unfold Js.isAscii. induction s as [|c rest IH]; [reflexivity|].
  cbn [list_ascii_of_string forallb Js.length String.length].
  intros H. apply andb_true_iff in H as [Hc Hrest].
  rewrite Hc, (IH Hrest). reflexivity.
Qed.

Lemma filter_negb_forallb {A} (f : A -> bool) (l : list A) :
  forallb f l = true -> filter (fun x => negb (f x)) l = [].
Proof.
  induction l as [|x rest IH]; cbn [forallb filter]; [reflexivity|].
  intros H. apply andb_true_iff in H as [Hx Hrest]. rewrite Hx. cbn [negb]. auto.
Qed.

Lemma filter_negb_forallb_false {A} (f : A -> bool) (l : list A) :
  forallb f l = false -> filter (fun x => negb (f x)) l <> [].
Proof.
  induction l as [|x rest IH]; cbn [forallb filter]; [discriminate|].
  destruct (f x); cbn [negb andb]; [exact IH|discriminate].
Qed.

(** Validation passes exactly on the documents whose fields all pass,
    and its error carries no [statusCode]. *)
Lemma validate_valid (w : World) (doc : UserDoc) :
  validUser (fields doc) = true -> validate w doc = None.
Proof.
  intros V. unfold validate. now rewrite (filter_negb_forallb _ _ V).
Qed.

Lemma validate_invalid (w : World) (doc : UserDoc) :
  validUser (fields doc) = false ->
  exists e, validate w doc = Some e /\ statusCode e = None.
Proof.
  intros V. unfold validate.
  pose proof (filter_negb_forallb_false _ _ V) as N.
  destruct (filter _ userPaths) as [|p ps]; [congruence|].
  eexists. split; reflexivity.
Qed.

Lemma validate_error (w : World) (doc : UserDoc) (e : Error) :
  validate w doc = Some e -> status (errorMiddleware e) = 500.
Proof.
  unfold validate. destruct (filter _ _); [discriminate|]. now intros [= <-].
Qed.

Lemma validUser_set_favorites (favs : list ObjectId) (u : User.t) :
  validUser (User.set_favorites favs u) = validUser u.
Proof. reflexivity. Qed.

(** Saving a stored document whose only modified path is [favorites]:
    the write happens when the stored fields pass the validators, and
    the save throws before writing when one of them does not. *)
Lemma User_save_favorites (w : World) (st : Store) (u : User.t) (favs : list ObjectId) :
  validUser u = true ->
  lookupUser st (User._id u) = Some u ->
  User_save w (mkUserDoc (User.set_favorites favs u) false [P_favorites]) st
  = (Ok tt, writeFavorites w (User._id u) favs st).
Proof.
  intros V L. unfold User_save.
  rewrite validate_valid by (cbn [fields]; now rewrite validUser_set_favorites).
  unfold preSave, isModified.
  cbn [isNew modifiedPaths fields find existsb UserPath_eqb validPath negb orb andb].
  mstep. cbn [User.set_favorites User._id].
  unfold lookupUser in L. rewrite L.
  unfold writeFavorites, applyPaths. cbn [fold_left applyPath andb].
  destruct u; reflexivity.
Qed.

Lemma User_save_favorites_invalid (w : World) (st : Store) (u : User.t)
  (favs : list ObjectId) :
  validUser u = false ->
  exists e,
    User_save w (mkUserDoc (User.set_favorites favs u) false [P_favorites]) st
    = (Throw e, st)
    /\ statusCode e = None.
Proof.
  intros V. unfold User_save.
  destruct (validate_invalid w (mkUserDoc (User.set_favorites favs u) false [P_favorites]))
    as (e & -> & He).
  { cbn [fields]. now rewrite validUser_set_favorites. }
  exists e. split; [reflexivity|exact He].
Qed.

(** The toggle, once the component and the user are found and the
    user's stored fields pass the validators of the save. *)
Lemma toggleFavorite_found (w : World) (req : Request) (st : Store)
  (cid uid : ObjectId) (c : Component.t) (u : User.t) (s : string) :
  ObjectId.cast (params_id req) = Some cid ->
  lookupComponent st cid = Some c ->
  user req = Some s -> ObjectId.cast s = Some uid ->
  lookupUser st uid = Some u ->
  validUser u = true ->
  let index := Js.findIndex (ObjectId.str_is (params_id req)) (User.favorites u) in
  handle (toggleFavorite w req) st
  = (mkResponse 200 (FavoriteState (index =? -1)%Z),
     writeFavorites w uid
       (if (index =? -1)%Z then Js.push (User.favorites u) cid
        else Js.splice index 1 (User.favorites u))
       st).
Proof.
  intros C Lc Us Cu Lu V index. unfold toggleFavorite.
  unfold handle, bind at 1. rewrite (Component_findById_cast _ _ st C), Lc. cbn [option_map].
  unfold bind at 1. rewrite Us, (User_findById_cast _ _ st Cu), Lu. cbn [option_map].
  cbn [fields hydrate]. fold index.
  pose proof (lookupUser_id _ _ _ Lu) as Hid. subst uid.
  destruct (index =? -1)%Z.
  - unfold newObjectId. rewrite C. unfold bind at 1 2, ret at 1 2.
    unfold favorites_push, markModified, isModified.
    cbn [fields hydrate isNew modifiedPaths existsb app].
    unfold bind. rewrite (User_save_favorites w _ _ _ V Lu). reflexivity.
  - unfold bind at 1, ret at 1.
    unfold favorites_splice, markModified, isModified.
    cbn [fields hydrate isNew modifiedPaths existsb app].
    unfold bind. rewrite (User_save_favorites w _ _ _ V Lu). reflexivity.
Qed.

(** When a stored field of the caller fails its validator, the save of
    the toggle throws: the error responder answers 500 and nothing is
    written. *)
Lemma toggleFavorite_invalid_user (w : World) (req : Request) (st : Store)
  (cid uid : ObjectId) (c : Component.t) (u : User.t) (s : string) :
  ObjectId.cast (params_id req) = Some cid ->
  lookupComponent st cid = Some c ->
  user req = Some s -> ObjectId.cast s = Some uid ->
  lookupUser st uid = Some u ->
  validUser u = false ->
  exists e,
    handle (toggleFavorite w req) st
    = (mkResponse 500 (Message (Js.or_string (Some (message e)) "服务器内部错误")), st)
    /\ err_name e = "ValidationError".
Proof.
  intros C Lc Us Cu Lu V. unfold toggleFavorite.
  unfold handle, bind at 1. rewrite (Component_findById_cast _ _ st C), Lc. cbn [option_map].
  unfold bind at 1. rewrite Us, (User_findById_cast _ _ st Cu), Lu. cbn [option_map].
  cbn [fields hydrate].
  assert (S : forall favs,
             exists e,
               User_save w (mkUserDoc (User.set_favorites favs u) false [P_favorites]) st
               = (Throw e, st)
               /\ statusCode e = None /\ err_name e = "ValidationError").
  { intros favs. unfold User_save.
    pose proof (filter_negb_forallb_false _ _ V) as N.
    unfold validate. cbn [fields].
    change (validPath (User.set_favorites favs u)) with (validPath u).
    destruct (filter _ userPaths) as [|p ps]; [congruence|].
    eexists. repeat split. }
  destruct (Js.findIndex _ _ =? -1)%Z.
  - unfold newObjectId. rewrite C. unfold bind at 1 2, ret at 1 2.
    unfold favorites_push, markModified, isModified.
    cbn [fields hydrate isNew modifiedPaths existsb app].
    destruct (S (Js.push (User.favorites u) cid)) as (e & Hs & Hc & Hn).
    unfold bind. rewrite Hs. exists e. split; [|exact Hn].
    unfold errorMiddleware. now rewrite Hc.
  - unfold bind at 1, ret at 1.
    unfold favorites_splice, markModified, isModified.
    cbn [fields hydrate isNew modifiedPaths existsb app].
    match goal with
    | |- context [User.set_favorites ?f u] => destruct (S f) as (e & Hs & Hc & Hn)
    end.
    unfold bind. rewrite Hs. exists e. split; [|exact Hn].
    unfold errorMiddleware. now rewrite Hc.
Qed.

(* ================================================================== *)
(** ** The favorites toggle *)

Lemma str_is_canonical (cid x : ObjectId) :
  ObjectId.str_is (ObjectId.toString cid) x = true <-> x = cid.
Proof. rewrite ObjectIdFacts.str_is_toString. apply ObjectIdFacts.eqb_eq. Qed.

(** With the identifier in its string form, the index test is the
    membership test. *)
Lemma findIndex_absent (cid : ObjectId) (favs : list ObjectId) :
  ~ In cid favs ->
  Js.findIndex (ObjectId.str_is (ObjectId.toString cid)) favs = (-1)%Z.
Proof.
  intros N. apply (proj2 (findIndex_none _ _)). intros x Hx.
  destruct (ObjectId.str_is (ObjectId.toString cid) x) eqn:E; [|reflexivity].
  apply str_is_canonical in E. subst. contradiction.
Qed.

Lemma findIndex_present (cid : ObjectId) (favs : list ObjectId) :
  In cid favs ->
  let index := Js.findIndex (ObjectId.str_is (ObjectId.toString cid)) favs in
  index <> (-1)%Z
  /\ exists l1 l2, favs = l1 ++ cid :: l2 /\ ~ In cid l1
                   /\ Js.splice index 1 favs = l1 ++ l2.
Proof.
  intros I index.
  assert (Hne : index <> (-1)%Z).
  { intros E. unfold index in E.
    pose proof (proj1 (findIndex_none _ _) E cid I) as F.
    assert (ObjectId.str_is (ObjectId.toString cid) cid = true) by now apply str_is_canonical.
    congruence. }
  split; [exact Hne|].
  destruct (findIndex_some _ _ Hne) as (l1 & x & l2 & E & Px & Hl1 & Hi).
  apply str_is_canonical in Px. subst x.
  exists l1, l2. split; [exact E|]. split.
  - intros I1. specialize (Hl1 cid I1).
    assert (ObjectId.str_is (ObjectId.toString cid) cid = true) by now apply str_is_canonical.
    congruence.
  - unfold index at 1. rewrite Hi. rewrite E at 1. apply splice_at.
Qed.

Lemma toggleFavorite_no_component (w : World) (req : Request) (st : Store)
  (cid : ObjectId) :
  ObjectId.cast (params_id req) = Some cid ->
  lookupComponent st cid = None ->
  handle (toggleFavorite w req) st = (mkResponse 404 (Message "组件不存在"), st).
Proof.
  intros C L. unfold toggleFavorite, handle, bind.
  rewrite (Component_findById_cast _ _ st C), L. reflexivity.
Qed.

Lemma toggleFavorite_no_user (w : World) (req : Request) (st : Store)
  (cid : ObjectId) :
  ObjectId.cast (params_id req) = Some cid ->
  lookupComponent st cid <> None ->
  User_findById (user req) st = (Ok None, st) ->
  handle (toggleFavorite w req) st = (mkResponse 404 (Message "用户不存在"), st).
Proof.
  intros C L U. unfold toggleFavorite, handle, bind.
  rewrite (Component_findById_cast _ _ st C).
  destruct (lookupComponent st cid); [|congruence]. cbn [option_map].
  rewrite U. reflexivity.
Qed.

Lemma toggleFavorite_malformed (w : World) (req : Request) (st : Store) :
  ObjectId.cast (params_id req) = None ->
  handle (toggleFavorite w req) st
  = (mkResponse 500 (Message (message (castError (params_id req) "Component"))), st).
Proof.
  intros C. unfold toggleFavorite, handle, bind.
  rewrite (Component_findById_malformed _ st C). reflexivity.
Qed.

(** C3 (as the code has it). The favorites toggle for a target id and a
    caller identity.  An id that is not a well-formed identifier makes
    the component query throw a cast error, which the error responder
    answers with 500; nothing is written.  For an id that is the string
    form of an identifier [cid]: the toggle answers 404 and leaves the
    store as it was when no component has that id, and when the identity
    resolves to no stored user; otherwise the caller's document is saved,
    and the save validates its stored fields: when one of them fails its
    validator the answer is 500 and nothing is written; when they pass,
    an id that is not in the caller's favorites is appended and the
    answer is [isFavorite = true], an id that is in them is removed (at
    its first position) and the answer is [isFavorite = false], and on
    favorites without duplicates the answered boolean is the membership
    of [cid] in the favorites after the call, which are again without
    duplicates. *)
Theorem toggleFavorite_spec :
  forall (w : World) (st : Store) (req : Request),
    (ObjectId.cast (params_id req) = None ->
     handle (toggleFavorite w req) st
     = (mkResponse 500 (Message (message (castError (params_id req) "Component"))), st))
    /\ forall cid : ObjectId,
        params_id req = ObjectId.toString cid ->
        (lookupComponent st cid = None ->
         handle (toggleFavorite w req) st
         = (mkResponse 404 (Message "组件不存在"), st))
        /\ (lookupComponent st cid <> None ->
            (user req = None
             \/ exists s uid, user req = Some s /\ ObjectId.cast s = Some uid
                              /\ lookupUser st uid = None) ->
            handle (toggleFavorite w req) st
            = (mkResponse 404 (Message "用户不存在"), st))
        /\ (forall s uid u,
              lookupComponent st cid <> None ->
              user req = Some s -> ObjectId.cast s = Some uid ->
              lookupUser st uid = Some u ->
              let res := fst (handle (toggleFavorite w req) st) in
              let st' := snd (handle (toggleFavorite w req) st) in
              (validUser u = false -> status res = 500 /\ st' = st)
              /\ (validUser u = true ->
                  (~ In cid (User.favorites u) ->
                   res = mkResponse 200 (FavoriteState true)
                   /\ favoritesOf st' uid = User.favorites u ++ [cid])
                  /\ (In cid (User.favorites u) ->
                      res = mkResponse 200 (FavoriteState false)
                      /\ exists l1 l2, User.favorites u = l1 ++ cid :: l2
                                       /\ ~ In cid l1
                                       /\ favoritesOf st' uid = l1 ++ l2)
                  /\ (NoDup (User.favorites u) ->
                      NoDup (favoritesOf st' uid)
                      /\ exists b, res = mkResponse 200 (FavoriteState b)
                                   /\ (b = true <-> In cid (favoritesOf st' uid))))).
Proof.
  intros w st req. split; [apply toggleFavorite_malformed|].
  intros cid Hid.
  assert (C : ObjectId.cast (params_id req) = Some cid).
  { rewrite Hid. apply ObjectIdFacts.cast_toString. }
  split; [|split].
  - now apply toggleFavorite_no_component.
  - intros L [Hnone|(s & uid & Hs & Cs & Lu)];
      apply (toggleFavorite_no_user w req st cid C L).
    + rewrite Hnone. reflexivity.
    + rewrite Hs, (User_findById_cast _ _ st Cs), Lu. reflexivity.
  - intros s uid u L Hs Cs Lu res st'.
    destruct (lookupComponent st cid) as [c|] eqn:Lc; [|congruence].
    split.
    { intros V.
      destruct (toggleFavorite_invalid_user w req st cid uid c u s C Lc Hs Cs Lu V)
        as (e & R & _).
      subst res st'. rewrite R. split; reflexivity. }
    intros V.
    pose proof (toggleFavorite_found w req st cid uid c u s C Lc Hs Cs Lu V) as R.
    cbv zeta in R. subst res st'. rewrite R. cbn [fst snd]. clear R.
    rewrite Hid.
    destruct (in_dec ObjectIdFacts.eq_dec cid (User.favorites u)) as [I|N].
    + destruct (findIndex_present cid (User.favorites u) I)
        as (Hne & l1 & l2 & E & Hl1 & Hsp).
      apply Z.eqb_neq in Hne. rewrite Hne.
      rewrite (favoritesOf_writeFavorites _ _ _ _ _ Lu), Hsp.
      split; [intros; contradiction|]. split.
      * intros _. split; [reflexivity|]. exists l1, l2. auto.
      * intros ND. rewrite E in ND. split; [now apply NoDup_remove_1 in ND|].
        exists false. split; [reflexivity|]. split; [discriminate|].
        intros Hin. now apply NoDup_remove_2 in ND.
    + rewrite (findIndex_absent cid _ N). cbn [Z.eqb Pos.eqb].
      rewrite (favoritesOf_writeFavorites _ _ _ _ _ Lu). unfold Js.push.
      split; [intros _; split; reflexivity|]. split; [intros; contradiction|].
      intros ND. split.
      * apply NoDup_app; [assumption|repeat constructor; intros []|].
        intros x Hx [<-|[]]. contradiction.
      * exists true. split; [reflexivity|]. split; [|reflexivity].
        intros _. apply in_or_app. right. now left.
Qed.

(** The favorites after one toggle with the identifier in its string
    form: the same list without [cid], or with [cid] appended. *)
Lemma toggleFavorite_canonical (w : World) (req : Request) (st : Store)
  (cid uid : ObjectId) (c : Component.t) (u : User.t) (s : string) :
  params_id req = ObjectId.toString cid ->
  lookupComponent st cid = Some c ->
  user req = Some s -> ObjectId.cast s = Some uid ->
  lookupUser st uid = Some u ->
  validUser u = true ->
  NoDup (User.favorites u) ->
  exists favs' b,
    handle (toggleFavorite w req) st
    = (mkResponse 200 (FavoriteState b), writeFavorites w uid favs' st)
    /\ NoDup favs'
    /\ (In cid (User.favorites u) -> b = false /\ ~ In cid favs'
        /\ Permutation (User.favorites u) (cid :: favs'))
    /\ (~ In cid (User.favorites u) -> b = true
        /\ favs' = User.favorites u ++ [cid]).
Proof.
  intros Hid Lc Hs Cs Lu V ND.
  assert (C : ObjectId.cast (params_id req) = Some cid).
  { rewrite Hid. apply ObjectIdFacts.cast_toString. }
  pose proof (toggleFavorite_found w req st cid uid c u s C Lc Hs Cs Lu V) as R.
  cbv zeta in R. rewrite Hid in R.
  destruct (in_dec ObjectIdFacts.eq_dec cid (User.favorites u)) as [I|N].
  - destruct (findIndex_present cid (User.favorites u) I)
      as (Hne & l1 & l2 & E & Hl1 & Hsp).
    apply Z.eqb_neq in Hne. rewrite Hne, Hsp in R.
    exists (l1 ++ l2), false. split; [exact R|].
    rewrite E in ND. split; [now apply NoDup_remove_1 in ND|].
    split; [|intros; contradiction].
    intros _. split; [reflexivity|]. split; [now apply NoDup_remove_2 in ND|].
    rewrite E. symmetry. apply Permutation_middle.
  - rewrite (findIndex_absent cid _ N) in R. cbn [Z.eqb Pos.eqb] in R.
    exists (User.favorites u ++ [cid]), true. split; [exact R|]. split.
    + apply NoDup_app; [assumption|repeat constructor; intros []|].
      intros x Hx [<-|[]]. contradiction.
    + split; [intros; contradiction|]. intros _. split; reflexivity.
Qed.

(** With the identifier in its string form, toggling the same stored
    component twice in sequence, for a stored user whose fields pass the
    validators and whose favorites hold no duplicates, brings the
    favorites back to the original membership: the same identifiers are
    members before and after (the list is a permutation of the original
    one), and the two answers are opposite. *)
Lemma toggleFavorite_twice_canonical :
  forall (w1 w2 : World) (st : Store) (req : Request)
         (cid uid : ObjectId) (s : string) (u : User.t),
    params_id req = ObjectId.toString cid ->
    lookupComponent st cid <> None ->
    user req = Some s -> ObjectId.cast s = Some uid ->
    lookupUser st uid = Some u ->
    validUser u = true ->
    NoDup (User.favorites u) ->
    let r1 := handle (toggleFavorite w1 req) st in
    let r2 := handle (toggleFavorite w2 req) (snd r1) in
    (forall x, In x (favoritesOf (snd r2) uid) <-> In x (User.favorites u))
    /\ Permutation (User.favorites u) (favoritesOf (snd r2) uid)
    /\ exists b, fst r1 = mkResponse 200 (FavoriteState b)
                 /\ fst r2 = mkResponse 200 (FavoriteState (negb b)).
Proof.
  intros w1 w2 st req cid uid s u Hid L Hs Cs Lu V ND r1 r2.
  destruct (lookupComponent st cid) as [c|] eqn:Lc; [clear L|congruence].
  destruct (toggleFavorite_canonical w1 req st cid uid c u s Hid Lc Hs Cs Lu V ND)
    as (favs1 & b1 & R1 & ND1 & Hin1 & Hout1).
  subst r2 r1. rewrite R1. cbn [fst snd].
  set (st1 := writeFavorites w1 uid favs1 st).
  assert (Lu1 : exists u1, lookupUser st1 uid = Some u1 /\ User.favorites u1 = favs1
                           /\ validUser u1 = true).
  { unfold st1. rewrite lookupUser_writeFavorites, Lu. cbn [option_map].
    eexists. split; [reflexivity|]. split; [reflexivity|exact V]. }
  destruct Lu1 as (u1 & Lu1 & F1 & V1).
  assert (Lc1 : lookupComponent st1 cid = Some c) by exact Lc.
  rewrite <- F1 in ND1.
  destruct (toggleFavorite_canonical w2 req st1 cid uid c u1 s Hid Lc1 Hs Cs Lu1 V1 ND1)
    as (favs2 & b2 & R2 & ND2 & Hin2 & Hout2).
  rewrite R2. cbn [fst snd].
  rewrite (favoritesOf_writeFavorites _ _ _ _ _ Lu1).
  assert (P : Permutation (User.favorites u) favs2 /\ b2 = negb b1).
  { destruct (in_dec ObjectIdFacts.eq_dec cid (User.favorites u)) as [I|N].
    - destruct (Hin1 I) as (-> & Nin & P1).
      rewrite F1 in Hout2. destruct (Hout2 Nin) as (-> & ->).
      split; [|reflexivity].
      rewrite P1. apply Permutation_cons_append.
    - destruct (Hout1 N) as (-> & E1).
      assert (I1 : In cid (User.favorites u1)).
      { rewrite F1, E1. apply in_or_app. right. now left. }
      destruct (Hin2 I1) as (-> & _ & P2). split; [|reflexivity].
      rewrite F1, E1 in P2.
      apply Permutation_cons_inv with (a := cid).
      rewrite <- P2. apply Permutation_cons_append. }
  destruct P as (P & ->).
  split; [|split].
  - intros x. split; intros H.
    + apply Permutation_in with (l := favs2); [now symmetry|assumption].
    + apply Permutation_in with (l := User.favorites u); assumption.
  - exact P.
  - exists b1. split; reflexivity.
Qed.

(** Every run of the toggle either leaves the store as it was or
    writes the favorites of the caller: the stored list with the
    identifier pushed, or with the element at the found index spliced
    out. *)
Lemma toggleFavorite_store (w : World) (req : Request) (st : Store) :
  snd (handle (toggleFavorite w req) st) = st
  \/ exists s uid cid u,
       user req = Some s /\ ObjectId.cast s = Some uid
       /\ ObjectId.cast (params_id req) = Some cid
       /\ lookupComponent st cid <> None
       /\ lookupUser st uid = Some u
       /\ snd (handle (toggleFavorite w req) st)
          = writeFavorites w uid
              (let index := Js.findIndex (ObjectId.str_is (params_id req))
                                         (User.favorites u) in
               if (index =? -1)%Z then Js.push (User.favorites u) cid
               else Js.splice index 1 (User.favorites u))
              st.
Proof.
  destruct (ObjectId.cast (params_id req)) as [cid|] eqn:C.
  - destruct (lookupComponent st cid) as [c|] eqn:Lc.
    + destruct (user req) as [s|] eqn:Us.
      * destruct (ObjectId.cast s) as [uid|] eqn:Cs.
        -- destruct (lookupUser st uid) as [u|] eqn:Lu.
           ++ destruct (validUser u) eqn:V.
              ** right. exists s, uid, cid, u.
                 pose proof (toggleFavorite_found w req st cid uid c u s C Lc Us Cs Lu V) as R.
                 cbv zeta in R. rewrite R. cbn [snd].
                 repeat split; try assumption; try reflexivity. congruence.
              ** left.
                 destruct (toggleFavorite_invalid_user w req st cid uid c u s C Lc Us Cs Lu V)
                   as (e & -> & _).
                 reflexivity.
           ++ left. rewrite (toggleFavorite_no_user w req st cid C); [reflexivity|congruence|].
              rewrite Us, (User_findById_cast _ _ st Cs), Lu. reflexivity.
        -- left. unfold toggleFavorite, handle, bind at 1.
           rewrite (Component_findById_cast _ _ st C), Lc. cbn [option_map].
           unfold bind. rewrite Us, (User_findById_malformed _ st Cs). reflexivity.
      * left. rewrite (toggleFavorite_no_user w req st cid C); [reflexivity|congruence|].
        rewrite Us. reflexivity.
    + left. now rewrite (toggleFavorite_no_component w req st cid C Lc).
  - left. unfold toggleFavorite, handle, bind.
    rewrite (Component_findById_malformed _ st C). reflexivity.
Qed.

(** The toggle writes the favorites of the caller only. *)
Lemma toggleFavorite_other_users (w : World) (req : Request) (st : Store)
  (uid' : ObjectId) :
  (forall s uid, user req = Some s -> ObjectId.cast s = Some uid -> uid' <> uid) ->
  lookupUser (snd (handle (toggleFavorite w req) st)) uid' = lookupUser st uid'.
Proof.
  intros Hother.
  destruct (toggleFavorite_store w req st)
    as [->|(s & uid & cid & u & Us & Cs & _ & _ & _ & ->)]; [reflexivity|].
  unfold lookupUser, writeFavorites. cbn [users].
  apply find_updateFirst_other; [reflexivity|]. now apply (Hother s).
Qed.

Lemma toggleFavorite_spec_witness :
  fst (handle (toggleFavorite Sample.world (Sample.as_user Sample.bob_id Sample.favorite_card))
              Sample.store)
  = mkResponse 200 (FavoriteState false)
  /\ exists l1 l2,
      User.favorites Sample.bob = l1 ++ Sample.card_id :: l2
      /\ ~ In Sample.card_id l1
      /\ favoritesOf
           (snd (handle (toggleFavorite Sample.world
                           (Sample.as_user Sample.bob_id Sample.favorite_card))
                        Sample.store))
           Sample.bob_id = l1 ++ l2.
Proof.
  destruct (proj2 (toggleFavorite_spec Sample.world Sample.store
                     (Sample.as_user Sample.bob_id Sample.favorite_card))
              Sample.card_id eq_refl) as (_ & _ & H).
  assert (L : lookupComponent Sample.store Sample.card_id <> None)
    by (vm_compute; discriminate).
  assert (Lu : lookupUser Sample.store Sample.bob_id = Some Sample.bob)
    by (vm_compute; reflexivity).
  destruct (H (ObjectId.toString Sample.bob_id) Sample.bob_id Sample.bob
              L eq_refl (ObjectIdFacts.cast_toString _) Lu) as (_ & Hv).
  destruct (Hv eq_refl) as (_ & Hin & _).
  apply Hin. cbn. left. reflexivity.
Defined.

(** C3 as stated fails.  [POST /api/components/abc/favorite] by alice
    names no stored component, and the answer is 500, not 404.  And once
    [PUT /api/users/me] has stored the username [al] for alice, which the
    update does without running the validators, her toggle of the stored
    component Btn, absent from her favorites, is answered 500 and her
    favorites stay empty: the id is not appended. *)
Lemma toggleFavorite_spec_counterexample :
  let res := fst (POST_favorite Sample.world Cases.favorite_malformed Sample.store) in
  let st1 := snd (PUT_me Sample.world Cases.rename_alice Sample.store) in
  let r1 := POST_favorite Sample.world Sample.favorite_btn st1 in
  (params_id Cases.favorite_malformed = "abc"
   /\ (forall c, In c (components Sample.store)
                 -> ObjectId.toString (Component._id c) <> "abc")
   /\ status res = 500
   /\ status res <> 404)
  /\ (replyStatus (fst (PUT_me Sample.world Cases.rename_alice Sample.store)) = 200
      /\ lookupComponent st1 Sample.btn_id = Some Sample.btn
      /\ option_map User.username (lookupUser st1 Sample.alice_id) = Some "al"
      /\ favoritesOf st1 Sample.alice_id = []
      /\ status (fst r1) = 500
      /\ favoritesOf (snd r1) Sample.alice_id = []).
Proof.
  cbv zeta. split.
  - repeat split; try (vm_compute; reflexivity).
    + intros c [<-|[<-|[<-|[]]]]; vm_compute; discriminate.
    + vm_compute. discriminate.
  - repeat split; vm_compute; reflexivity.
Qed.

(** C4. The double toggle does not restore the membership for every
    spelling of the identifier.  When the route parameter casts to the
    identifier of a stored component but is not its lower-case string
    form, the membership test of the toggle never matches: for a stored
    caller whose fields pass the validators, both calls answer
    [isFavorite = true] and the identifier is appended twice, so a
    component that was not a favorite before the two calls is one after
    them. *)
Theorem toggleFavorite_twice_not_restored :
  forall (w1 w2 : World) (st : Store) (req : Request)
         (cid uid : ObjectId) (c : Component.t) (u : User.t) (s : string),
    ObjectId.cast (params_id req) = Some cid ->
    params_id req <> ObjectId.toString cid ->
    lookupComponent st cid = Some c ->
    user req = Some s -> ObjectId.cast s = Some uid ->
    lookupUser st uid = Some u ->
    validUser u = true ->
    let r1 := handle (toggleFavorite w1 req) st in
    let r2 := handle (toggleFavorite w2 req) (snd r1) in
    fst r1 = mkResponse 200 (FavoriteState true)
    /\ fst r2 = mkResponse 200 (FavoriteState true)
    /\ favoritesOf (snd r2) uid = User.favorites u ++ [cid; cid]
    /\ (~ In cid (User.favorites u) -> In cid (favoritesOf (snd r2) uid)).
Proof.
  intros w1 w2 st req cid uid c u s C Hne Lc Us Cs Lu V r1 r2.
  assert (E : forall favs,
             Js.findIndex (ObjectId.str_is (params_id req)) favs = (-1)%Z).
  { intros favs. apply (proj2 (findIndex_none _ _)). intros x _.
    unfold ObjectId.str_is.
    destruct (String.eqb_spec (ObjectId.toString x) (params_id req)) as [E|]; [|reflexivity].
    exfalso. apply Hne. rewrite <- E in C.
    rewrite ObjectIdFacts.cast_toString in C. injection C as ->. now symmetry. }
  pose proof (toggleFavorite_found w1 req st cid uid c u s C Lc Us Cs Lu V) as R1.
  cbv zeta in R1. rewrite E in R1. cbn [Z.eqb Pos.eqb] in R1.
  subst r2 r1. rewrite R1. cbn [fst snd].
  set (st1 := writeFavorites w1 uid (Js.push (User.favorites u) cid) st).
  set (u1 := User.set_timestamps (User.createdAt u) (now w1)
               (User.set_favorites (Js.push (User.favorites u) cid) u)).
  assert (Lu1 : lookupUser st1 uid = Some u1).
  { unfold st1. rewrite lookupUser_writeFavorites, Lu. reflexivity. }
  assert (V1 : validUser u1 = true) by exact V.
  pose proof (toggleFavorite_found w2 req st1 cid uid c u1 s C Lc Us Cs Lu1 V1) as R2.
  cbv zeta in R2. rewrite E in R2. cbn [Z.eqb Pos.eqb] in R2.
  rewrite R2. cbn [fst snd].
  rewrite (favoritesOf_writeFavorites _ _ _ _ _ Lu1).
  unfold u1, Js.push. cbn [User.favorites User.set_timestamps User.set_favorites].
  rewrite <- app_assoc. cbn [app].
  repeat split.
  intros _. apply in_or_app. right. now left.
Qed.

Lemma toggleFavorite_twice_not_restored_witness :
  ~ In Sample.btn_id (User.favorites Sample.alice)
  /\ In Sample.btn_id
        (favoritesOf
           (snd (handle (toggleFavorite Sample.world
                           (Sample.as_user Sample.alice_id Sample.favorite_btn_upper))
                   (snd (handle (toggleFavorite Sample.world
                                   (Sample.as_user Sample.alice_id
                                      Sample.favorite_btn_upper))
                                Sample.store))))
           Sample.alice_id).
Proof.
  assert (N : ~ In Sample.btn_id (User.favorites Sample.alice)) by (intros []).
  split; [exact N|].
  refine (proj2 (proj2 (proj2
            (toggleFavorite_twice_not_restored Sample.world Sample.world Sample.store
               (Sample.as_user Sample.alice_id Sample.favorite_btn_upper)
               Sample.btn_id Sample.alice_id Sample.btn Sample.alice
               (ObjectId.toString Sample.alice_id) _ _ _ eq_refl _ _ _))) N).
  - vm_compute. reflexivity.
  - vm_compute. discriminate.
  - vm_compute. reflexivity.
  - vm_compute. reflexivity.
  - vm_compute. reflexivity.
  - vm_compute. reflexivity.
Defined.

(** C6. Duplicate-freeness of the favorites is not preserved by every
    run of the toggle.  Alice, with empty favorites, toggles the stored
    component Btn twice through the route, spelling its identifier in
    upper case: the identifier casts to Btn's, both calls answer
    [isFavorite = true], and her favorites end up holding Btn twice. *)
Theorem toggleFavorite_uppercase_id_duplicates :
  let r1 := POST_favorite Sample.world Sample.favorite_btn_upper Sample.store in
  let r2 := POST_favorite Sample.world Sample.favorite_btn_upper (snd r1) in
  ObjectId.cast (params_id Sample.favorite_btn_upper) = Some Sample.btn_id
  /\ lookupComponent Sample.store Sample.btn_id = Some Sample.btn
  /\ favoritesOf Sample.store Sample.alice_id = []
  /\ fst r1 = mkResponse 200 (FavoriteState true)
  /\ favoritesOf (snd r1) Sample.alice_id = [Sample.btn_id]
  /\ NoDup (favoritesOf (snd r1) Sample.alice_id)
  /\ fst r2 = mkResponse 200 (FavoriteState true)
  /\ favoritesOf (snd r2) Sample.alice_id = [Sample.btn_id; Sample.btn_id]
  /\ ~ NoDup (favoritesOf (snd r2) Sample.alice_id).
Proof.
  cbv zeta.
  assert (E1 : favoritesOf
                 (snd (POST_favorite Sample.world Sample.favorite_btn_upper Sample.store))
                 Sample.alice_id = [Sample.btn_id]) by (vm_compute; reflexivity).
  assert (E2 : favoritesOf
                 (snd (POST_favorite Sample.world Sample.favorite_btn_upper
                         (snd (POST_favorite Sample.world Sample.favorite_btn_upper
                                 Sample.store))))
                 Sample.alice_id = [Sample.btn_id; Sample.btn_id])
    by (vm_compute; reflexivity).
  repeat split; try (vm_compute; reflexivity).
  - rewrite E1. repeat constructor. intros [].
  - rewrite E2. intros ND. inversion ND as [|x l Hnot _]; subst.
    apply Hnot. now left.
Qed.

(** Any other spelling of a component's identifier never matches the
    membership test: the toggle appends, whatever the favorites hold. *)
Lemma toggleFavorite_other_spelling (w : World) (req : Request) (st : Store)
  (cid uid : ObjectId) (c : Component.t) (u : User.t) (s : string) :
  ObjectId.cast (params_id req) = Some cid ->
  params_id req <> ObjectId.toString cid ->
  lookupComponent st cid = Some c ->
  user req = Some s -> ObjectId.cast s = Some uid ->
  lookupUser st uid = Some u ->
  validUser u = true ->
  handle (toggleFavorite w req) st
  = (mkResponse 200 (FavoriteState true),
     writeFavorites w uid (User.favorites u ++ [cid]) st).
Proof.
  intros C Hne Lc Us Cs Lu V.
  pose proof (toggleFavorite_found w req st cid uid c u s C Lc Us Cs Lu V) as R.
  cbv zeta in R. rewrite R.
  assert (E : Js.findIndex (ObjectId.str_is (params_id req)) (User.favorites u)
              = (-1)%Z).
  { apply (proj2 (findIndex_none _ _)). intros x _.
    unfold ObjectId.str_is.
    destruct (String.eqb_spec (ObjectId.toString x) (params_id req)) as [E|]; [|reflexivity].
    exfalso. apply Hne. rewrite <- E in C.
    rewrite ObjectIdFacts.cast_toString in C. injection C as ->. now symmetry. }
  rewrite E. reflexivity.
Qed.

(** With the identifier in its lower-case string form the toggle does
    keep every user's favorites duplicate-free, and so does
    registration. *)
Lemma writeFavorites_favoritesNoDup (w : World) (uid : ObjectId)
  (favs : list ObjectId) (st : Store) :
  NoDup favs -> favoritesNoDup st -> favoritesNoDup (writeFavorites w uid favs st).
Proof.
  intros ND H. unfold favoritesNoDup, writeFavorites in *. cbn [users].
  induction H as [|u rest Hu Hrest IH]; cbn [updateFirst]; [constructor|].
  destruct (byId uid u); constructor; auto.
Qed.

Lemma toggleFavorite_canonical_invariant (w : World) (req : Request) (st : Store)
  (cid : ObjectId) :
  params_id req = ObjectId.toString cid ->
  favoritesNoDup st ->
  favoritesNoDup (snd (handle (toggleFavorite w req) st)).
Proof.
  intros Hid H.
  destruct (toggleFavorite_store w req st)
    as [->|(s & uid & cid' & u & _ & _ & C & _ & Lu & ->)]; [exact H|].
  rewrite Hid, ObjectIdFacts.cast_toString in C. injection C as <-.
  apply writeFavorites_favoritesNoDup; [|exact H].
  assert (ND : NoDup (User.favorites u)).
  { unfold favoritesNoDup in H. rewrite Forall_forall in H. apply H.
    unfold lookupUser in Lu. now apply find_some in Lu. }
  cbv zeta. rewrite Hid.
  destruct (in_dec ObjectIdFacts.eq_dec cid (User.favorites u)) as [I|N].
  - destruct (findIndex_present cid (User.favorites u) I)
      as (Hne & l1 & l2 & E & _ & Hsp).
    apply Z.eqb_neq in Hne. rewrite Hne, Hsp.
    rewrite E in ND. now apply NoDup_remove_1 in ND.
  - rewrite (findIndex_absent cid _ N). cbn [Z.eqb Pos.eqb]. unfold Js.push.
    apply NoDup_app; [assumption|repeat constructor; intros []|].
    intros x Hx [<-|[]]. contradiction.
Qed.

(* ================================================================== *)
(** ** The catalog list query *)

Lemma cast_truthy (s : string) (o : ObjectId) :
  ObjectId.cast s = Some o -> Js.truthy (Some s) = true.
Proof. destruct s; [discriminate|reflexivity]. Qed.

Lemma includes_toString (favs : list ObjectId) (x : ObjectId) :
  Js.includes (map ObjectId.toString favs) (ObjectId.toString x)
  = existsb (ObjectId.eqb x) favs.
Proof.
  unfold Js.includes. induction favs as [|f rest IH]; [reflexivity|].
  cbn [map existsb]. rewrite IH. f_equal.
  change (ObjectId.str_is (ObjectId.toString f) x = ObjectId.eqb x f).
  apply ObjectIdFacts.str_is_toString.
Qed.

Lemma existsb_oid_In (favs : list ObjectId) (x : ObjectId) :
  existsb (ObjectId.eqb x) favs = true <-> In x favs.
Proof.
  rewrite existsb_exists. split.
  - intros (y & Hy & E). apply ObjectIdFacts.eqb_eq in E. now subst.
  - intros H. exists x. split; [assumption|apply ObjectIdFacts.eqb_refl].
Qed.

Lemma row_doc_findRows (w : World) (st : Store) (q : Query) (o : SortOption) :
  map row_doc (findRows w st q o)
  = sortBy (sortLe o) (filter (matches w q) (components st)).
Proof.
  unfold findRows. rewrite map_map. cbn [populateAuthor row_doc]. apply map_id.
Qed.

Lemma row_doc_annotate (favs : list string) (rows : list Row) :
  map row_doc (annotate favs rows) = map row_doc rows.
Proof. unfold annotate. rewrite map_map. reflexivity. Qed.

Lemma findRows_unannotated (w : World) (st : Store) (q : Query) (o : SortOption) :
  Forall (fun r => isFavorite r = None) (findRows w st q o).
Proof. unfold findRows. apply Forall_forall. intros r (c & <- & _)%in_map_iff. reflexivity. Qed.

Lemma annotate_spec (favs : list ObjectId) (rows : list Row) :
  Forall (fun r => isFavorite r
                   = Some (existsb (ObjectId.eqb (Component._id (row_doc r))) favs))
         (annotate (map ObjectId.toString favs) rows).
Proof.
  unfold annotate. apply Forall_forall. intros r (r0 & <- & _)%in_map_iff.
  cbn [set_isFavorite isFavorite row_doc]. now rewrite includes_toString.
Qed.

(** The list query from the sort onwards, for an anonymous caller and
    for a caller whose identity resolves to a stored user. *)
Lemma getComponents_run_anonymous (w : World) (req : Request) (q : Query) (st : Store) :
  Js.truthy (user req) = false ->
  getComponents_run w req q st
  = (Ok (mkResponse 200 (ComponentList (findRows w st q (sortOptionOf (query_sort req))))),
     st).
Proof. intros T. unfold getComponents_run. mstep. unfold Component_find. mstep. now rewrite T. Qed.

Lemma getComponents_run_user (w : World) (req : Request) (q : Query) (st : Store)
  (s : string) (uid : ObjectId) (u : User.t) :
  user req = Some s -> ObjectId.cast s = Some uid -> lookupUser st uid = Some u ->
  getComponents_run w req q st
  = (Ok (mkResponse 200
           (ComponentList
              (annotate (map ObjectId.toString (User.favorites u))
                        (findRows w st q (sortOptionOf (query_sort req)))))),
     st).
Proof.
  intros Us Cs Lu. unfold getComponents_run, Component_find. unfold bind at 1 2.
  unfold getStore, ret at 1. rewrite Us, (cast_truthy _ _ Cs).
  unfold bind. rewrite (User_findById_cast _ _ st Cs), Lu. reflexivity.
Qed.

(** The query object built from [search] and [category]. *)
Lemma getComponents_anonymous (w : World) (req : Request) (st : Store) :
  Js.truthy (user req) = false ->
  exists q, q_idIn q = None
            /\ getComponents w req st
               = (Ok (mkResponse 200
                        (ComponentList
                           (findRows w st q (sortOptionOf (query_sort req))))), st)
            /\ getComponents w (set_query_favorites None req) st
               = getComponents w req st.
Proof.
  intros T. unfold getComponents.
  cbn [set_query_favorites user query_search query_category query_favorites Js.is_lit].
  rewrite T, andb_false_r. cbn [andb].
  eexists. split; [|split].
  2: { apply (getComponents_run_anonymous w req _ st T). }
  - destruct (Js.truthy (query_search req)), (Js.truthy (query_category req)); reflexivity.
  - rewrite !getComponents_run_anonymous by assumption. reflexivity.
Qed.

Lemma getComponents_user (w : World) (req : Request) (st : Store)
  (s : string) (uid : ObjectId) (u : User.t) :
  user req = Some s -> ObjectId.cast s = Some uid -> lookupUser st uid = Some u ->
  exists q,
    getComponents w req st
    = (Ok (mkResponse 200
             (ComponentList
                (annotate (map ObjectId.toString (User.favorites u))
                          (findRows w st q (sortOptionOf (query_sort req)))))), st)
    /\ (q_idIn q = if Js.is_lit (query_favorites req) "true"
                   then Some (User.favorites u) else None).
Proof.
  intros Us Cs Lu. unfold getComponents.
  destruct (Js.is_lit (query_favorites req) "true").
  - rewrite Us, (cast_truthy _ _ Cs). cbn [andb].
    unfold bind. rewrite (User_findById_cast _ _ st Cs), Lu. cbn [option_map fields hydrate].
    eexists. split; [apply (getComponents_run_user w req _ st s uid u Us Cs Lu)|reflexivity].
  - cbn [andb]. eexists.
    split; [apply (getComponents_run_user w req _ st s uid u Us Cs Lu)|].
    destruct (Js.truthy (query_search req)), (Js.truthy (query_category req)); reflexivity.
Qed.

(** Whatever the request, a component list answered by the list query
    is the sorted filter of the collection, and the store is read only. *)
Lemma getComponents_rows (w : World) (req : Request) (st st' : Store)
  (n : nat) (rows : list Row) :
  handle (getComponents w req) st = (mkResponse n (ComponentList rows), st') ->
  st' = st
  /\ exists q, map row_doc rows
               = sortBy (sortLe (sortOptionOf (query_sort req)))
                        (filter (matches w q) (components st)).
Proof.
  destruct (Js.truthy (user req)) eqn:T.
  - destruct (user req) as [s|] eqn:Us; [|discriminate].
    destruct (ObjectId.cast s) as [uid|] eqn:Cs.
    + destruct (lookupUser st uid) as [u|] eqn:Lu.
      * destruct (getComponents_user w req st s uid u Us Cs Lu) as (q & E & _).
        unfold handle. rewrite E. intros [= <- <- <-]. split; [reflexivity|].
        exists q. now rewrite row_doc_annotate, row_doc_findRows.
      * unfold handle, getComponents. rewrite Us, T.
        destruct (Js.is_lit (query_favorites req) "true"); cbn [andb].
        -- unfold bind. rewrite (User_findById_cast _ _ st Cs), Lu. cbn. discriminate.
        -- unfold getComponents_run, Component_find. unfold bind at 1 2.
           unfold getStore, ret at 1. rewrite Us, T.
           unfold bind. rewrite (User_findById_cast _ _ st Cs), Lu. cbn [option_map].
           unfold respondOk, respond, ret. intros [= <- <- <-]. split; [reflexivity|].
           eexists. apply row_doc_findRows.
    + unfold handle, getComponents. rewrite Us, T.
      destruct (Js.is_lit (query_favorites req) "true"); cbn [andb].
      * unfold bind. rewrite (User_findById_malformed _ st Cs). cbn. discriminate.
      * unfold getComponents_run, Component_find. unfold bind at 1 2.
        unfold getStore, ret at 1. rewrite Us, T.
        unfold bind. rewrite (User_findById_malformed _ st Cs). cbn. discriminate.
  - destruct (getComponents_anonymous w req st T) as (q & _ & E & _).
    unfold handle. rewrite E. intros [= <- <- <-]. split; [reflexivity|].
    exists q. apply row_doc_findRows.
Qed.

(** C1 (as the code has it). A list query with the favorites-only
    flag and no caller identity does not fail: the flag is ignored, and
    the answer is the 200 component list of the same query without the
    flag, with no row annotated; the store is left as it was. *)
Theorem getComponents_favorites_anonymous :
  forall (w : World) (req : Request) (st : Store),
    Js.is_lit (query_favorites req) "true" = true ->
    Js.truthy (user req) = false ->
    handle (getComponents w req) st
    = handle (getComponents w (set_query_favorites None req)) st
    /\ exists rows,
        handle (getComponents w req) st = (mkResponse 200 (ComponentList rows), st)
        /\ Forall (fun r => isFavorite r = None) rows.
Proof.
  intros w req st _ T.
  destruct (getComponents_anonymous w req st T) as (q & _ & E & E').
  unfold handle. rewrite E', E. split; [reflexivity|].
  eexists. split; [reflexivity|]. apply findRows_unannotated.
Qed.

Lemma getComponents_favorites_anonymous_witness :
  exists rows,
    handle (getComponents Sample.world Sample.list_favorites_anonymous) Sample.store
    = (mkResponse 200 (ComponentList rows), Sample.store)
    /\ Forall (fun r => isFavorite r = None) rows.
Proof.
  refine (proj2 (getComponents_favorites_anonymous Sample.world
                   Sample.list_favorites_anonymous Sample.store _ _)).
  - vm_compute. reflexivity.
  - vm_compute. reflexivity.
Defined.

(** C1 as stated fails: [GET /api/components?favorites=true] without
    an [Authorization] header reaches the controller with no identity
    and is answered 200 with the whole catalog, not 401. *)
Lemma getComponents_favorites_anonymous_counterexample :
  let res := fst (GET_components Sample.world Sample.list_favorites_anonymous Sample.store) in
  authorization Sample.list_favorites_anonymous = None
  /\ query_favorites Sample.list_favorites_anonymous = Some "true"
  /\ status res = 200
  /\ status res <> 401
  /\ exists rows, json res = ComponentList rows
                  /\ map row_doc rows = [Sample.card; Sample.nav; Sample.btn].
Proof.
  cbv zeta. repeat split; try (vm_compute; reflexivity).
  - vm_compute. discriminate.
  - eexists. split; vm_compute; reflexivity.
Qed.

Lemma getComponents_unfold (w : World) (req : Request) :
  getComponents w req
  = if Js.is_lit (query_favorites req) "true" && Js.truthy (user req) then
      user <- User_findById (user req) ;;
      match user with
      | None => respond 404 (Message "用户不存在")
      | Some user =>
          getComponents_run w req
            (mkQuery (q_text (baseQuery req)) (q_category (baseQuery req))
                     (Some (User.favorites (fields user))))
      end
    else getComponents_run w req (baseQuery req).
Proof.
  unfold getComponents, baseQuery. cbv zeta.
  destruct (Js.truthy (query_search req)), (Js.truthy (query_category req)); reflexivity.
Qed.

(** C5. A list query with a caller identity that resolves to the
    stored user [u] answers one row per selected component, in the
    order of the sort: the components that match the search term and the
    category and, when favorites only are asked for, are favorites of
    [u].  Every row carries [isFavorite], true exactly when the row's
    identifier is in the favorites of [u].  A list query without a
    caller identity answers one row per component that matches the
    search term and the category, and no row carries [isFavorite]. *)
Theorem getComponents_isFavorite :
  forall (w : World) (req : Request) (st : Store),
    (forall s uid u,
        user req = Some s -> ObjectId.cast s = Some uid ->
        lookupUser st uid = Some u ->
        let q := mkQuery (q_text (baseQuery req)) (q_category (baseQuery req))
                         (if Js.is_lit (query_favorites req) "true"
                          then Some (User.favorites u) else None) in
        exists rows,
          handle (getComponents w req) st = (mkResponse 200 (ComponentList rows), st)
          /\ map row_doc rows
             = sortBy (sortLe (sortOptionOf (query_sort req)))
                      (filter (matches w q) (components st))
          /\ Forall (fun r =>
                       exists b, isFavorite r = Some b
                                 /\ (b = true <->
                                     In (Component._id (row_doc r)) (User.favorites u)))
                    rows)
    /\ (Js.truthy (user req) = false ->
        exists rows,
          handle (getComponents w req) st = (mkResponse 200 (ComponentList rows), st)
          /\ map row_doc rows
             = sortBy (sortLe (sortOptionOf (query_sort req)))
                      (filter (matches w (baseQuery req)) (components st))
          /\ Forall (fun r => isFavorite r = None) rows).
Proof.
  intros w req st. split.
  - intros s uid u Us Cs Lu q.
    assert (E : getComponents w req st
                = (Ok (mkResponse 200
                         (ComponentList
                            (annotate (map ObjectId.toString (User.favorites u))
                               (findRows w st q (sortOptionOf (query_sort req)))))), st)).
    { rewrite getComponents_unfold. subst q.
      destruct (Js.is_lit (query_favorites req) "true").
      - rewrite Us, (cast_truthy _ _ Cs). cbn [andb].
        unfold bind. rewrite (User_findById_cast _ _ st Cs), Lu.
        cbn [option_map fields hydrate].
        apply (getComponents_run_user w req _ st s uid u Us Cs Lu).
      - cbn [andb]. apply (getComponents_run_user w req _ st s uid u Us Cs Lu). }
    unfold handle. rewrite E. eexists. split; [reflexivity|]. split.
    + now rewrite row_doc_annotate, row_doc_findRows.
    + eapply Forall_impl; [|apply annotate_spec].
      intros r Hr. eexists. split; [exact Hr|]. apply existsb_oid_In.
  - intros T.
    assert (E : getComponents w req st
                = (Ok (mkResponse 200
                         (ComponentList
                            (findRows w st (baseQuery req)
                                      (sortOptionOf (query_sort req))))), st)).
    { rewrite getComponents_unfold, T, andb_false_r.
      apply (getComponents_run_anonymous w req _ st T). }
    unfold handle. rewrite E. eexists. split; [reflexivity|]. split.
    + apply row_doc_findRows.
    + apply findRows_unannotated.
Qed.

Lemma getComponents_isFavorite_witness :
  exists rows,
    handle (getComponents Sample.world (Sample.as_user Sample.bob_id Sample.list_by_name))
           Sample.store
    = (mkResponse 200 (ComponentList rows), Sample.store)
    /\ map row_doc rows = [Sample.nav; Sample.btn; Sample.card]
    /\ Forall (fun r =>
                 exists b, isFavorite r = Some b
                           /\ (b = true <->
                               In (Component._id (row_doc r)) (User.favorites Sample.bob)))
              rows.
Proof.
  destruct (proj1 (getComponents_isFavorite Sample.world
                     (Sample.as_user Sample.bob_id Sample.list_by_name) Sample.store)
                  (ObjectId.toString Sample.bob_id) Sample.bob_id Sample.bob
                  eq_refl (ObjectIdFacts.cast_toString _) eq_refl)
    as (rows & E & D & F).
  exists rows. split; [exact E|]. split; [|exact F].
  rewrite D. vm_compute. reflexivity.
Defined.

(** The optional auth middleware attaches no identity when the token is
    missing or does not verify, and never answers by itself. *)
Lemma optionalAuthMiddleware_no_identity (w : World) (next : Request -> M Response)
  (req : Request) :
  (Js.truthy (bearerToken req) = false
   \/ exists tok, bearerToken req = Some tok /\ jwtVerify w tok = None) ->
  optionalAuthMiddleware w next req = next req.
Proof.
  unfold optionalAuthMiddleware. intros [T|(tok & E & V)].
  - now rewrite T.
  - rewrite E, V. now destruct (negb (Js.truthy (Some tok))).
Qed.

(** The mandatory auth middleware answers 401 by itself in those cases. *)
Lemma authMiddleware_rejects (w : World) (next : Request -> M Response)
  (req : Request) (st : Store) :
  (Js.truthy (bearerToken req) = false
   \/ exists tok, bearerToken req = Some tok /\ jwtVerify w tok = None) ->
  exists m, authMiddleware w next req st = (Ok (mkResponse 401 (Message m)), st).
Proof.
  unfold authMiddleware. intros [T|(tok & E & V)].
  - rewrite T. cbn [negb]. eexists. reflexivity.
  - rewrite E, V. destruct (negb (Js.truthy (Some tok))); eexists; reflexivity.
Qed.

(* ================================================================== *)
(** ** Order of the listed components *)

Lemma ascii_compare_lt_trans (x y z : ascii) :
  Ascii.compare x y = Lt -> Ascii.compare y z = Lt -> Ascii.compare x z = Lt.
Proof.
  unfold Ascii.compare. rewrite !N.compare_lt_iff. lia.
Qed.

Lemma string_leb_trans (a b c : string) :
  String.leb a b = true -> String.leb b c = true -> String.leb a c = true.
Proof.
  unfold String.leb. revert b c.
  induction a as [|x a IH]; intros [|y b] [|z c] H1 H2; cbn [String.compare] in *;
    try reflexivity; try discriminate.
  destruct (Ascii.compare x y) eqn:Exy; try discriminate.
  - apply Ascii.compare_eq_iff in Exy. subst y.
    destruct (Ascii.compare x z) eqn:Exz; try discriminate; eauto.
  - destruct (Ascii.compare y z) eqn:Eyz; try discriminate.
    + apply Ascii.compare_eq_iff in Eyz. subst z. now rewrite Exy.
    + now rewrite (ascii_compare_lt_trans _ _ _ Exy Eyz).
Qed.

Lemma nameAsc_trans : Relations_1.Transitive nameAsc.
Proof. intros a b c. unfold nameAsc. apply string_leb_trans. Qed.

Lemma createdDesc_trans : Relations_1.Transitive createdDesc.
Proof. intros a b c. unfold createdDesc. lia. Qed.

Lemma sortLe_total (o : SortOption) (a b : Component.t) :
  sortLe o a b = true \/ sortLe o b a = true.
Proof.
  destruct o; cbn [sortLe].
  - rewrite !Z.leb_le. lia.
  - apply String.leb_total.
Qed.

Lemma sortBy_NameAsc (l : list Component.t) :
  StronglySorted nameAsc (sortBy (sortLe NameAsc) l).
Proof.
  apply Sorted_StronglySorted; [exact nameAsc_trans|].
  exact (sortBy_Sorted (sortLe NameAsc) (sortLe_total NameAsc) l).
Qed.

Lemma sortBy_CreatedAtDesc (l : list Component.t) :
  StronglySorted createdDesc (sortBy (sortLe CreatedAtDesc) l).
Proof.
  apply Sorted_StronglySorted; [exact createdDesc_trans|].
  pose proof (sortBy_Sorted (sortLe CreatedAtDesc) (sortLe_total CreatedAtDesc) l) as S.
  induction S as [|a l' S' IH H]; constructor; auto.
  destruct H as [|b l'' H]; constructor. unfold createdDesc.
  cbn [sortLe] in H. now apply Z.leb_le.
Qed.

Lemma sortOptionOf_name (sort : option string) :
  sortOptionOf sort = if Js.is_lit sort "name" then NameAsc else CreatedAtDesc.
Proof.
  unfold sortOptionOf. destruct sort as [s|]; cbn [Js.is_lit]; [|reflexivity].
  destruct (String.eqb_spec s "popular") as [->|]; reflexivity.
Qed.

Lemma is_lit_eq (v : option string) (lit : string) :
  Js.is_lit v lit = true <-> v = Some lit.
Proof.
  destruct v as [s|]; cbn [Js.is_lit]; [|split; discriminate].
  rewrite String.eqb_eq. split; congruence.
Qed.

(** C10. The components of a list answered by the list query are in
    ascending lexicographic order of name when the sort key is [name],
    and in descending order of creation time for every other sort key,
    [popular] and a missing key included. *)
Theorem getComponents_sorted :
  forall (w : World) (req : Request) (st st' : Store) (n : nat) (rows : list Row),
    handle (getComponents w req) st = (mkResponse n (ComponentList rows), st') ->
    (query_sort req = Some "name" -> StronglySorted nameAsc (map row_doc rows))
    /\ (query_sort req <> Some "name" -> StronglySorted createdDesc (map row_doc rows)).
Proof.
  intros w req st st' n rows H.
  destruct (getComponents_rows w req st st' n rows H) as (_ & q & ->).
  rewrite sortOptionOf_name. split; intros S.
  - rewrite S. cbn. apply sortBy_NameAsc.
  - destruct (Js.is_lit (query_sort req) "name") eqn:E.
    + apply is_lit_eq in E. contradiction.
    + apply sortBy_CreatedAtDesc.
Qed.

Lemma getComponents_sorted_witness :
  StronglySorted nameAsc [Sample.nav; Sample.btn; Sample.card].
Proof.
  refine (proj1 (getComponents_sorted Sample.world
                   (Sample.as_user Sample.bob_id Sample.list_by_name)
                   Sample.store Sample.store 200
                   (annotate (map ObjectId.toString (User.favorites Sample.bob))
                      (findRows Sample.world Sample.store (mkQuery None None None) NameAsc))
                   _) _).
  - vm_compute. reflexivity.
  - reflexivity.
Defined.

(* ================================================================== *)
(** ** The single-item lookup and the error responder *)

(** A Mongoose cast error carries no [statusCode]: the responder
    answers 500 with the error's own message. *)
Lemma errorMiddleware_castError (value model : string) :
  errorMiddleware (castError value model)
  = mkResponse 500 (Message (message (castError value model))).
Proof. reflexivity. Qed.

Lemma getComponent_malformed (req : Request) (st : Store) :
  ObjectId.cast (params_id req) = None ->
  handle (getComponent req) st
  = (mkResponse 500 (Message (message (castError (params_id req) "Component"))), st).
Proof.
  intros C. unfold getComponent, handle, bind.
  rewrite (Component_findById_malformed _ st C). reflexivity.
Qed.

Lemma getComponent_unknown (req : Request) (st : Store) (o : ObjectId) :
  ObjectId.cast (params_id req) = Some o ->
  lookupComponent st o = None ->
  handle (getComponent req) st = (mkResponse 404 (Message "组件不存在"), st).
Proof.
  intros C L. unfold getComponent, handle, bind.
  rewrite (Component_findById_cast _ _ st C), L. reflexivity.
Qed.

Lemma getComponent_status (req : Request) (st : Store) :
  let s := status (fst (handle (getComponent req) st)) in
  s = 200 \/ s = 404 \/ s = 500.
Proof.
  cbv zeta.
  assert (H : exists r, handle (getComponent req) st = (r, st)
                        /\ (status r = 200 \/ status r = 404 \/ status r = 500)).
  { destruct (ObjectId.cast (params_id req)) as [o|] eqn:C.
    - destruct (lookupComponent st o) as [c|] eqn:L.
      + unfold getComponent, handle, bind at 1.
        rewrite (Component_findById_cast _ _ st C), L. cbn [option_map].
        destruct (Js.truthy (user req)); [|eexists; split; [reflexivity|now left]].
        unfold bind.
        destruct (user req) as [s|]; [|eexists; split; [reflexivity|now left]].
        destruct (ObjectId.cast s) as [uid|] eqn:Cs.
        * rewrite (User_findById_cast _ _ st Cs).
          destruct (lookupUser st uid); eexists; (split; [reflexivity|now left]).
        * rewrite (User_findById_malformed _ st Cs).
          eexists; split; [reflexivity|]. right. right. reflexivity.
      + rewrite (getComponent_unknown req st o C L).
        eexists; split; [reflexivity|]. right. left. reflexivity.
    - rewrite (getComponent_malformed req st C).
      eexists; split; [reflexivity|]. right. right. reflexivity. }
  destruct H as (r & -> & H). exact H.
Qed.

Lemma some_str_is (cid : ObjectId) (favs : list ObjectId) :
  Js.some (ObjectId.str_is (ObjectId.toString cid)) favs = true <-> In cid favs.
Proof.
  unfold Js.some. rewrite existsb_exists. split.
  - intros (x & Hx & E). apply str_is_canonical in E. now subst.
  - intros H. exists cid. split; [assumption|]. now apply str_is_canonical.
Qed.

(** The single-item lookup of a stored component, by its identifier in
    string form and for a caller that resolves to a stored user, is
    annotated with the membership of the identifier in the caller's
    favorites. *)
Lemma getComponent_isFavorite (req : Request) (st : Store)
  (cid uid : ObjectId) (c : Component.t) (u : User.t) (s : string) :
  params_id req = ObjectId.toString cid ->
  lookupComponent st cid = Some c ->
  user req = Some s -> ObjectId.cast s = Some uid ->
  lookupUser st uid = Some u ->
  exists b,
    handle (getComponent req) st
    = (mkResponse 200 (ComponentOne (set_isFavorite b (populateAuthor st c))), st)
    /\ (b = true <-> In cid (User.favorites u)).
Proof.
  intros Hid Lc Us Cs Lu.
  assert (C : ObjectId.cast (params_id req) = Some cid).
  { rewrite Hid. apply ObjectIdFacts.cast_toString. }
  unfold getComponent, handle, bind at 1.
  rewrite (Component_findById_cast _ _ st C), Lc. cbn [option_map].
  rewrite Us, (cast_truthy _ _ Cs). unfold bind.
  rewrite (User_findById_cast _ _ st Cs), Lu. cbn [option_map fields hydrate].
  eexists. split; [reflexivity|]. rewrite Hid. apply some_str_is.
Qed.

(** C2 (as the code has it). A single-item lookup whose id is a
    well-formed identifier that matches no stored component answers
    404; a lookup whose id is not a well-formed identifier makes the
    query throw a cast error, which the error responder answers with
    500; in neither case, nor in any other, is the answer a 400. *)
Theorem getComponent_not_found :
  forall (req : Request) (st : Store),
    (forall o, ObjectId.cast (params_id req) = Some o ->
               lookupComponent st o = None ->
               handle (getComponent req) st
               = (mkResponse 404 (Message "组件不存在"), st))
    /\ (ObjectId.cast (params_id req) = None ->
        handle (getComponent req) st
        = (mkResponse 500 (Message (message (castError (params_id req) "Component"))),
           st))
    /\ status (fst (handle (getComponent req) st)) <> 400.
Proof.
  intros req st. split; [|split].
  - intros o. apply getComponent_unknown.
  - apply getComponent_malformed.
  - destruct (getComponent_status req st) as [E|[E|E]]; rewrite E; discriminate.
Qed.

Lemma getComponent_not_found_witness :
  handle (getComponent (Sample.with_id "507f1f77bcf86cd799439000" Sample.request))
         Sample.store
  = (mkResponse 404 (Message "组件不存在"), Sample.store).
Proof.
  refine (proj1 (getComponent_not_found
                   (Sample.with_id "507f1f77bcf86cd799439000" Sample.request)
                   Sample.store) (Sample.oid x00) _ _).
  - vm_compute. reflexivity.
  - vm_compute. reflexivity.
Defined.

(** C2 as stated fails: [GET /api/components/abc] matches no stored
    component, and the answer is 500, not 404. *)
Lemma getComponent_not_found_counterexample :
  let res := fst (GET_component Sample.world Sample.get_malformed Sample.store) in
  params_id Sample.get_malformed = "abc"
  /\ ObjectId.cast "abc" = None
  /\ (forall c, In c (components Sample.store)
                -> ObjectId.toString (Component._id c) <> "abc")
  /\ status res = 500
  /\ status res <> 404.
Proof.
  cbv zeta. repeat split; try (vm_compute; reflexivity).
  - intros c [<-|[<-|[<-|[]]]]; vm_compute; discriminate.
  - vm_compute. discriminate.
Qed.

(* ================================================================== *)
(** ** Registration *)

Lemma find_exists {A} (p : A -> bool) (l : list A) (x : A) :
  In x l -> p x = true -> exists y, find p l = Some y.
Proof.
  intros I P. destruct (find p l) as [y|] eqn:F; [now exists y|].
  pose proof (find_none p l F x I). congruence.
Qed.

(** Registration answers the conflict as soon as a stored user has the
    normalised email or the normalised username of the request. *)
Lemma register_conflict_normalised (w : World) (req : Request) (st : Store) (u : User.t) :
  In u (users st) ->
  (User.email u = User.setEmail (body_email req)
   \/ User.username u = User.setUsername (body_username req)) ->
  handle (register w req) st
  = (mkResponse 400 (Message "用户名或邮箱已被使用"), st).
Proof.
  intros I H. unfold register, handle, bind, User_findOne_email_or_username.
  unfold bind, getStore, ret.
  destruct (find_exists
              (fun v => String.eqb (User.email v) (User.setEmail (body_email req))
                        || String.eqb (User.username v)
                             (User.setUsername (body_username req)))
              (users st) u I) as (y & ->).
  - apply orb_true_iff. destruct H as [H|H]; [left|right]; now apply String.eqb_eq.
  - reflexivity.
Qed.

(** C7. A registration whose username or email equals that of a
    stored user (whose fields are in the schema's normal form, as every
    saved document has them) answers 400 with the conflict message and
    leaves the store exactly as it was. *)
Theorem register_conflict :
  forall (w : World) (req : Request) (st : Store) (u : User.t),
    In u (users st) ->
    User.canonical u ->
    (body_username req = User.username u \/ body_email req = User.email u) ->
    handle (register w req) st
    = (mkResponse 400 (Message "用户名或邮箱已被使用"), st).
Proof.
  intros w req st u I [Cn Ce] H.
  apply (register_conflict_normalised w req st u I).
  destruct H as [->| ->]; [right|left]; congruence.
Qed.

Lemma register_conflict_witness :
  handle (register Sample.world Sample.register_alice_email) Sample.store
  = (mkResponse 400 (Message "用户名或邮箱已被使用"), Sample.store).
Proof.
  refine (register_conflict Sample.world Sample.register_alice_email Sample.store
            Sample.alice _ _ _).
  - simpl. left. reflexivity.
  - split; vm_compute; reflexivity.
  - right. reflexivity.
Defined.

(* ================================================================== *)
(** ** Login *)

Lemma login_no_such_user (w : World) (req : Request) (st : Store) :
  noSuchUser st req ->
  handle (login w req) st = (mkResponse 401 (Message "邮箱或密码不正确"), st).
Proof.
  unfold noSuchUser, userByEmail. intros N.
  unfold login, handle, bind, User_findOne_email. unfold bind, getStore, ret.
  cbv zeta. rewrite N. reflexivity.
Qed.

Lemma login_wrong_password (w : World) (req : Request) (st : Store) :
  wrongPassword w st req ->
  handle (login w req) st = (mkResponse 401 (Message "邮箱或密码不正确"), st).
Proof.
  unfold wrongPassword, userByEmail. intros (u & F & B).
  unfold login, handle, bind, User_findOne_email. unfold bind, getStore, ret.
  cbv zeta. rewrite F. cbn [option_map]. unfold comparePassword. cbn [fields hydrate].
  rewrite B. reflexivity.
Qed.

(** The login handler never throws: it answers the failure or the token. *)
Lemma login_outcome (w : World) (req : Request) (st : Store) :
  handle (login w req) st = (mkResponse 401 (Message "邮箱或密码不正确"), st)
  \/ exists u, userByEmail st (body_email req) = Some u
               /\ bcryptCompare w (body_password req) (User.password u) = true
               /\ handle (login w req) st
                  = (mkResponse 200 (LoginOk (jwtSign w (User._id u)) (User._id u)
                                             (User.username u) (User.email u)), st).
Proof.
  destruct (userByEmail st (body_email req)) as [u|] eqn:F.
  - destruct (bcryptCompare w (body_password req) (User.password u)) eqn:B.
    + right. exists u. split; [reflexivity|]. split; [exact B|].
      unfold login, handle, bind, User_findOne_email. unfold bind, getStore, ret.
      cbv zeta. unfold userByEmail in F. rewrite F. cbn [option_map].
      unfold comparePassword. cbn [fields hydrate]. rewrite B. reflexivity.
    + left. apply login_wrong_password. now exists u.
  - left. now apply login_no_such_user.
Qed.

(** C8. Every failing login, whether no stored user has the email or
    the password does not match the stored hash, is answered with the
    same response: 401 with the one message.  Two failing logins,
    whatever their cause, their store and their request, have equal
    responses; and every answer of the login handler that is not a 200
    is that response. *)
Theorem login_failure_uniform :
  forall (w1 w2 : World) (st1 st2 : Store) (req1 req2 : Request),
    (noSuchUser st1 req1 \/ wrongPassword w1 st1 req1) ->
    (noSuchUser st2 req2 \/ wrongPassword w2 st2 req2) ->
    handle (login w1 req1) st1
    = (mkResponse 401 (Message "邮箱或密码不正确"), st1)
    /\ fst (handle (login w1 req1) st1) = fst (handle (login w2 req2) st2)
    /\ (forall w st req,
           status (fst (handle (login w req) st)) <> 200 ->
           fst (handle (login w req) st)
           = mkResponse 401 (Message "邮箱或密码不正确")).
Proof.
  intros w1 w2 st1 st2 req1 req2 F1 F2.
  assert (E : forall w st req,
             noSuchUser st req \/ wrongPassword w st req ->
             handle (login w req) st
             = (mkResponse 401 (Message "邮箱或密码不正确"), st)).
  { intros w st req [N|W]; [now apply login_no_such_user|now apply login_wrong_password]. }
  split; [now apply E|]. split.
  - now rewrite (E w1 st1 req1 F1), (E w2 st2 req2 F2).
  - intros w st req Hs.
    destruct (login_outcome w req st) as [->|(u & _ & _ & R)]; [reflexivity|].
    rewrite R in Hs. cbn in Hs. congruence.
Qed.

Lemma login_failure_uniform_witness :
  fst (handle (login Sample.world Sample.login_unknown_email) Sample.store)
  = fst (handle (login Sample.world Sample.login_wrong_password) Sample.store).
Proof.
  refine (proj1 (proj2 (login_failure_uniform Sample.world Sample.world
                          Sample.store Sample.store
                          Sample.login_unknown_email Sample.login_wrong_password
                          _ _))).
  - left. vm_compute. reflexivity.
  - right. exists Sample.alice. split; vm_compute; reflexivity.
Defined.

(* ================================================================== *)
(** ** The password hash across saves *)

Lemma applyPaths_password (src stored : User.t) (ps : list UserPath) :
  existsb (UserPath_eqb P_password) ps = false ->
  User.password (applyPaths src ps stored) = User.password stored.
Proof.
  unfold applyPaths. revert stored.
  induction ps as [|p rest IH]; intros stored H; cbn [fold_left]; [reflexivity|].
  cbn [existsb] in H. apply orb_false_iff in H as [Hp Hrest].
  rewrite (IH _ Hrest). destruct p; try reflexivity. discriminate.
Qed.

Lemma preSave_unmodified (w : World) (doc : UserDoc) :
  isModified doc P_password = false -> preSave w doc = doc.
Proof. intros H. unfold preSave. now rewrite H. Qed.

Lemma preSave_modified (w : World) (doc : UserDoc) :
  isModified doc P_password = true ->
  User.password (fields (preSave w doc))
  = bcryptHash w (User.password (fields doc)) (genSalt w).
Proof. intros H. unfold preSave. now rewrite H. Qed.

(** Saving a stored document whose password path is not modified
    leaves every stored hash as it was, whether the save writes or
    throws. *)
Lemma User_save_password_frame (w : World) (doc : UserDoc) (st st' : Store)
  (r : Outcome unit) :
  isNew doc = false ->
  isModified doc P_password = false ->
  User_save w doc st = (r, st') ->
  map User.password (users st') = map User.password (users st).
Proof.
  intros New Mod. unfold User_save.
  destruct (validate w doc); [mstep; now intros [= _ <-]|].
  rewrite (preSave_unmodified w doc Mod). cbv zeta.
  unfold bind, getStore. rewrite New.
  destruct (modifiedPaths doc) as [|p ps] eqn:Ps; [unfold ret; now intros [= _ <-]|].
  destruct (find (byId (User._id (fields doc))) (users st));
    [|unfold throw; now intros [= _ <-]].
  destruct (_ && _); [unfold throw; now intros [= _ <-]|].
  unfold putStore. intros [= _ <-]. cbn [users].
  apply map_updateFirst. intros u.
  transitivity (User.password (applyPaths (fields doc) (p :: ps) u)); [reflexivity|].
  apply applyPaths_password. unfold isModified in Mod. now rewrite Ps in Mod.
Qed.

Lemma toggleFavorite_password_frame (w : World) (req : Request) (st : Store) :
  map User.password (users (snd (handle (toggleFavorite w req) st)))
  = map User.password (users st).
Proof.
  destruct (toggleFavorite_store w req st)
    as [->|(s & uid & cid & u & _ & _ & _ & _ & _ & ->)]; [reflexivity|].
  unfold writeFavorites. cbn [users]. apply map_updateFirst. reflexivity.
Qed.

(** Registration either answers something other than 201 and leaves
    the store as it was, or answers 201 and appends one user, whose
    stored password is the bcrypt hash of the submitted one. *)
Lemma register_outcome (w : World) (req : Request) (st : Store) :
  exists r st',
    handle (register w req) st = (r, st')
    /\ ((status r <> 201 /\ st' = st)
        \/ (status r = 201
            /\ st' = mkStore
                       (users st
                        ++ [User.mk (freshId w)
                                    (User.setUsername (body_username req))
                                    (User.setEmail (body_email req))
                                    (bcryptHash w (body_password req) (genSalt w))
                                    [] (now w) (now w)])
                       (components st))).
Proof.
  unfold register, handle. cbv zeta.
  unfold User_findOne_email_or_username, bind, getStore, ret.
  destruct (find _ (users st)); cbn [option_map].
  { eexists _, _. split; [reflexivity|]. left. split; [cbn; discriminate|reflexivity]. }
  unfold User_save.
  destruct (validate w (newUser w (body_username req) (body_email req) (body_password req)))
    as [e|] eqn:V.
  { eexists _, _. split; [reflexivity|]. left.
    rewrite (validate_error _ _ _ V). split; [discriminate|reflexivity]. }
  cbv zeta. unfold preSave, isModified, newUser.
  cbn [modifiedPaths existsb UserPath_eqb orb negb isNew fields].
  unfold bind, getStore.
  destruct (uniqueClash _ (users st)).
  { eexists _, _. split; [reflexivity|]. left. split; [cbn; discriminate|reflexivity]. }
  eexists _, _. split; [reflexivity|]. right. split; reflexivity.
Qed.

Lemma register_created (w : World) (req : Request) (st : Store) :
  status (fst (handle (register w req) st)) = 201 ->
  snd (handle (register w req) st)
  = mkStore
      (users st
       ++ [User.mk (freshId w)
                   (User.setUsername (body_username req))
                   (User.setEmail (body_email req))
                   (bcryptHash w (body_password req) (genSalt w))
                   [] (now w) (now w)])
      (components st).
Proof.
  destruct (register_outcome w req st) as (r & st' & -> & [[N _]|[_ ->]]);
    cbn [fst snd]; [congruence|reflexivity].
Qed.

(** C9. A save of a stored user whose password path is not modified
    does not touch any stored password hash; the save performed by the
    favorites toggle is such a save, for every request.  The pre-save
    hook leaves the document as it is when the password path is not
    modified, and replaces the password by its bcrypt hash when it is,
    as on registration, where the stored password is the hash of the
    submitted one. *)
Theorem password_hash_frame :
  forall (w : World),
    (forall doc st st' r,
        isNew doc = false ->
        isModified doc P_password = false ->
        User_save w doc st = (r, st') ->
        map User.password (users st') = map User.password (users st))
    /\ (forall req st,
           map User.password (users (snd (handle (toggleFavorite w req) st)))
           = map User.password (users st))
    /\ (forall doc, isModified doc P_password = false -> preSave w doc = doc)
    /\ (forall doc,
           isModified doc P_password = true ->
           User.password (fields (preSave w doc))
           = bcryptHash w (User.password (fields doc)) (genSalt w))
    /\ (forall req st,
           status (fst (handle (register w req) st)) = 201 ->
           exists u,
             users (snd (handle (register w req) st)) = users st ++ [u]
             /\ User.password u = bcryptHash w (body_password req) (genSalt w)).
Proof.
  intros w. split; [|split; [|split; [|split]]].
  - apply User_save_password_frame.
  - apply toggleFavorite_password_frame.
  - apply preSave_unmodified.
  - apply preSave_modified.
  - intros req st H. rewrite (register_created w req st H). cbn [users].
    eexists. split; reflexivity.
Qed.

Lemma password_hash_frame_witness :
  map User.password
      (users (snd (User_save Sample.world
                     (favorites_push Sample.btn_id (hydrate Sample.alice))
                     Sample.store)))
  = map User.password (users Sample.store)
  /\ exists u,
      users (snd (handle (register Sample.world Sample.register_carol) Sample.store))
      = users Sample.store ++ [u]
      /\ User.password u = Sample.toyHash "secret9" "s4lt".
Proof.
  split.
  - refine (proj1 (password_hash_frame Sample.world)
              (favorites_push Sample.btn_id (hydrate Sample.alice))
              Sample.store _ _ _ _ (surjective_pairing _)).
    + reflexivity.
    + reflexivity.
  - refine (proj2 (proj2 (proj2 (proj2 (password_hash_frame Sample.world))))
              Sample.register_carol Sample.store _).
    vm_compute. reflexivity.
Defined.

(* ================================================================== *)
(** ** Normal form of the stored username and email *)

Lemma isSpace_lowerChar (c : ascii) : Js.isSpace (Js.lowerChar c) = Js.isSpace c.
Proof. destruct c as [[] [] [] [] [] [] [] []]; reflexivity. Qed.

Lemma lowerChar_idem (c : ascii) : Js.lowerChar (Js.lowerChar c) = Js.lowerChar c.
Proof. destruct c as [[] [] [] [] [] [] [] []]; reflexivity. Qed.

Lemma toLowerCase_idem (s : string) :
  Js.toLowerCase (Js.toLowerCase s) = Js.toLowerCase s.
Proof.
  induction s as [|c s IH]; cbn [Js.toLowerCase]; [reflexivity|].
  now rewrite lowerChar_idem, IH.
Qed.

Lemma toLowerCase_empty (s : string) :
  String.eqb (Js.toLowerCase s) "" = String.eqb s "".
Proof. destruct s; reflexivity. Qed.

Lemma trimStart_toLowerCase (s : string) :
  Js.trimStart (Js.toLowerCase s) = Js.toLowerCase (Js.trimStart s).
Proof.
  induction s as [|c s IH]; cbn [Js.toLowerCase Js.trimStart]; [reflexivity|].
  rewrite isSpace_lowerChar. destruct (Js.isSpace c); [exact IH|reflexivity].
Qed.

Lemma trimEnd_toLowerCase (s : string) :
  Js.trimEnd (Js.toLowerCase s) = Js.toLowerCase (Js.trimEnd s).
Proof.
  induction s as [|c s IH]; cbn [Js.toLowerCase Js.trimEnd]; [reflexivity|].
  cbv zeta. rewrite IH, isSpace_lowerChar, toLowerCase_empty.
  destruct (Js.isSpace c && String.eqb (Js.trimEnd s) ""); reflexivity.
Qed.

Lemma trimEnd_idem (s : string) : Js.trimEnd (Js.trimEnd s) = Js.trimEnd s.
Proof.
  induction s as [|c s IH]; cbn [Js.trimEnd]; [reflexivity|]. cbv zeta.
  destruct (Js.isSpace c && String.eqb (Js.trimEnd s) "") eqn:E; [reflexivity|].
  cbn [Js.trimEnd]. cbv zeta. now rewrite IH, E.
Qed.

Lemma trimStart_headOk (s : string) : headOk (Js.trimStart s).
Proof.
  induction s as [|c s IH]; cbn [Js.trimStart]; [exact I|].
  destruct (Js.isSpace c) eqn:E; [exact IH|exact E].
Qed.

Lemma trimEnd_headOk (s : string) : headOk s -> headOk (Js.trimEnd s).
Proof.
  destruct s as [|c s]; cbn [Js.trimEnd headOk]; [auto|]. cbv zeta.
  intros H. rewrite H. cbn [andb]. exact H.
Qed.

Lemma trimStart_fixed (s : string) : headOk s -> Js.trimStart s = s.
Proof.
  destruct s as [|c s]; cbn [Js.trimStart headOk]; [reflexivity|].
  now intros ->.
Qed.

Lemma trim_idem (s : string) : Js.trim (Js.trim s) = Js.trim s.
Proof.
  unfold Js.trim.
  rewrite (trimStart_fixed (Js.trimEnd (Js.trimStart s))).
  - apply trimEnd_idem.
  - apply trimEnd_headOk, trimStart_headOk.
Qed.

Lemma setUsername_idem (s : string) :
  User.setUsername (User.setUsername s) = User.setUsername s.
Proof. apply trim_idem. Qed.

Lemma setEmail_idem (s : string) : User.setEmail (User.setEmail s) = User.setEmail s.
Proof.
  unfold User.setEmail, Js.trim.
  rewrite trimStart_toLowerCase, trimEnd_toLowerCase, toLowerCase_idem.
  f_equal. apply trim_idem.
Qed.

(** Registration and the toggle keep every stored user in normal form. *)
Lemma register_canonical (w : World) (req : Request) (st : Store) :
  Forall User.canonical (users st) ->
  Forall User.canonical (users (snd (handle (register w req) st))).
Proof.
  intros H.
  destruct (register_outcome w req st) as (r & st' & -> & [[_ ->]|[_ ->]]);
    cbn [snd users]; [exact H|].
  apply Forall_app. split; [exact H|]. constructor; [|constructor].
  split; cbn; [apply setUsername_idem|apply setEmail_idem].
Qed.

Lemma register_favoritesNoDup (w : World) (req : Request) (st : Store) :
  favoritesNoDup st -> favoritesNoDup (snd (handle (register w req) st)).
Proof.
  intros H. unfold favoritesNoDup in *.
  destruct (register_outcome w req st) as (r & st' & -> & [[_ ->]|[_ ->]]);
    cbn [snd users]; [exact H|].
  apply Forall_app. split; [exact H|]. repeat constructor.
Qed.

Lemma toggleFavorite_canonical_users (w : World) (req : Request) (st : Store) :
  Forall User.canonical (users st) ->
  Forall User.canonical (users (snd (handle (toggleFavorite w req) st))).
Proof.
  intros H.
  destruct (toggleFavorite_store w req st)
    as [->|(s & uid & cid & u0 & _ & _ & _ & _ & _ & ->)]; [exact H|].
  unfold writeFavorites. cbn [users].
  induction H as [|u rest Hu Hrest IH]; cbn [updateFirst]; [constructor|].
  destruct (byId uid u); constructor; auto.
Qed.

(* ================================================================== *)
(** ** Scenarios *)

(** Alice toggles Btn twice, naming it by its identifier as the
    server prints it: favorited, then not, and her favorites are empty
    again. *)
Example scenario_toggle_twice :
  let r1 := POST_favorite Sample.world Sample.favorite_btn Sample.store in
  let r2 := POST_favorite Sample.world Sample.favorite_btn (snd r1) in
  fst r1 = mkResponse 200 (FavoriteState true)
  /\ favoritesOf (snd r1) Sample.alice_id = [Sample.btn_id]
  /\ fst r2 = mkResponse 200 (FavoriteState false)
  /\ favoritesOf (snd r2) Sample.alice_id = [].
Proof. cbv zeta. repeat split; vm_compute; reflexivity. Qed.

(** The toggle without a token is stopped by the auth middleware. *)
Example scenario_toggle_without_token :
  POST_favorite Sample.world
    (Sample.with_id (ObjectId.toString Sample.btn_id) Sample.request) Sample.store
  = (mkResponse 401 (Message "未提供认证令牌"), Sample.store).
Proof. vm_compute. reflexivity. Qed.

(** Login with a wrong password, then with the right one (the email
    in another letter case). *)
Example scenario_login :
  fst (POST_login Sample.world Sample.login_wrong_password Sample.store)
  = mkResponse 401 (Message "邮箱或密码不正确")
  /\ fst (POST_login Sample.world Sample.login_alice Sample.store)
     = mkResponse 200 (LoginOk Sample.alice_token Sample.alice_id "alice" "alice@x.com").
Proof. split; vm_compute; reflexivity. Qed.

(** A category nobody uses matches nothing and is not an error. *)
Example scenario_empty_category :
  GET_components Sample.world Sample.list_forms Sample.store
  = (mkResponse 200 (ComponentList []), Sample.store).
Proof. vm_compute. reflexivity. Qed.

(** Bob lists the catalog by name: the rows come in name order and
    only Card, his favorite, is marked. *)
Example scenario_list_by_name :
  match json (fst (GET_components Sample.world Sample.list_by_name Sample.store)) with
  | ComponentList rows =>
      map (fun r => (Component.name (row_doc r), isFavorite r)) rows
      = [("Anchor bar", Some false); ("Btn", Some false); ("Card", Some true)]
  | _ => False
  end.
Proof. vm_compute. reflexivity. Qed.

(** A new account is stored with the normalised email and the hash of
    its password. *)
Example scenario_register :
  let r := POST_register Sample.world Sample.register_carol Sample.store in
  fst r = mkResponse 201 (Message "注册成功")
  /\ users (snd r)
     = users Sample.store
       ++ [User.mk (Sample.oid x99) "carol" "carol@x.com"
                   (Sample.toyHash "secret9" "s4lt") [] 5000%Z 5000%Z].
Proof. cbv zeta. split; vm_compute; reflexivity. Qed.

(* ================================================================== *)
(** ** Registration, case by case *)

Lemma find_existsb {A} (p : A -> bool) (l : list A) :
  find p l = None <-> existsb p l = false.
Proof.
  induction l as [|x rest IH]; cbn [find existsb]; [tauto|].
  destruct (p x); cbn [orb]; [split; discriminate|exact IH].
Qed.

Lemma validUser_newUser (w : World) (req : Request) :
  validUser (fields (newUser w (body_username req) (body_email req) (body_password req)))
  = registrable req.
Proof.
  unfold validUser, userPaths, newUser, registrable.
  cbn [fields forallb validPath User.username User.email User.password].
  destruct (3 <=? _)%nat; cbn [andb]; [|reflexivity].
  destruct (_ <=? 30)%nat; cbn [andb]; [|reflexivity].
  destruct (String.eqb _ ""); cbn [andb negb]; [reflexivity|].
  destruct (6 <=? _)%nat; reflexivity.
Qed.

Lemma validate_newUser (w : World) (req : Request) :
  match validate w (newUser w (body_username req) (body_email req) (body_password req)) with
  | None => registrable req = true
  | Some e => registrable req = false /\ statusCode e = None
  end.
Proof.
  destruct (registrable req) eqn:R.
  - rewrite validate_valid; [reflexivity|]. now rewrite validUser_newUser.
  - destruct (validate_invalid w
                (newUser w (body_username req) (body_email req) (body_password req)))
      as (e & -> & He).
    + now rewrite validUser_newUser.
    + split; [reflexivity|exact He].
Qed.

(** The unique indexes never fire on a registration that passed the
    handler's own existence query. *)
Lemma uniqueClash_registerConflict (req : Request) (st : Store) (u : User.t) :
  User.username u = User.setUsername (body_username req) ->
  User.email u = User.setEmail (body_email req) ->
  uniqueClash u (users st) = registerConflict st req.
Proof.
  intros Hn He. unfold uniqueClash, registerConflict. rewrite Hn, He.
  induction (users st) as [|v rest IH]; cbn [existsb]; [reflexivity|].
  rewrite IH. f_equal. apply orb_comm.
Qed.

(** The three outcomes of registration, as the later proofs use them. *)
Lemma register_cases_aux :
  forall (w : World) (req : Request) (st : Store),
    (registerConflict st req = true ->
     handle (register w req) st
     = (mkResponse 400 (Message "用户名或邮箱已被使用"), st))
    /\ (registerConflict st req = false -> registrable req = true ->
        handle (register w req) st
        = (mkResponse 201 (Message "注册成功"),
           mkStore (users st ++ [registeredUser w req]) (components st)))
    /\ (registerConflict st req = false -> registrable req = false ->
        status (fst (handle (register w req) st)) = 500
        /\ snd (handle (register w req) st) = st).
Proof.
  intros w req st.
  assert (F : forall b, registerConflict st req = b ->
              match b with
              | true => exists u,
                  find (fun u => String.eqb (User.email u) (User.setEmail (body_email req))
                                 || String.eqb (User.username u)
                                      (User.setUsername (body_username req)))
                       (users st) = Some u
              | false =>
                  find (fun u => String.eqb (User.email u) (User.setEmail (body_email req))
                                 || String.eqb (User.username u)
                                      (User.setUsername (body_username req)))
                       (users st) = None
              end).
  { intros [] H; unfold registerConflict in H.
    - destruct (find _ (users st)) as [u|] eqn:E; [now exists u|].
      apply find_existsb in E. congruence.
    - now apply find_existsb. }
  split; [|split].
  - intros C. destruct (F _ C) as (u & E).
    unfold register, handle. cbv zeta.
    unfold User_findOne_email_or_username, bind, getStore, ret. rewrite E. reflexivity.
  - intros C V. pose proof (F _ C) as E. cbn in E.
    unfold register, handle. cbv zeta.
    unfold User_findOne_email_or_username, bind, getStore, ret. rewrite E.
    cbn [option_map]. unfold User_save.
    pose proof (validate_newUser w req) as Hv.
    destruct (validate _) as [e|]; [destruct Hv; congruence|].
    cbv zeta. unfold preSave, isModified, newUser.
    cbn [modifiedPaths existsb UserPath_eqb orb negb isNew fields].
    unfold bind, getStore.
    match goal with
    | |- context [uniqueClash ?u (users st)] =>
        rewrite (uniqueClash_registerConflict req st u eq_refl eq_refl)
    end.
    rewrite C. reflexivity.
  - intros C V. pose proof (F _ C) as E. cbn in E.
    unfold register, handle. cbv zeta.
    unfold User_findOne_email_or_username, bind, getStore, ret. rewrite E.
    cbn [option_map]. unfold User_save.
    pose proof (validate_newUser w req) as Hv.
    destruct (validate _) as [e|]; [|congruence].
    destruct Hv as [_ Hs]. unfold throw. cbn [fst snd].
    unfold errorMiddleware. rewrite Hs. split; reflexivity.
Qed.

(** X1. The register controller decides by two tests, in this order,
    for a body whose username and email are strings of ASCII characters
    (on these the schema's [trim] and [lowercase] are modelled exactly).
    When a stored user has the normalised email or username it answers
    400 and writes nothing; otherwise, when the fields pass the schema
    validators (lengths counted in UTF-16 code units), it answers 201
    and appends exactly one user (normalised username and email, bcrypt
    hash, empty favorites); otherwise the validation error reaches the
    error responder, which answers 500, and nothing is written.  The
    unique indexes never reject a registration that passed the first
    test. *)
Theorem register_cases :
  forall (w : World) (req : Request) (st : Store),
    asciiCredentials req = true ->
    (registerConflict st req = true ->
     handle (register w req) st
     = (mkResponse 400 (Message "用户名或邮箱已被使用"), st))
    /\ (registerConflict st req = false -> registrable req = true ->
        handle (register w req) st
        = (mkResponse 201 (Message "注册成功"),
           mkStore (users st ++ [registeredUser w req]) (components st)))
    /\ (registerConflict st req = false -> registrable req = false ->
        status (fst (handle (register w req) st)) = 500
        /\ snd (handle (register w req) st) = st).
Proof. intros w req st _. apply register_cases_aux. Qed.

Lemma register_cases_witness :
  handle (register Sample.world Sample.register_carol) Sample.store
  = (mkResponse 201 (Message "注册成功"),
     mkStore (users Sample.store ++ [registeredUser Sample.world Sample.register_carol])
             (components Sample.store)).
Proof.
  refine (proj1 (proj2 (register_cases Sample.world Sample.register_carol Sample.store _))
            _ _).
  - vm_compute. reflexivity.
  - vm_compute. reflexivity.
  - vm_compute. reflexivity.
Defined.

Lemma register_created_iff (w : World) (req : Request) (st : Store) :
  status (fst (handle (register w req) st)) = 201 <->
  registerConflict st req = false /\ registrable req = true.
Proof.
  destruct (register_cases_aux w req st) as (H400 & H201 & H500).
  destruct (registerConflict st req) eqn:C.
  - rewrite (H400 eq_refl). cbn. split; [discriminate|intros [? _]; discriminate].
  - destruct (registrable req) eqn:V.
    + rewrite (H201 eq_refl eq_refl). cbn. tauto.
    + destruct (H500 eq_refl eq_refl) as [-> _]. split; [discriminate|intros [_ ?]; discriminate].
Qed.

Lemma registerConflict_false (st : Store) (req : Request) :
  registerConflict st req = false ->
  forall u, In u (users st) ->
            User.email u <> User.setEmail (body_email req)
            /\ User.username u <> User.setUsername (body_username req).
Proof.
  unfold registerConflict. intros H u I.
  destruct (String.eqb_spec (User.email u) (User.setEmail (body_email req))) as [E|E];
    destruct (String.eqb_spec (User.username u) (User.setUsername (body_username req)))
      as [E'|E']; try (split; assumption); exfalso;
    (assert (X : existsb (fun u => String.eqb (User.email u) (User.setEmail (body_email req))
                               || String.eqb (User.username u)
                                    (User.setUsername (body_username req)))
                     (users st) = true);
     [apply existsb_exists; exists u; split; [assumption|];
      apply orb_true_iff; first [left; now apply String.eqb_eq
                                |right; now apply String.eqb_eq]
     |congruence]).
Qed.

Lemma find_app_last {A} (p : A -> bool) (l : list A) (x : A) :
  find p l = None -> find p (l ++ [x]) = if p x then Some x else None.
Proof.
  induction l as [|y rest IH]; cbn [find app]; [reflexivity|].
  destruct (p y); [discriminate|exact IH].
Qed.

Lemma login_success (w : World) (req : Request) (st : Store) (u : User.t) :
  userByEmail st (body_email req) = Some u ->
  bcryptCompare w (body_password req) (User.password u) = true ->
  handle (login w req) st
  = (mkResponse 200 (LoginOk (jwtSign w (User._id u)) (User._id u)
                             (User.username u) (User.email u)), st).
Proof.
  intros F B. unfold login, handle, bind, User_findOne_email.
  unfold bind, getStore, ret. cbv zeta. unfold userByEmail in F. rewrite F.
  cbn [option_map]. unfold comparePassword. cbn [fields hydrate]. rewrite B. reflexivity.
Qed.

(** Logging in after a registration, as the session proof uses it. *)
Lemma register_then_login_aux :
  forall (w1 w2 : World) (req : Request) (st : Store),
    status (fst (handle (register w1 req) st)) = 201 ->
    let st1 := snd (handle (register w1 req) st) in
    let hash := bcryptHash w1 (body_password req) (genSalt w1) in
    userByEmail st1 (body_email req) = Some (registeredUser w1 req)
    /\ (bcryptCompare w2 (body_password req) hash = true ->
        handle (login w2 req) st1
        = (mkResponse 200
             (LoginOk (jwtSign w2 (freshId w1)) (freshId w1)
                      (User.setUsername (body_username req))
                      (User.setEmail (body_email req))), st1))
    /\ (forall req',
           body_email req' = body_email req ->
           bcryptCompare w2 (body_password req') hash = false ->
           handle (login w2 req') st1
           = (mkResponse 401 (Message "邮箱或密码不正确"), st1)).
Proof.
  intros w1 w2 req st H st1 hash.
  apply register_created_iff in H as [C V].
  destruct (register_cases_aux w1 req st) as (_ & H201 & _).
  assert (E1 : st1 = mkStore (users st ++ [registeredUser w1 req]) (components st)).
  { unfold st1. now rewrite (H201 C V). }
  assert (F : userByEmail st1 (body_email req) = Some (registeredUser w1 req)).
  { rewrite E1. unfold userByEmail. cbn [users].
    rewrite find_app_last.
    - cbn [registeredUser User.email]. now rewrite String.eqb_refl.
    - apply find_existsb. apply not_true_is_false. intros X.
      apply existsb_exists in X as (u & I & E). apply String.eqb_eq in E.
      now destruct (registerConflict_false st req C u I). }
  split; [exact F|]. split.
  - intros B. rewrite (login_success w2 req st1 _ F B). reflexivity.
  - intros req' He B. apply login_wrong_password.
    exists (registeredUser w1 req). rewrite He. split; [exact F|exact B].
Qed.

(** X2. A successful registration can be logged into, for a body
    whose username and email are strings of ASCII characters: on the
    store a 201 answer of the register controller leaves, the login
    controller run with the same email finds the new user (and no older
    one); when
    bcrypt accepts the submitted password against the stored hash the
    answer is 200 with a token signed for the new user's identifier and
    the normalised username and email, and when bcrypt rejects a
    password the answer is the 401 failure.  Neither login writes the
    store. *)
Theorem register_then_login :
  forall (w1 w2 : World) (req : Request) (st : Store),
    asciiCredentials req = true ->
    status (fst (handle (register w1 req) st)) = 201 ->
    let st1 := snd (handle (register w1 req) st) in
    let hash := bcryptHash w1 (body_password req) (genSalt w1) in
    userByEmail st1 (body_email req) = Some (registeredUser w1 req)
    /\ (bcryptCompare w2 (body_password req) hash = true ->
        handle (login w2 req) st1
        = (mkResponse 200
             (LoginOk (jwtSign w2 (freshId w1)) (freshId w1)
                      (User.setUsername (body_username req))
                      (User.setEmail (body_email req))), st1))
    /\ (forall req',
           body_email req' = body_email req ->
           bcryptCompare w2 (body_password req') hash = false ->
           handle (login w2 req') st1
           = (mkResponse 401 (Message "邮箱或密码不正确"), st1)).
Proof. intros w1 w2 req st _. apply register_then_login_aux. Qed.

Lemma register_then_login_witness :
  handle (login Sample.world Sample.register_carol)
         (snd (handle (register Sample.world Sample.register_carol) Sample.store))
  = (mkResponse 200
       (LoginOk (jwtSign Sample.world (freshId Sample.world)) (freshId Sample.world)
                "carol" "carol@x.com"),
     snd (handle (register Sample.world Sample.register_carol) Sample.store)).
Proof.
  refine (proj1 (proj2 (register_then_login Sample.world Sample.world
                          Sample.register_carol Sample.store _ _)) _).
  - vm_compute. reflexivity.
  - vm_compute. reflexivity.
  - vm_compute. reflexivity.
Defined.

(** Uniqueness of a projection survives the write of one user's
    document when the write keeps the projection. *)
Lemma NoDup_map_snoc {A B} (f : A -> B) (l : list A) (x : A) :
  NoDup (map f l) -> (forall y, In y l -> f y <> f x) -> NoDup (map f (l ++ [x])).
Proof.
  intros ND H. rewrite map_app. cbn [map].
  apply NoDup_app; [assumption|repeat constructor; intros []|].
  intros b Hb [<-|[]]. apply in_map_iff in Hb as (y & E & I). now apply (H y I).
Qed.

(** X3. Registration and the favorites toggle keep usernames and
    emails unique across the stored users. *)
Theorem usersUnique_preserved :
  forall (w : World) (req : Request) (st : Store),
    usersUnique st ->
    usersUnique (snd (handle (register w req) st))
    /\ usersUnique (snd (handle (toggleFavorite w req) st)).
Proof.
  intros w req st [Hn He]. split.
  - destruct (register_cases_aux w req st) as (H400 & H201 & H500).
    destruct (registerConflict st req) eqn:C.
    + rewrite (H400 eq_refl). now split.
    + destruct (registrable req) eqn:V.
      * rewrite (H201 eq_refl eq_refl). cbn [snd]. unfold usersUnique. cbn [users].
        pose proof (registerConflict_false st req C) as F.
        split; apply NoDup_map_snoc; try assumption; intros y I;
          destruct (F y I); assumption.
      * destruct (H500 eq_refl eq_refl) as [_ ->]. now split.
  - destruct (toggleFavorite_store w req st)
      as [->|(s & uid & cid & u & _ & _ & _ & _ & _ & ->)]; [now split|].
    unfold usersUnique, writeFavorites. cbn [users].
    rewrite !map_updateFirst by reflexivity. now split.
Qed.

Lemma usersUnique_preserved_witness :
  usersUnique (snd (handle (register Sample.world Sample.register_carol) Sample.store))
  /\ usersUnique (snd (handle (toggleFavorite Sample.world Sample.register_carol)
                         Sample.store)).
Proof.
  apply (usersUnique_preserved Sample.world Sample.register_carol Sample.store).
  split; cbn; repeat constructor; cbn; intuition discriminate.
Defined.

(* ================================================================== *)
(** ** Handlers that only read *)

Lemma readOnly_ret {A} (a : A) : readOnly (ret a).
Proof. intros st. reflexivity. Qed.

Lemma readOnly_throw {A} (e : Error) : readOnly (@throw A e).
Proof. intros st. reflexivity. Qed.

Lemma readOnly_getStore : readOnly getStore.
Proof. intros st. reflexivity. Qed.

Lemma readOnly_respond (n : nat) (b : Body) : readOnly (respond n b).
Proof. apply readOnly_ret. Qed.

Lemma readOnly_bind {A B} (c : M A) (k : A -> M B) :
  readOnly c -> (forall a, readOnly (k a)) -> readOnly (bind c k).
Proof.
  intros Hc Hk st. unfold bind. specialize (Hc st).
  destruct (c st) as [[a|e] st0]; cbn [snd] in *; subst st0; [apply Hk|reflexivity].
Qed.

Lemma readOnly_User_findById (id : option string) : readOnly (User_findById id).
Proof.
  unfold User_findById. destruct id as [s|]; [|apply readOnly_ret].
  destruct (ObjectId.cast s); [|apply readOnly_throw].
  apply readOnly_bind; [apply readOnly_getStore|intros; apply readOnly_ret].
Qed.

Lemma readOnly_Component_findById (id : string) : readOnly (Component_findById id).
Proof.
  unfold Component_findById. destruct (ObjectId.cast id); [|apply readOnly_throw].
  apply readOnly_bind; [apply readOnly_getStore|intros; apply readOnly_ret].
Qed.

Lemma readOnly_Component_find (w : World) (q : Query) (o : SortOption) :
  readOnly (Component_find w q o).
Proof.
  unfold Component_find.
  apply readOnly_bind; [apply readOnly_getStore|intros; apply readOnly_ret].
Qed.

Lemma readOnly_getComponents_run (w : World) (req : Request) (q : Query) :
  readOnly (getComponents_run w req q).
Proof.
  unfold getComponents_run. cbv zeta.
  apply readOnly_bind; [apply readOnly_Component_find|intros rows].
  destruct (Js.truthy (user req)); [|apply readOnly_respond].
  apply readOnly_bind; [apply readOnly_User_findById|].
  intros [doc|]; apply readOnly_respond.
Qed.

Lemma readOnly_getComponents (w : World) (req : Request) : readOnly (getComponents w req).
Proof.
  unfold getComponents. cbv zeta.
  destruct (_ && _); [|apply readOnly_getComponents_run].
  apply readOnly_bind; [apply readOnly_User_findById|].
  intros [doc|]; [apply readOnly_getComponents_run|apply readOnly_respond].
Qed.

Lemma readOnly_getComponent (req : Request) : readOnly (getComponent req).
Proof.
  unfold getComponent. cbv zeta.
  apply readOnly_bind; [apply readOnly_Component_findById|].
  intros [row|]; [|apply readOnly_respond].
  destruct (Js.truthy (user req)); [|apply readOnly_respond].
  apply readOnly_bind; [apply readOnly_User_findById|].
  intros [doc|]; apply readOnly_respond.
Qed.

Lemma readOnly_login (w : World) (req : Request) : readOnly (login w req).
Proof.
  unfold login, User_findOne_email. cbv zeta.
  apply readOnly_bind.
  - apply readOnly_bind; [apply readOnly_getStore|intros; apply readOnly_ret].
  - intros [doc|]; [|apply readOnly_respond].
    destruct (negb _); apply readOnly_respond.
Qed.

Lemma readOnly_optionalAuthMiddleware (w : World) (next : Request -> M Response)
  (req : Request) :
  (forall r, readOnly (next r)) -> readOnly (optionalAuthMiddleware w next req).
Proof.
  intros H. unfold optionalAuthMiddleware. cbv zeta.
  destruct (negb _); [apply H|].
  destruct (bearerToken req) as [tok|]; [|apply H].
  destruct (jwtVerify w tok); apply H.
Qed.

Lemma handle_readOnly (body : M Response) (st : Store) :
  readOnly body -> snd (handle body st) = st.
Proof.
  intros H. unfold handle. specialize (H st).
  destruct (body st) as [[r|e] st0]; exact H.
Qed.

(** X4. The two catalog read routes and the login controller never
    write: whatever the request, the token and the outcome (an answer
    or an error passed to the error responder), the store after the
    call is the store before it. *)
Theorem read_routes_never_write :
  forall (w : World) (req : Request) (st : Store),
    snd (GET_components w req st) = st
    /\ snd (GET_component w req st) = st
    /\ snd (handle (login w req) st) = st.
Proof.
  intros w req st. unfold GET_components, GET_component.
  repeat split; apply handle_readOnly.
  - apply readOnly_optionalAuthMiddleware. apply readOnly_getComponents.
  - apply readOnly_optionalAuthMiddleware. apply readOnly_getComponent.
  - apply readOnly_login.
Qed.

(* ================================================================== *)
(** ** What the list query selects *)

Lemma baseQuery_category (w : World) (req : Request) (ids : option (list ObjectId))
  (c : Component.t) :
  Js.truthy (query_category req) = true ->
  matches w (mkQuery (q_text (baseQuery req)) (q_category (baseQuery req)) ids) c = true ->
  query_category req = Some (Component.category c).
Proof.
  intros T. unfold matches, baseQuery. cbn [q_text q_category q_idIn]. rewrite T.
  destruct (query_category req) as [cat|]; [|discriminate].
  intros H. apply andb_true_iff in H as [H _]. apply andb_true_iff in H as [_ H].
  apply String.eqb_eq in H. now subst.
Qed.

Lemma In_sortBy {A} (le : A -> A -> bool) (l : list A) (x : A) :
  In x (sortBy le l) <-> In x l.
Proof.
  split; apply Permutation_in; [symmetry|]; apply sortBy_Permutation.
Qed.

(** X5. A component list answered to an anonymous caller, or to any
    caller who did not ask for favorites only, holds each stored
    component that matches the search term and the category exactly
    once and nothing else: its documents are a permutation of the
    matching part of the collection.  When a category is given every
    row has that category, so a category no component has yields the
    empty list. *)
Theorem getComponents_selection :
  forall (w : World) (req : Request) (st st' : Store) (n : nat) (rows : list Row),
    Js.is_lit (query_favorites req) "true" && Js.truthy (user req) = false ->
    handle (getComponents w req) st = (mkResponse n (ComponentList rows), st') ->
    Permutation (filter (matches w (baseQuery req)) (components st)) (map row_doc rows)
    /\ (forall c, In c (map row_doc rows)
                  <-> In c (components st) /\ matches w (baseQuery req) c = true)
    /\ (Js.truthy (query_category req) = true ->
        Forall (fun r => query_category req = Some (Component.category (row_doc r))) rows)
    /\ Forall (fun r => row_author r
                        = option_map (fun u => (User._id u, User.username u))
                                     (lookupUser st (Component.author (row_doc r))))
              rows.
Proof.
  intros w req st st' n rows Hflag H.
  rewrite getComponents_unfold, Hflag in H.
  assert (E : map row_doc rows
              = sortBy (sortLe (sortOptionOf (query_sort req)))
                       (filter (matches w (baseQuery req)) (components st))
              /\ Forall (fun r => row_author r
                                  = option_map (fun u => (User._id u, User.username u))
                                      (lookupUser st (Component.author (row_doc r))))
                        rows).
  { assert (A : Forall (fun r => row_author r
                                 = option_map (fun u => (User._id u, User.username u))
                                     (lookupUser st (Component.author (row_doc r))))
                       (findRows w st (baseQuery req) (sortOptionOf (query_sort req)))).
    { unfold findRows. apply Forall_forall. intros r (c & <- & _)%in_map_iff. reflexivity. }
    unfold handle, getComponents_run, Component_find in H. cbv zeta in H.
    unfold bind at 1 2, getStore, ret at 1 in H.
    destruct (Js.truthy (user req)).
    - unfold bind in H.
      destruct (User_findById (user req) st) as [[[doc|]|e] st0] eqn:Eu;
        try discriminate.
      + unfold respondOk, respond, ret in H. injection H as _ <- _.
        rewrite row_doc_annotate, row_doc_findRows. split; [reflexivity|].
        unfold annotate. apply Forall_forall. intros r (r0 & <- & I)%in_map_iff.
        rewrite Forall_forall in A. exact (A r0 I).
      + unfold respondOk, respond, ret in H. injection H as _ <- _.
        rewrite row_doc_findRows. now split.
    - unfold respondOk, respond, ret in H. injection H as _ <- _.
      rewrite row_doc_findRows. now split. }
  destruct E as [E A]. split; [|split; [|split]].
  - rewrite E. apply sortBy_Permutation.
  - intros c. rewrite E, In_sortBy, filter_In. tauto.
  - intros T. apply Forall_forall. intros r I.
    apply (baseQuery_category w req None (row_doc r) T).
    assert (I' : In (row_doc r) (map row_doc rows)) by now apply in_map.
    rewrite E, In_sortBy, filter_In in I'. apply I'.
  - exact A.
Qed.

Lemma getComponents_selection_witness :
  handle (getComponents Sample.world Cases.list_buttons) Sample.store
  = (mkResponse 200 (ComponentList [populateAuthor Sample.store Sample.btn]), Sample.store)
  /\ (forall c, In c [Sample.btn]
                <-> In c (components Sample.store)
                    /\ matches Sample.world (baseQuery Cases.list_buttons) c = true).
Proof.
  assert (H : handle (getComponents Sample.world Cases.list_buttons) Sample.store
              = (mkResponse 200 (ComponentList [populateAuthor Sample.store Sample.btn]),
                 Sample.store))
    by (vm_compute; reflexivity).
  split; [exact H|].
  exact (proj1 (proj2 (getComponents_selection Sample.world Cases.list_buttons
                         Sample.store Sample.store 200
                         [populateAuthor Sample.store Sample.btn] eq_refl H))).
Defined.

(** X6. A favorites-only list query by a caller whose identity
    resolves to the stored user [u] answers exactly the stored
    components that match the search term and the category and whose
    identifier is in the favorites of [u]; every row is marked
    [isFavorite = true]. *)
Theorem getComponents_favorites_only :
  forall (w : World) (req : Request) (st : Store)
         (s : string) (uid : ObjectId) (u : User.t),
    Js.is_lit (query_favorites req) "true" = true ->
    user req = Some s -> ObjectId.cast s = Some uid ->
    lookupUser st uid = Some u ->
    exists rows,
      handle (getComponents w req) st = (mkResponse 200 (ComponentList rows), st)
      /\ (forall c, In c (map row_doc rows)
                    <-> In c (components st)
                        /\ matches w (baseQuery req) c = true
                        /\ In (Component._id c) (User.favorites u))
      /\ Forall (fun r => isFavorite r = Some true) rows.
Proof.
  intros w req st s uid u Hflag Us Cs Lu.
  unfold handle. rewrite getComponents_unfold, Hflag, Us, (cast_truthy _ _ Cs).
  cbn [andb]. unfold bind.
  rewrite (User_findById_cast _ _ st Cs), Lu. cbn [option_map fields hydrate].
  rewrite (getComponents_run_user w req _ st s uid u Us Cs Lu).
  eexists. split; [reflexivity|].
  assert (M : forall c,
             matches w (mkQuery (q_text (baseQuery req)) (q_category (baseQuery req))
                                (Some (User.favorites u))) c = true
             <-> matches w (baseQuery req) c = true
                 /\ In (Component._id c) (User.favorites u)).
  { intros c. unfold matches, baseQuery. cbn [q_text q_category q_idIn].
    rewrite !andb_true_iff, existsb_oid_In. tauto. }
  split.
  - intros c. rewrite row_doc_annotate, row_doc_findRows, In_sortBy, filter_In, M. tauto.
  - pose proof (annotate_spec (User.favorites u)
                  (findRows w st
                     (mkQuery (q_text (baseQuery req)) (q_category (baseQuery req))
                              (Some (User.favorites u)))
                     (sortOptionOf (query_sort req)))) as A.
    rewrite Forall_forall in A. apply Forall_forall. intros r I.
    rewrite (A r I). f_equal. apply existsb_oid_In.
    assert (I' : In (row_doc r)
                    (map row_doc
                       (annotate (map ObjectId.toString (User.favorites u))
                          (findRows w st
                             (mkQuery (q_text (baseQuery req)) (q_category (baseQuery req))
                                      (Some (User.favorites u)))
                             (sortOptionOf (query_sort req)))))) by now apply in_map.
    rewrite row_doc_annotate, row_doc_findRows, In_sortBy, filter_In, M in I'.
    apply I'.
Qed.

Lemma getComponents_favorites_only_witness :
  exists rows,
    handle (getComponents Sample.world Cases.list_favorites_bob) Sample.store
    = (mkResponse 200 (ComponentList rows), Sample.store)
    /\ (forall c, In c (map row_doc rows)
                  <-> In c (components Sample.store)
                      /\ matches Sample.world (baseQuery Cases.list_favorites_bob) c = true
                      /\ In (Component._id c) (User.favorites Sample.bob))
    /\ Forall (fun r => isFavorite r = Some true) rows.
Proof.
  refine (getComponents_favorites_only Sample.world Cases.list_favorites_bob Sample.store
            (ObjectId.toString Sample.bob_id) Sample.bob_id Sample.bob _ _ _ _).
  - reflexivity.
  - reflexivity.
  - vm_compute. reflexivity.
  - vm_compute. reflexivity.
Defined.

(* ================================================================== *)
(** ** The single-item lookup of a stored component *)

(** The lookup of a stored component, as the later proofs use it. *)
Lemma getComponent_found_aux :
  forall (req : Request) (st : Store) (cid : ObjectId) (c : Component.t),
    params_id req = ObjectId.toString cid ->
    lookupComponent st cid = Some c ->
    (Js.truthy (user req) = false ->
     handle (getComponent req) st
     = (mkResponse 200 (ComponentOne (populateAuthor st c)), st))
    /\ (forall s uid, user req = Some s -> ObjectId.cast s = Some uid ->
                      lookupUser st uid = None ->
                      handle (getComponent req) st
                      = (mkResponse 200 (ComponentOne (populateAuthor st c)), st))
    /\ (forall s uid u, user req = Some s -> ObjectId.cast s = Some uid ->
                        lookupUser st uid = Some u ->
                        exists b,
                          handle (getComponent req) st
                          = (mkResponse 200
                               (ComponentOne (set_isFavorite b (populateAuthor st c))), st)
                          /\ (b = true <-> In cid (User.favorites u))).
Proof.
  intros req st cid c Hid Lc.
  assert (C : ObjectId.cast (params_id req) = Some cid).
  { rewrite Hid. apply ObjectIdFacts.cast_toString. }
  split; [|split].
  - intros T. unfold getComponent, handle, bind at 1.
    rewrite (Component_findById_cast _ _ st C), Lc. cbn [option_map]. now rewrite T.
  - intros s uid Us Cs Lu. unfold getComponent, handle, bind at 1.
    rewrite (Component_findById_cast _ _ st C), Lc. cbn [option_map].
    rewrite Us, (cast_truthy _ _ Cs). unfold bind.
    rewrite (User_findById_cast _ _ st Cs), Lu. reflexivity.
  - intros s uid u. now apply getComponent_isFavorite.
Qed.

(** X7. The single-item lookup of a stored component, named by its
    identifier in string form, answers 200 with the stored document and
    its author's identifier and username.  For an anonymous caller, and
    for a caller whose identity resolves to no stored user, the row
    carries no [isFavorite]; for a caller who resolves to the stored
    user [u] it carries [isFavorite], true exactly when the identifier
    is in the favorites of [u]. *)
Theorem getComponent_found :
  forall (req : Request) (st : Store) (cid : ObjectId) (c : Component.t),
    params_id req = ObjectId.toString cid ->
    lookupComponent st cid = Some c ->
    (Js.truthy (user req) = false ->
     handle (getComponent req) st
     = (mkResponse 200 (ComponentOne (populateAuthor st c)), st))
    /\ (forall s uid, user req = Some s -> ObjectId.cast s = Some uid ->
                      lookupUser st uid = None ->
                      handle (getComponent req) st
                      = (mkResponse 200 (ComponentOne (populateAuthor st c)), st))
    /\ (forall s uid u, user req = Some s -> ObjectId.cast s = Some uid ->
                        lookupUser st uid = Some u ->
                        exists b,
                          handle (getComponent req) st
                          = (mkResponse 200
                               (ComponentOne (set_isFavorite b (populateAuthor st c))), st)
                          /\ (b = true <-> In cid (User.favorites u))).
Proof. exact getComponent_found_aux. Qed.

Lemma getComponent_found_witness :
  exists b,
    handle (getComponent Cases.get_card_bob) Sample.store
    = (mkResponse 200
         (ComponentOne (set_isFavorite b (populateAuthor Sample.store Sample.card))),
       Sample.store)
    /\ (b = true <-> In Sample.card_id (User.favorites Sample.bob)).
Proof.
  refine (proj2 (proj2 (getComponent_found Cases.get_card_bob Sample.store
                          Sample.card_id Sample.card _ _))
                (ObjectId.toString Sample.bob_id) Sample.bob_id Sample.bob _ _ _).
  - reflexivity.
  - vm_compute. reflexivity.
  - reflexivity.
  - vm_compute. reflexivity.
  - vm_compute. reflexivity.
Defined.

(* ================================================================== *)
(** ** What the toggle leaves alone, and identifiers spelled otherwise *)

(** X8. Whatever the request, the favorites toggle keeps the component
    collection, keeps every stored user's identifier, username, email
    and creation time in place, and leaves the document of every user
    other than the caller untouched: the only fields it ever writes
    are the caller's favorites and update time. *)
Theorem toggleFavorite_frame :
  forall (w : World) (req : Request) (st : Store),
    let st' := snd (handle (toggleFavorite w req) st) in
    components st' = components st
    /\ map User._id (users st') = map User._id (users st)
    /\ map User.username (users st') = map User.username (users st)
    /\ map User.email (users st') = map User.email (users st)
    /\ map User.createdAt (users st') = map User.createdAt (users st)
    /\ (forall uid',
           (forall s uid, user req = Some s -> ObjectId.cast s = Some uid -> uid' <> uid) ->
           lookupUser st' uid' = lookupUser st uid').
Proof.
  intros w req st st'. subst st'.
  repeat split;
    try (destruct (toggleFavorite_store w req st)
          as [->|(s & uid & cid & u & _ & _ & _ & _ & _ & ->)]; [reflexivity|];
         unfold writeFavorites; cbn [users components];
         first [reflexivity|apply map_updateFirst; reflexivity]).
  intros uid'. apply toggleFavorite_other_users.
Qed.

Lemma some_other_spelling (id : string) (cid : ObjectId) (favs : list ObjectId) :
  ObjectId.cast id = Some cid -> id <> ObjectId.toString cid ->
  Js.some (ObjectId.str_is id) favs = false.
Proof.
  intros C Hne. unfold Js.some. apply not_true_is_false. intros H.
  apply existsb_exists in H as (x & _ & E). unfold ObjectId.str_is in E.
  apply String.eqb_eq in E. apply Hne. rewrite <- E in C.
  rewrite ObjectIdFacts.cast_toString in C. injection C as ->. now symmetry.
Qed.

(** X9. A route parameter that the driver accepts as the identifier
    of a stored component but that is not its lower-case string form
    never matches the handlers' string comparison.  For a stored caller
    whose fields pass the validators of the save, the toggle then
    answers [isFavorite = true] and appends the identifier, so favorites
    that already held it hold it twice; for a stored caller with a field
    that fails its validator the save throws, the answer is 500 and
    nothing is written; and the single-item lookup answers
    [isFavorite = false] whatever the favorites hold. *)
Theorem other_spelling_never_matches :
  forall (w : World) (req : Request) (st : Store)
         (cid uid : ObjectId) (c : Component.t) (u : User.t) (s : string),
    ObjectId.cast (params_id req) = Some cid ->
    params_id req <> ObjectId.toString cid ->
    lookupComponent st cid = Some c ->
    user req = Some s -> ObjectId.cast s = Some uid ->
    lookupUser st uid = Some u ->
    let r := handle (toggleFavorite w req) st in
    (validUser u = true ->
     fst r = mkResponse 200 (FavoriteState true)
     /\ favoritesOf (snd r) uid = User.favorites u ++ [cid]
     /\ (In cid (User.favorites u) -> ~ NoDup (favoritesOf (snd r) uid)))
    /\ (validUser u = false -> status (fst r) = 500 /\ snd r = st)
    /\ handle (getComponent req) st
       = (mkResponse 200 (ComponentOne (set_isFavorite false (populateAuthor st c))), st).
Proof.
  intros w req st cid uid c u s C Hne Lc Us Cs Lu r. subst r.
  split; [|split].
  - intros V.
    rewrite (toggleFavorite_other_spelling w req st cid uid c u s C Hne Lc Us Cs Lu V).
    cbn [fst snd]. rewrite (favoritesOf_writeFavorites _ _ _ _ _ Lu).
    split; [reflexivity|]. split; [reflexivity|].
    intros I ND. apply NoDup_remove_2 in ND. apply ND. now rewrite app_nil_r.
  - intros V.
    destruct (toggleFavorite_invalid_user w req st cid uid c u s C Lc Us Cs Lu V)
      as (e & -> & _).
    split; reflexivity.
  - unfold getComponent, handle, bind at 1.
    rewrite (Component_findById_cast _ _ st C), Lc. cbn [option_map].
    rewrite Us, (cast_truthy _ _ Cs). unfold bind.
    rewrite (User_findById_cast _ _ st Cs), Lu. cbn [option_map fields hydrate].
    now rewrite (some_other_spelling _ cid _ C Hne).
Qed.

Lemma other_spelling_never_matches_witness :
  favoritesOf (snd (handle (toggleFavorite Sample.world Cases.favorite_card_upper)
                      Sample.store)) Sample.bob_id
  = User.favorites Sample.bob ++ [Sample.card_id].
Proof.
  refine (proj1 (proj2 (proj1 (other_spelling_never_matches Sample.world
                                 Cases.favorite_card_upper Sample.store
                                 Sample.card_id Sample.bob_id Sample.card Sample.bob
                                 (ObjectId.toString Sample.bob_id) _ _ _ _ _ _)
                                _))).
  - vm_compute. reflexivity.
  - vm_compute. discriminate.
  - vm_compute. reflexivity.
  - reflexivity.
  - vm_compute. reflexivity.
  - vm_compute. reflexivity.
  - vm_compute. reflexivity.
Defined.

(* ================================================================== *)
(** ** The mandatory middleware in front of the protected routes *)

Lemma authMiddlewareFor_Response (w : World) (next : Request -> M Response)
  (req : Request) :
  authMiddlewareFor (fun r => r) w next req = authMiddleware w next req.
Proof. reflexivity. Qed.

Lemma authMiddlewareFor_denied {R} (deny : Response -> R) (w : World)
  (next : Request -> M R) (req : Request) (st : Store) :
  unauthenticated w req ->
  exists m, authMiddlewareFor deny w next req st
            = (Ok (deny (mkResponse 401 (Message m))), st).
Proof.
  unfold authMiddlewareFor. intros [T|(tok & E & V)].
  - rewrite T. cbn [negb]. eexists. reflexivity.
  - rewrite E, V. destruct (negb (Js.truthy (Some tok))); eexists; reflexivity.
Qed.

Lemma authMiddlewareFor_passed {R} (deny : Response -> R) (w : World)
  (next : Request -> M R) (req : Request) (id : string) :
  authenticatedAs w req id ->
  authMiddlewareFor deny w next req = next (set_user id req).
Proof.
  unfold authMiddlewareFor. intros (tok & E & T & V). now rewrite E, T, V.
Qed.

(** X10. Without a token that verifies, every protected route
    (favorites toggle, component creation, current user, profile
    update) answers 401 by the middleware alone: the controller is not
    run and the store is left as it was. *)
Theorem protected_routes_deny :
  forall (w : World) (body : ComponentBody) (req : Request) (st : Store),
    unauthenticated w req ->
    (exists m, POST_favorite w req st = (mkResponse 401 (Message m), st))
    /\ (exists m, POST_components w body req st = (Std (mkResponse 401 (Message m)), st))
    /\ (exists m, GET_me w req st = (Std (mkResponse 401 (Message m)), st))
    /\ (exists m, PUT_me w req st = (Std (mkResponse 401 (Message m)), st)).
Proof.
  intros w body req st U. repeat split.
  - unfold POST_favorite, handle. rewrite <- authMiddlewareFor_Response.
    destruct (authMiddlewareFor_denied (fun r => r) w (toggleFavorite w) req st U)
      as (m & ->). now exists m.
  - unfold POST_components, handleReply.
    destruct (authMiddlewareFor_denied Std w (createComponent w body) req st U)
      as (m & ->). now exists m.
  - unfold GET_me, handleReply.
    destruct (authMiddlewareFor_denied Std w getCurrentUser req st U) as (m & ->).
    now exists m.
  - unfold PUT_me, handleReply.
    match goal with
    | |- context [authMiddlewareFor Std w ?k req st] =>
        destruct (authMiddlewareFor_denied Std w k req st U) as (m & ->)
    end.
    now exists m.
Qed.

Lemma protected_routes_deny_witness :
  exists m,
    POST_favorite Sample.world
      (Sample.with_id (ObjectId.toString Sample.btn_id) Sample.request) Sample.store
    = (mkResponse 401 (Message m), Sample.store).
Proof.
  refine (proj1 (protected_routes_deny Sample.world
                   (mkComponentBody "" "" "" [] "")
                   (Sample.with_id (ObjectId.toString Sample.btn_id) Sample.request)
                   Sample.store _)).
  left. reflexivity.
Defined.

(** X11. On the optional routes a token that does not verify counts
    as no token: the answer and the store are those of the same request
    without an [Authorization] header; a token that verifies to [id]
    makes both routes run the controller with [id] as the caller
    identity, replacing whatever identity the request carried. *)
Theorem optional_routes_identity :
  forall (w : World) (req : Request) (st : Store),
    (unauthenticated w req ->
     GET_components w req st = handle (getComponents w req) st
     /\ GET_component w req st = handle (getComponent req) st
     /\ GET_components w (set_authorization None req) st = GET_components w req st
     /\ GET_component w (set_authorization None req) st = GET_component w req st)
    /\ (forall id, authenticatedAs w req id ->
                   GET_components w req st = handle (getComponents w (set_user id req)) st
                   /\ GET_component w req st = handle (getComponent (set_user id req)) st).
Proof.
  intros w req st. split.
  - intros U. unfold GET_components, GET_component.
    rewrite !(optionalAuthMiddleware_no_identity w _ req U).
    rewrite !(optionalAuthMiddleware_no_identity w _ (set_authorization None req))
      by (left; reflexivity).
    repeat split.
  - intros id (tok & E & T & V). unfold GET_components, GET_component, optionalAuthMiddleware.
    rewrite E, T, V. split; reflexivity.
Qed.

Lemma optional_routes_identity_witness :
  GET_components Sample.world Sample.list_by_name Sample.store
  = handle (getComponents Sample.world
              (set_user (ObjectId.toString Sample.bob_id) Sample.list_by_name))
           Sample.store.
Proof.
  refine (proj1 (proj2 (optional_routes_identity Sample.world Sample.list_by_name
                          Sample.store)
                       (ObjectId.toString Sample.bob_id) _)).
  exists Sample.bob_token. repeat split.
Defined.

(* ================================================================== *)
(** ** Component creation *)

Lemma validComponent_newComponent (w : World) (b : ComponentBody) (author : option string) :
  forallb (validComponentPath (newComponent w b author))
          [CP_name; CP_description; CP_category; CP_code; CP_author]
  = creatable b
    && match cd_author (newComponent w b author) with Some _ => true | None => false end.
Proof.
  unfold newComponent, creatable.
  cbn [forallb validComponentPath cd_name cd_description cd_category cd_code cd_author].
  destruct (3 <=? _)%nat; cbn [andb]; [|reflexivity].
  destruct (_ <=? 100)%nat; cbn [andb]; [|reflexivity].
  destruct (10 <=? _)%nat; cbn [andb]; [|reflexivity].
  destruct (_ <=? 500)%nat; cbn [andb]; [|reflexivity].
  destruct (existsb _ categories); cbn [andb]; [|reflexivity].
  destruct (String.eqb (c_code b) ""); cbn [andb negb]; [reflexivity|].
  destruct (match author with Some s => ObjectId.cast s | None => None end); reflexivity.
Qed.

Lemma validateComponent_newComponent (w : World) (b : ComponentBody) (author : option string) :
  match validateComponent w (newComponent w b author) with
  | None => creatable b = true /\ cd_author (newComponent w b author) <> None
  | Some e => (creatable b = false \/ cd_author (newComponent w b author) = None)
              /\ statusCode e = None
  end.
Proof.
  pose proof (validComponent_newComponent w b author) as E.
  unfold validateComponent.
  destruct (forallb _ _) eqn:F.
  - rewrite (filter_negb_forallb _ _ F).
    symmetry in E. apply andb_true_iff in E as [Hc Ha]. split; [exact Hc|].
    destruct (cd_author _); [discriminate|discriminate].
  - pose proof (filter_negb_forallb_false _ _ F) as N.
    destruct (filter _ _) as [|p ps]; [congruence|].
    split; [|reflexivity].
    symmetry in E. apply andb_false_iff in E as [Hc|Ha]; [now left|right].
    destruct (cd_author _); [discriminate|reflexivity].
Qed.

(** The outcomes of component creation, as the later proofs use them. *)
Lemma createComponent_cases_aux :
  forall (w : World) (b : ComponentBody) (req : Request) (st : Store),
    (forall s author,
        user req = Some s -> ObjectId.cast s = Some author ->
        creatable b = true ->
        lookupComponent st (freshId w) = None ->
        handleReply (createComponent w b req) st
        = (CreatedReply 201 (createdComponent w b author),
           mkStore (users st) (components st ++ [createdComponent w b author])))
    /\ ((creatable b = false
         \/ user req = None
         \/ (exists s, user req = Some s /\ ObjectId.cast s = None)) ->
        replyStatus (fst (handleReply (createComponent w b req) st)) = 500
        /\ snd (handleReply (createComponent w b req) st) = st).
Proof.
  intros w b req st. split.
  - intros s author Us Cs V L.
    unfold createComponent, handleReply. cbv zeta. rewrite Us.
    unfold bind at 1, Component_save.
    pose proof (validateComponent_newComponent w b (Some s)) as Hv.
    destruct (validateComponent w (newComponent w b (Some s))) as [e|];
      [destruct Hv as [[?|A] _]|].
    + congruence.
    + cbn in A. congruence.
    + assert (A : cd_author (newComponent w b (Some s)) = Some author) by exact Cs.
      rewrite A. unfold bind at 1, getStore.
      assert (X : existsb (fun c => ObjectId.eqb (Component._id c) (freshId w))
                          (components st) = false).
      { apply find_existsb. exact L. }
      cbn [newComponent cd_id]. rewrite X. reflexivity.
  - intros H.
    unfold createComponent, handleReply, Component_save. cbv zeta. unfold bind at 1.
    pose proof (validateComponent_newComponent w b (user req)) as Hv.
    destruct (validateComponent _) as [e|].
    + destruct Hv as [_ Hs]. unfold throw. cbn [fst snd replyStatus].
      unfold errorMiddleware. rewrite Hs. split; reflexivity.
    + exfalso. destruct Hv as [V A]. destruct H as [H|[H|(s & Us & Cs)]].
      * congruence.
      * apply A. rewrite H. reflexivity.
      * apply A. rewrite Us. cbn. exact Cs.
Qed.

(** X12. Component creation with a body whose name, description and
    tags are strings of ASCII characters (on these the schema's [trim]
    is modelled exactly).  By a caller whose identity is an object
    identifier, with a body that passes the schema validators (lengths
    counted in UTF-16 code units) and a new identifier not yet in the
    collection, it answers 201 with the stored document: trimmed name,
    description and tags, the caller as author, both timestamps set; the
    collection grows by exactly that document and the users are
    untouched.  A body that fails a schema validator, or a caller
    identity that is missing or not an object identifier, is answered
    500 by the error responder (the route never turns its validator
    findings into a 400) and nothing is stored. *)
Theorem createComponent_cases :
  forall (w : World) (b : ComponentBody) (req : Request) (st : Store),
    asciiComponent b = true ->
    (forall s author,
        user req = Some s -> ObjectId.cast s = Some author ->
        creatable b = true ->
        lookupComponent st (freshId w) = None ->
        handleReply (createComponent w b req) st
        = (CreatedReply 201 (createdComponent w b author),
           mkStore (users st) (components st ++ [createdComponent w b author])))
    /\ ((creatable b = false
         \/ user req = None
         \/ (exists s, user req = Some s /\ ObjectId.cast s = None)) ->
        replyStatus (fst (handleReply (createComponent w b req) st)) = 500
        /\ snd (handleReply (createComponent w b req) st) = st).
Proof. intros w b req st _. apply createComponent_cases_aux. Qed.

Lemma createComponent_cases_witness :
  handleReply (createComponent Sample.world Cases.badge_body Cases.create_as_alice)
              Sample.store
  = (CreatedReply 201 (createdComponent Sample.world Cases.badge_body Sample.alice_id),
     mkStore (users Sample.store)
             (components Sample.store
                ++ [createdComponent Sample.world Cases.badge_body Sample.alice_id])).
Proof.
  refine (proj1 (createComponent_cases Sample.world Cases.badge_body
                   Cases.create_as_alice Sample.store _)
            (ObjectId.toString Sample.alice_id) Sample.alice_id _ _ _ _).
  - vm_compute. reflexivity.
  - reflexivity.
  - vm_compute. reflexivity.
  - vm_compute. reflexivity.
  - vm_compute. reflexivity.
Defined.

Lemma find_app_miss {A} (p : A -> bool) (l : list A) (x : A) :
  p x = false -> find p (l ++ [x]) = find p l.
Proof.
  intros H. induction l as [|y rest IH]; cbn [find app]; [now rewrite H|].
  destruct (p y); [reflexivity|exact IH].
Qed.

(** X13. A created component can be read back, for a body whose name,
    description and tags are strings of ASCII characters.  On the store
    a 201 creation leaves, the new identifier resolves to the created
    document, every older identifier resolves as before, and the
    anonymous single-item lookup of the new identifier in string form
    answers 200 with that document. *)
Theorem createComponent_then_get :
  forall (w : World) (b : ComponentBody) (req req' : Request) (st : Store)
         (s : string) (author : ObjectId),
    asciiComponent b = true ->
    user req = Some s -> ObjectId.cast s = Some author ->
    creatable b = true ->
    lookupComponent st (freshId w) = None ->
    let st' := snd (handleReply (createComponent w b req) st) in
    lookupComponent st' (freshId w) = Some (createdComponent w b author)
    /\ (forall cid, cid <> freshId w -> lookupComponent st' cid = lookupComponent st cid)
    /\ (params_id req' = ObjectId.toString (freshId w) ->
        Js.truthy (user req') = false ->
        handle (getComponent req') st'
        = (mkResponse 200 (ComponentOne (populateAuthor st' (createdComponent w b author))),
           st')).
Proof.
  intros w b req req' st s author _ Us Cs V L st'.
  destruct (createComponent_cases_aux w b req st) as [H _].
  assert (E : st' = mkStore (users st) (components st ++ [createdComponent w b author])).
  { unfold st'. now rewrite (H s author Us Cs V L). }
  assert (L' : lookupComponent st' (freshId w) = Some (createdComponent w b author)).
  { rewrite E. unfold lookupComponent in *. cbn [components].
    rewrite find_app_last by exact L.
    cbn [createdComponent Component._id]. now rewrite ObjectIdFacts.eqb_refl. }
  split; [exact L'|]. split.
  - intros cid N. rewrite E. unfold lookupComponent. cbn [components].
    apply find_app_miss. cbn [createdComponent Component._id].
    apply ObjectIdFacts.eqb_neq. congruence.
  - intros Hid T.
    destruct (getComponent_found_aux req' st' (freshId w) (createdComponent w b author) Hid L')
      as (Ha & _).
    exact (Ha T).
Qed.

Lemma createComponent_then_get_witness :
  lookupComponent
    (snd (handleReply (createComponent Sample.world Cases.badge_body Cases.create_as_alice)
            Sample.store))
    (freshId Sample.world)
  = Some (createdComponent Sample.world Cases.badge_body Sample.alice_id).
Proof.
  refine (proj1 (createComponent_then_get Sample.world Cases.badge_body
                   Cases.create_as_alice Cases.get_new Sample.store
                   (ObjectId.toString Sample.alice_id) Sample.alice_id _ _ _ _ _)).
  - vm_compute. reflexivity.
  - reflexivity.
  - vm_compute. reflexivity.
  - vm_compute. reflexivity.
  - vm_compute. reflexivity.
Defined.

(* ================================================================== *)
(** ** The profile update *)

Lemma find_andb_filter {A} (a b : A -> bool) (l : list A) :
  find (fun v => a v && b v) l = find b (filter a l).
Proof.
  induction l as [|x rest IH]; cbn [find filter]; [reflexivity|].
  destruct (a x); cbn [andb find]; [now rewrite IH|exact IH].
Qed.

Lemma User_findOne_other_cast (userId : string) (o : ObjectId) (req : Request) (st : Store) :
  ObjectId.cast userId = Some o ->
  User_findOne_other userId (body_username req) (body_email req) st
  = (Ok (if updateConflict st o req
         then option_map hydrate
                (find (fun u => negb (byId o u)
                                && (String.eqb (User.username u)
                                      (User.setUsername (body_username req))
                                    || String.eqb (User.email u)
                                         (User.setEmail (body_email req))))
                      (users st))
         else None), st).
Proof.
  intros C. unfold User_findOne_other. rewrite C. unfold bind, getStore, ret.
  unfold updateConflict. rewrite find_andb_filter.
  destruct (existsb _ _) eqn:E; [reflexivity|].
  apply find_existsb in E. now rewrite E.
Qed.

Lemma updateConflict_found (st : Store) (o : ObjectId) (req : Request) :
  updateConflict st o req = true ->
  exists v,
    find (fun u => negb (byId o u)
                   && (String.eqb (User.username u) (User.setUsername (body_username req))
                       || String.eqb (User.email u) (User.setEmail (body_email req))))
         (users st) = Some v.
Proof.
  unfold updateConflict. rewrite find_andb_filter. intros E.
  destruct (find _ _) as [v|] eqn:F; [now exists v|].
  apply find_existsb in F. congruence.
Qed.

(** The outcomes of a profile update, as the later proofs use them. *)
Lemma updateUser_cases_aux :
  forall (w : World) (userId : string) (o : ObjectId) (req : Request) (st : Store),
    ObjectId.cast userId = Some o ->
    (updateConflict st o req = true ->
     handleReply (updateUser w userId req) st
     = (Std (mkResponse 400 (Message "用户名或邮箱已被使用")), st))
    /\ (forall u, updateConflict st o req = false -> lookupUser st o = Some u ->
                  handleReply (updateUser w userId req) st
                  = (ProfileReply 200 (profileOf (updatedUser w u req)),
                     mkStore (updateFirst o (fun _ => updatedUser w u req) (users st))
                             (components st)))
    /\ (updateConflict st o req = false -> lookupUser st o = None ->
        handleReply (updateUser w userId req) st
        = (Std (mkResponse 404 (Message "用户不存在")), st)).
Proof.
  intros w userId o req st C.
  split; [|split].
  - intros E. destruct (updateConflict_found st o req E) as (v & F).
    unfold updateUser, handleReply. cbv zeta. unfold bind at 1.
    rewrite (User_findOne_other_cast userId o req st C), E, F. reflexivity.
  - intros u E L.
    unfold updateUser, handleReply. cbv zeta. unfold bind at 1.
    rewrite (User_findOne_other_cast userId o req st C), E.
    unfold bind at 1, User_findByIdAndUpdate. rewrite C.
    unfold bind at 1, getStore. unfold lookupUser in L. rewrite L. cbv zeta.
    match goal with
    | |- context [uniqueClash ?x ?l] =>
        assert (X : uniqueClash x l = updateConflict st o req) by reflexivity;
        rewrite X, E
    end.
    unfold bind, putStore, ret. destruct u; reflexivity.
  - intros E L.
    unfold updateUser, handleReply. cbv zeta. unfold bind at 1.
    rewrite (User_findOne_other_cast userId o req st C), E.
    unfold bind at 1, User_findByIdAndUpdate. rewrite C.
    unfold bind at 1, getStore. unfold lookupUser in L. rewrite L. reflexivity.
Qed.

(** X14. A profile update by the identity [userId] with a body
    carrying a username and an email, both strings of ASCII characters
    (on these the schema's [trim] and [lowercase] are modelled exactly).
    When another stored user has the
    normalised username or email it answers 400 and writes nothing (the
    caller's own current values are never a conflict).  Otherwise, when
    the identity resolves to the stored user [u], it answers 200 with
    the profile and stores the trimmed username and the trimmed,
    lower-cased email whatever their length or shape (no schema
    validator runs on this path), refreshes the update time, and keeps
    the identifier, the password hash, the favorites and the creation
    time; when the identity resolves to no stored user it answers 404. *)
Theorem updateUser_cases :
  forall (w : World) (userId : string) (o : ObjectId) (req : Request) (st : Store),
    asciiCredentials req = true ->
    ObjectId.cast userId = Some o ->
    (updateConflict st o req = true ->
     handleReply (updateUser w userId req) st
     = (Std (mkResponse 400 (Message "用户名或邮箱已被使用")), st))
    /\ (forall u, updateConflict st o req = false -> lookupUser st o = Some u ->
                  handleReply (updateUser w userId req) st
                  = (ProfileReply 200 (profileOf (updatedUser w u req)),
                     mkStore (updateFirst o (fun _ => updatedUser w u req) (users st))
                             (components st)))
    /\ (updateConflict st o req = false -> lookupUser st o = None ->
        handleReply (updateUser w userId req) st
        = (Std (mkResponse 404 (Message "用户不存在")), st)).
Proof. intros w userId o req st _. apply updateUser_cases_aux. Qed.

Lemma updateUser_cases_witness :
  handleReply (updateUser Sample.world (ObjectId.toString Sample.alice_id)
                 Cases.rename_alice) Sample.store
  = (ProfileReply 200 (profileOf (updatedUser Sample.world Sample.alice Cases.rename_alice)),
     mkStore (updateFirst Sample.alice_id
                (fun _ => updatedUser Sample.world Sample.alice Cases.rename_alice)
                (users Sample.store))
             (components Sample.store)).
Proof.
  refine (proj1 (proj2 (updateUser_cases Sample.world (ObjectId.toString Sample.alice_id)
                          Sample.alice_id Cases.rename_alice Sample.store _ _))
                Sample.alice _ _).
  - vm_compute. reflexivity.
  - vm_compute. reflexivity.
  - vm_compute. reflexivity.
  - vm_compute. reflexivity.
Defined.

(** A username of two characters outside ASCII has two code units,
    whatever its number of bytes: the schema rejects it and the register
    controller answers 500. *)
Example scenario_register_two_characters :
  String.length "你好" = 6%nat
  /\ Js.length "你好" = 2%nat
  /\ status (fst (handle (register Sample.world
                            (Sample.with_body "你好" "nihao@x.com" "secret9"
                                              Sample.request))
                         Sample.store)) = 500%nat.
Proof. repeat split; vm_compute; reflexivity. Qed.

(** A profile update can store a username the schema would reject. *)
Example scenario_update_short_username :
  p_username (profileOf (updatedUser Sample.world Sample.alice Cases.rename_alice)) = "al"
  /\ validPath (updatedUser Sample.world Sample.alice Cases.rename_alice) P_username = false.
Proof. split; vm_compute; reflexivity. Qed.

Lemma updateFirst_split (o : ObjectId) (l : list User.t) (u : User.t) :
  find (byId o) l = Some u ->
  exists l1 l2,
    l = l1 ++ u :: l2
    /\ (forall v, In v l1 -> byId o v = false)
    /\ (forall f, updateFirst o f l = l1 ++ f u :: l2).
Proof.
  induction l as [|x rest IH]; cbn [find]; [discriminate|].
  destruct (byId o x) eqn:E.
  - intros [= ->]. exists [], rest. repeat split.
    + intros v [].
    + intros f. cbn [updateFirst app]. now rewrite E.
  - intros F. destruct (IH F) as (l1 & l2 & -> & H1 & H2).
    exists (x :: l1), l2. repeat split.
    + intros v [<-|I]; auto.
    + intros f. cbn [updateFirst app]. now rewrite E, H2.
Qed.

Lemma NoDup_insert {A} (l1 l2 : list A) (a : A) :
  NoDup (l1 ++ l2) -> ~ In a (l1 ++ l2) -> NoDup (l1 ++ a :: l2).
Proof.
  intros ND N. apply (Permutation_NoDup (Permutation_middle l1 l2 a)).
  now constructor.
Qed.

Lemma updateUser_store (w : World) (userId : string) (req : Request) (st : Store) :
  snd (handleReply (updateUser w userId req) st) = st
  \/ exists o u,
      ObjectId.cast userId = Some o /\ lookupUser st o = Some u
      /\ updateConflict st o req = false
      /\ snd (handleReply (updateUser w userId req) st)
         = mkStore (updateFirst o (fun _ => updatedUser w u req) (users st))
                   (components st).
Proof.
  destruct (ObjectId.cast userId) as [o|] eqn:C.
  - destruct (updateUser_cases_aux w userId o req st C) as (H400 & H200 & H404).
    destruct (updateConflict st o req) eqn:E.
    + left. now rewrite (H400 eq_refl).
    + destruct (lookupUser st o) as [u|] eqn:L.
      * right. exists o, u. rewrite (H200 u eq_refl eq_refl). repeat split; auto.
      * left. now rewrite (H404 eq_refl eq_refl).
  - left. unfold updateUser, handleReply. cbv zeta. unfold bind at 1.
    unfold User_findOne_other. rewrite C. reflexivity.
Qed.

(** X15. Whatever the identity and the body, a profile update keeps
    the store well formed and touches nothing but the caller's name,
    email and update time: identifiers stay unique, usernames and
    emails stay unique, every stored username and email stays in the
    schema's normal form, and every stored password hash, favorites
    list and component is as before. *)
Theorem updateUser_invariants :
  forall (w : World) (userId : string) (req : Request) (st : Store),
    idsUnique st -> usersUnique st ->
    let st' := snd (handleReply (updateUser w userId req) st) in
    idsUnique st' /\ usersUnique st'
    /\ (Forall User.canonical (users st) -> Forall User.canonical (users st'))
    /\ map User.password (users st') = map User.password (users st)
    /\ map User.favorites (users st') = map User.favorites (users st)
    /\ components st' = components st.
Proof.
  intros w userId req st Hid [Hn He] st'. subst st'.
  destruct (updateUser_store w userId req st) as [->|(o & u & C & L & E & ->)].
  { repeat split; auto. }
  cbn [users components]. unfold idsUnique, usersUnique in *. cbn [users].
  unfold lookupUser in L.
  destruct (updateFirst_split o (users st) u L) as (l1 & l2 & Eq & Hl1 & Hup).
  rewrite (Hup (fun _ => updatedUser w u req)).
  assert (Ho : User._id u = o) by (apply find_some in L; now apply byId_eq).
  rewrite Eq in Hid, Hn, He.
  assert (Hothers : forall v, In v (l1 ++ l2) -> byId o v = false).
  { intros v I. apply ObjectIdFacts.eqb_neq. intros Ev.
    rewrite map_app in Hid. cbn [map] in Hid. apply NoDup_remove_2 in Hid.
    apply Hid. rewrite <- map_app, Ho, <- Ev. now apply in_map. }
  assert (Hfilter : filter (fun v => negb (byId o v)) (users st) = l1 ++ l2).
  { rewrite Eq, filter_app. cbn [filter].
    assert (byId o u = true) as -> by now apply byId_eq.
    cbn [negb]. rewrite <- filter_app.
    apply forallb_filter_id. apply forallb_forall. intros v I.
    now rewrite (Hothers v I). }
  assert (Hfree : forall v, In v (l1 ++ l2) ->
                    User.username v <> User.setUsername (body_username req)
                    /\ User.email v <> User.setEmail (body_email req)).
  { intros v I. unfold updateConflict in E. rewrite Hfilter in E.
    destruct (String.eqb_spec (User.username v) (User.setUsername (body_username req)))
      as [A|A];
      destruct (String.eqb_spec (User.email v) (User.setEmail (body_email req)))
        as [B|B]; try (split; assumption); exfalso;
      (assert (X : existsb (fun v => String.eqb (User.username v)
                                       (User.setUsername (body_username req))
                                     || String.eqb (User.email v)
                                          (User.setEmail (body_email req)))
                           (l1 ++ l2) = true);
       [apply existsb_exists; exists v; split; [assumption|];
        apply orb_true_iff; first [left; now apply String.eqb_eq
                                  |right; now apply String.eqb_eq]
       |congruence]). }
  rewrite !map_app in *. cbn [map] in *.
  repeat split.
  - exact Hid.
  - apply NoDup_insert; [now apply NoDup_remove_1 in Hn|].
    rewrite <- map_app. intros (v & Ev & I)%in_map_iff.
    now destruct (Hfree v I).
  - apply NoDup_insert; [now apply NoDup_remove_1 in He|].
    rewrite <- map_app. intros (v & Ev & I)%in_map_iff.
    now destruct (Hfree v I).
  - intros Hc. rewrite Eq in Hc. apply Forall_app in Hc as [H1 H2].
    apply Forall_app. split; [exact H1|]. inversion H2; subst.
    constructor; [|assumption].
    split; cbn; [apply setUsername_idem|apply setEmail_idem].
  - rewrite Eq, map_app. reflexivity.
  - rewrite Eq, map_app. reflexivity.
Qed.

Lemma updateUser_invariants_witness :
  idsUnique (snd (handleReply (updateUser Sample.world (ObjectId.toString Sample.alice_id)
                                 Cases.rename_alice) Sample.store))
  /\ usersUnique (snd (handleReply (updateUser Sample.world
                                      (ObjectId.toString Sample.alice_id)
                                      Cases.rename_alice) Sample.store)).
Proof.
  destruct (updateUser_invariants Sample.world (ObjectId.toString Sample.alice_id)
              Cases.rename_alice Sample.store) as (H1 & H2 & _).
  - unfold idsUnique. cbn. repeat constructor; cbn; intuition discriminate.
  - split; cbn; repeat constructor; cbn; intuition discriminate.
  - split; assumption.
Defined.

(* ================================================================== *)
(** ** The bearer token between the client and the middleware *)

Lemma cutAtSpace_noSpace (s : string) :
  noSpace s = true -> Js.cutAtSpace s = (s, None).
Proof.
  induction s as [|c s IH]; cbn [noSpace Js.cutAtSpace]; [reflexivity|].
  intros H. apply andb_true_iff in H as [Hc Hs].
  apply negb_true_iff in Hc. rewrite Hc, (IH Hs). reflexivity.
Qed.

Lemma splitSpace1_bearer (tok : string) :
  noSpace tok = true -> Js.splitSpace1 ("Bearer " ++ tok) = Some tok.
Proof.
  intros H. unfold Js.splitSpace1. cbn. now rewrite (cutAtSpace_noSpace tok H).
Qed.

Lemma truthy_nonempty (s : string) : s <> "" -> Js.truthy (Some s) = true.
Proof. intros H. cbn. apply negb_true_iff. now apply String.eqb_neq. Qed.

Lemma authHeader_round_trip_aux (a : Client.AuthService) (req : Request) :
  authorization req = Client.getAuthHeader a ->
  (forall tok w id, Client._token a = Some tok -> tok <> "" -> noSpace tok = true ->
                    jwtVerify w tok = Some id -> authenticatedAs w req id)
  /\ (forall tok, Client._token a = Some tok -> tok <> "" -> noSpace tok = true ->
                  bearerToken req = Some tok).
Proof.
  intros H.
  assert (B : forall tok, Client._token a = Some tok -> tok <> "" -> noSpace tok = true ->
                          bearerToken req = Some tok).
  { intros tok T Hne Hs. unfold bearerToken. rewrite H. unfold Client.getAuthHeader.
    rewrite T, (truthy_nonempty tok Hne). now apply splitSpace1_bearer. }
  split; [|exact B].
  intros tok w id T Hne Hs V. exists tok. repeat split; auto.
  now apply truthy_nonempty.
Qed.

(** X16. The header the client's auth service builds is read back by
    the backend middleware as the same token: for a non-empty token
    without a space, a request carrying [getAuthHeader()] is seen with
    exactly that token, so it is authenticated as whatever identity the
    token verifies to; and a client holding no token sends no header,
    which every world's middleware treats as unauthenticated. *)
Theorem authHeader_round_trip :
  forall (a : Client.AuthService) (req : Request),
    authorization req = Client.getAuthHeader a ->
    (forall tok, Client._token a = Some tok -> tok <> "" -> noSpace tok = true ->
                 bearerToken req = Some tok
                 /\ forall w id, jwtVerify w tok = Some id -> authenticatedAs w req id)
    /\ (Client.isAuthenticated a = false ->
        authorization req = None /\ forall w, unauthenticated w req).
Proof.
  intros a req H. split.
  - intros tok T Hne Hs.
    assert (B : bearerToken req = Some tok).
    { unfold bearerToken. rewrite H. unfold Client.getAuthHeader.
      rewrite T, (truthy_nonempty tok Hne). now apply splitSpace1_bearer. }
    split; [exact B|]. intros w id V. exists tok. repeat split; auto.
    now apply truthy_nonempty.
  - intros U. unfold Client.isAuthenticated in U.
    assert (N : authorization req = None).
    { rewrite H. unfold Client.getAuthHeader. now rewrite U. }
    split; [exact N|]. intros w. left. unfold bearerToken. now rewrite N.
Qed.

Lemma authHeader_round_trip_witness :
  bearerToken (Wire.bareRequest (Client.getAuthHeader Cases.bob_client))
  = Some Sample.bob_token.
Proof.
  refine (proj1 (proj1 (authHeader_round_trip Cases.bob_client
                          (Wire.bareRequest (Client.getAuthHeader Cases.bob_client))
                          eq_refl)
                       Sample.bob_token eq_refl _ _)).
  - vm_compute. discriminate.
  - vm_compute. reflexivity.
Defined.

Lemma getCurrentUser_found (req : Request) (st : Store) (s : string)
  (uid : ObjectId) (u : User.t) :
  user req = Some s -> ObjectId.cast s = Some uid -> lookupUser st uid = Some u ->
  getCurrentUser req st = (Ok (ProfileReply 200 (profileOf u)), st).
Proof.
  intros Us Cs L. unfold getCurrentUser. cbv zeta. unfold bind.
  rewrite Us, (User_findById_cast _ _ st Cs), L. reflexivity.
Qed.

(** X17. A whole session, end to end, for a body whose username and
    email are strings of ASCII characters.  After the register
    controller answered 201 with a new identifier, the login controller, run with
    the same credentials that bcrypt accepts, answers a token; when that token is non-empty, has no space
    and verifies to the identifier it was signed for, the client's
    [login] on that answer ends authenticated, with the token stored in
    the secret storage and the profile of the new user, and
    [GET /users/me] with the client's header answers 200 with the
    registered profile: normalised username and email, no favorites,
    and no password. *)
Theorem session_round_trip :
  forall (w1 w2 w3 : World) (req : Request) (st : Store) (stored : option string),
    asciiCredentials req = true ->
    status (fst (handle (register w1 req) st)) = 201 ->
    lookupUser st (freshId w1) = None ->
    bcryptCompare w2 (body_password req)
                  (bcryptHash w1 (body_password req) (genSalt w1)) = true ->
    jwtSign w2 (freshId w1) <> "" ->
    noSpace (jwtSign w2 (freshId w1)) = true ->
    jwtVerify w3 (jwtSign w2 (freshId w1)) = Some (ObjectId.toString (freshId w1)) ->
    let st1 := snd (handle (register w1 req) st) in
    let client := snd (Client.login (Wire.loginData (fst (handle (login w2 req) st1)))
                                    (Client.fresh stored)) in
    Client.isAuthenticated client = true
    /\ Client.secret client = Some (jwtSign w2 (freshId w1))
    /\ Client.getCurrentUser client
       = Some (Client.mkUser (ObjectId.toString (freshId w1))
                             (User.setUsername (body_username req))
                             (User.setEmail (body_email req)))
    /\ GET_me w3 (Wire.bareRequest (Client.getAuthHeader client)) st1
       = (ProfileReply 200 (profileOf (registeredUser w1 req)), st1).
Proof.
  intros w1 w2 w3 req st stored _ H Lf B Hne Hs V st1 client.
  destruct (register_then_login_aux w1 w2 req st H) as (_ & Hlogin & _).
  cbv zeta in Hlogin. specialize (Hlogin B). fold st1 in Hlogin.
  assert (T : Js.truthy (Some (jwtSign w2 (freshId w1))) = true)
    by now apply truthy_nonempty.
  assert (Ec : client
               = Client.mkAuthService
                   (Some (jwtSign w2 (freshId w1)))
                   (Some (Client.mkUser (ObjectId.toString (freshId w1))
                                        (User.setUsername (body_username req))
                                        (User.setEmail (body_email req))))
                   (Some (jwtSign w2 (freshId w1)))).
  { unfold client. rewrite Hlogin. cbn [fst].
    unfold Wire.loginData. cbn [status json Wire.is2xx Nat.leb andb].
    unfold Client.login. cbn [snd]. now rewrite T. }
  rewrite Ec. unfold Client.isAuthenticated, Client.getCurrentUser.
  cbn [Client._token Client._currentUser Client.secret].
  split; [exact T|]. split; [reflexivity|]. split; [reflexivity|].
  assert (A : authenticatedAs w3
                (Wire.bareRequest
                   (Client.getAuthHeader
                      (Client.mkAuthService
                         (Some (jwtSign w2 (freshId w1)))
                         (Some (Client.mkUser (ObjectId.toString (freshId w1))
                                              (User.setUsername (body_username req))
                                              (User.setEmail (body_email req))))
                         (Some (jwtSign w2 (freshId w1))))))
                (ObjectId.toString (freshId w1))).
  { match goal with
    | |- authenticatedAs _ (Wire.bareRequest (Client.getAuthHeader ?c)) _ =>
        apply (proj1 (authHeader_round_trip_aux c
                        (Wire.bareRequest (Client.getAuthHeader c)) eq_refl)
                     (jwtSign w2 (freshId w1)) w3 _ eq_refl Hne Hs V)
    end. }
  unfold GET_me, handleReply.
  rewrite (authMiddlewareFor_passed Std w3 getCurrentUser _ _ A).
  assert (L1 : lookupUser st1 (freshId w1) = Some (registeredUser w1 req)).
  { apply register_created_iff in H as [C Vd].
    destruct (register_cases_aux w1 req st) as (_ & H201 & _).
    unfold st1. rewrite (H201 C Vd). cbn [snd]. unfold lookupUser in *. cbn [users].
    rewrite find_app_last by exact Lf.
    unfold byId. cbn [registeredUser User._id]. now rewrite ObjectIdFacts.eqb_refl. }
  match goal with
  | |- context [getCurrentUser ?r st1] =>
      rewrite (getCurrentUser_found r st1 (ObjectId.toString (freshId w1)) (freshId w1)
                 (registeredUser w1 req) eq_refl (ObjectIdFacts.cast_toString _) L1)
  end.
  reflexivity.
Qed.

Lemma session_round_trip_witness :
  GET_me Sample.world
    (Wire.bareRequest
       (Client.getAuthHeader
          (snd (Client.login
                  (Wire.loginData
                     (fst (handle (login Sample.world Sample.register_carol)
                             (snd (handle (register Sample.world Sample.register_carol)
                                          Sample.store)))))
                  (Client.fresh None)))))
    (snd (handle (register Sample.world Sample.register_carol) Sample.store))
  = (ProfileReply 200 (profileOf (registeredUser Sample.world Sample.register_carol)),
     snd (handle (register Sample.world Sample.register_carol) Sample.store)).
Proof.
  refine (proj2 (proj2 (proj2 (session_round_trip Sample.world Sample.world Sample.world
                                 Sample.register_carol Sample.store None _ _ _ _ _ _ _)))).
  - vm_compute. reflexivity.
  - vm_compute. reflexivity.
  - vm_compute. reflexivity.
  - vm_compute. reflexivity.
  - vm_compute. discriminate.
  - vm_compute. reflexivity.
  - vm_compute. reflexivity.
Defined.

(* ================================================================== *)
(** ** The client's auth service *)

(** X18. The client's session survives a restart.  After a login
    answered with a non-empty token the service is authenticated, sends
    [Bearer <token>], and has written the token to the secret storage;
    a service started later over that storage asks for the profile with
    the same header and, when the backend accepts it, ends up sending
    that header again with the fetched profile. *)
Theorem client_session_persists :
  forall (a : Client.AuthService) (tok : string) (u u' : Client.User),
    tok <> "" ->
    let a1 := snd (Client.login (Client.Resolved (Some tok, u)) a) in
    let a2 := Client.initialize (Client.Resolved u') (Client.fresh (Client.secret a1)) in
    fst (Client.login (Client.Resolved (Some tok, u)) a) = Ok tt
    /\ Client.isAuthenticated a1 = true
    /\ Client.getAuthHeader a1 = Some ("Bearer " ++ tok)%string
    /\ Client.getCurrentUser a1 = Some u
    /\ Client.secret a1 = Some tok
    /\ Client.initializeRequest (Client.fresh (Client.secret a1))
       = Some (Client.getAuthHeader a1)
    /\ Client.getAuthHeader a2 = Client.getAuthHeader a1
    /\ Client.getCurrentUser a2 = Some u'
    /\ Client.secret a2 = Some tok.
Proof.
  intros a tok u u' Hne a1 a2. subst a2 a1.
  pose proof (truthy_nonempty tok Hne) as T.
  unfold Client.login, Client.initialize, Client.initializeRequest, Client.fresh,
    Client.isAuthenticated, Client.getAuthHeader, Client.getCurrentUser,
    Client.fetchCurrentUser.
  cbn [fst snd Client._token Client._currentUser Client.secret].
  rewrite T. cbn [Client._token Client._currentUser Client.secret]. rewrite T.
  cbn [Client._token Client._currentUser Client.secret]. rewrite T.
  repeat split.
Qed.

Lemma client_session_persists_witness :
  Client.getAuthHeader
    (Client.initialize (Client.Resolved (Client.mkUser "1" "bob" "bob@x.com"))
       (Client.fresh
          (Client.secret
             (snd (Client.login
                     (Client.Resolved (Some "t0k3n", Client.mkUser "1" "bob" "bob@x.com"))
                     (Client.fresh None))))))
  = Client.getAuthHeader
      (snd (Client.login
              (Client.Resolved (Some "t0k3n", Client.mkUser "1" "bob" "bob@x.com"))
              (Client.fresh None))).
Proof.
  refine (proj1 (proj2 (proj2 (proj2 (proj2 (proj2 (proj2
            (client_session_persists (Client.fresh None) "t0k3n"
               (Client.mkUser "1" "bob" "bob@x.com")
               (Client.mkUser "1" "bob" "bob@x.com") _)))))))).
  discriminate.
Defined.

(** X19. How the client's session ends or fails to start.  A rejected
    login throws the server's message (or the fallback) and leaves the
    token, the profile and the secret storage as they were.  A logout
    clears all three, so no header is sent and a service started later
    makes no request.  A service started over a stored token that the
    backend rejects discards it in memory and in the storage, and is
    not authenticated. *)
Theorem client_session_ends :
  forall (a : Client.AuthService) (m : option string),
    Client.login (Client.Rejected m) a
    = (Throw (Client.jsError (Js.or_string m "登录失败")), a)
    /\ Client.isAuthenticated (Client.logout a) = false
    /\ Client.getAuthHeader (Client.logout a) = None
    /\ Client.getCurrentUser (Client.logout a) = None
    /\ Client.secret (Client.logout a) = None
    /\ Client.initializeRequest (Client.fresh (Client.secret (Client.logout a))) = None
    /\ Client.isAuthenticated (Client.initialize (Client.Rejected m) a) = false
    /\ Client.getAuthHeader (Client.initialize (Client.Rejected m) a) = None
    /\ (Js.truthy (Client.secret a) = true ->
        Client.secret (Client.initialize (Client.Rejected m) a) = None).
Proof.
  intros a m.
  unfold Client.login, Client.logout, Client.initialize, Client.initializeRequest,
    Client.fresh, Client.isAuthenticated, Client.getAuthHeader, Client.getCurrentUser,
    Client.fetchCurrentUser.
  cbn [Client._token Client._currentUser Client.secret Js.truthy].
  repeat split.
  - destruct (Js.truthy (Client.secret a)) eqn:T;
      cbn [Client._token Client._currentUser Client.secret Js.truthy];
      [reflexivity|exact T].
  - destruct (Js.truthy (Client.secret a)) eqn:T;
      cbn [Client._token Client._currentUser Client.secret Js.truthy];
      [reflexivity|now rewrite T].
  - intros T. rewrite T. reflexivity.
Qed.

Lemma client_session_ends_witness :
  Client.secret (Client.initialize (Client.Rejected None) Cases.stale_client) = None.
Proof.
  refine (proj2 (proj2 (proj2 (proj2 (proj2 (proj2 (proj2 (proj2
            (client_session_ends Cases.stale_client None)))))))) _).
  reflexivity.
Defined.

(* ================================================================== *)
(** ** The views and commands of the client *)

(** X20. Without a token the client asks the backend for nothing
    about favorites: the favorites view answers its single login item
    (and no item under an element) and the toggle command only prompts
    for a login, neither making an HTTP request nor refreshing a view.
    With or without a token, the favorites view never shows an empty
    root: a login item, an empty item, an error item, or one item per
    component received. *)
Theorem favorites_without_token :
  forall (auth : Client.AuthService) (resp : Client.Http (list Client.Component))
         (favs : list Client.Component),
    (Client.isAuthenticated auth = false ->
     Client.favoritesChildren None auth resp favs
     = ([Client.Plain "请登录以查看收藏" "login"], favs, [])
     /\ forall id choice r,
          Client.toggleFavoriteCommand id auth choice r
          = Client.ShowInformationMessage "需要登录才能收藏组件"
            :: (if Js.is_lit choice "登录"
                then [Client.ExecuteCommand "tailwindcss-block.openComponentMarket"
                        (Some "login")]
                else []))
    /\ (forall item, Client.favoritesChildren (Some item) auth resp favs = ([], favs, []))
    /\ fst (fst (Client.favoritesChildren None auth resp favs)) <> [].
Proof.
  intros auth resp favs. split; [|split].
  - intros U. unfold Client.favoritesChildren, Client.toggleFavoriteCommand.
    rewrite U. cbn [negb]. split; reflexivity.
  - reflexivity.
  - unfold Client.favoritesChildren.
    destruct (negb (Client.isAuthenticated auth)); cbn [fst]; [discriminate|].
    destruct resp as [data|m]; cbn [Client.getComponents fst]; [|discriminate].
    destruct data as [|c rest]; cbn; discriminate.
Qed.

Lemma favorites_without_token_witness :
  Client.favoritesChildren None (Client.fresh None) (Client.Rejected None) []
  = ([Client.Plain "请登录以查看收藏" "login"], [], []).
Proof.
  refine (proj1 (proj1 (favorites_without_token (Client.fresh None)
                          (Client.Rejected None) [])
                   _)).
  reflexivity.
Defined.

Lemma matches_all (w : World) (c : Component.t) : matches w (mkQuery None None None) c = true.
Proof. reflexivity. Qed.

Lemma filter_all {A} (p : A -> bool) (l : list A) :
  (forall x, p x = true) -> filter p l = l.
Proof.
  intros H. induction l as [|x rest IH]; cbn [filter]; [reflexivity|].
  now rewrite H, IH.
Qed.

(** X21. A client holding a token the backend no longer verifies
    gets the whole catalog in its favorites view.  The view asks for
    [favorites=true] with its header; the optional middleware drops the
    token, the list query ignores the favorites flag of an anonymous
    caller, and the view shows one item per stored component, newest
    first (or its empty item when the catalog is empty), with no error
    message, whatever any user's favorites are. *)
Theorem stale_token_favorites_view :
  forall (w : World) (st : Store) (auth : Client.AuthService) (tok : string)
         (decode : Row -> Client.Component) (favs : list Client.Component),
    Client._token auth = Some tok -> tok <> "" -> noSpace tok = true ->
    jwtVerify w tok = None ->
    let filters := Client.mkFilters None None None (Some true) in
    let request := Wire.listRequest (Client.queryParams filters)
                                    (Client.getAuthHeader auth) in
    let answer := fst (GET_components w request st) in
    let view := Client.favoritesChildren None auth (Wire.componentsData decode answer) favs in
    snd view = [Client.getComponentsRequest filters auth]
    /\ Js.is_lit (query_favorites request) "true" = true
    /\ (components st = [] -> fst (fst view) = [Client.Plain "暂无收藏" "empty"])
    /\ (components st <> [] ->
        fst (fst view)
        = map (fun c => Client.ComponentItem (decode (populateAuthor st c)))
              (sortBy (sortLe CreatedAtDesc) (components st))).
Proof.
  intros w st auth tok decode favs T Hne Hs V filters request answer view.
  assert (B : bearerToken request = Some tok).
  { apply (proj2 (authHeader_round_trip_aux auth request eq_refl) tok T Hne Hs). }
  assert (A : answer
              = mkResponse 200
                  (ComponentList (map (populateAuthor st)
                                      (sortBy (sortLe CreatedAtDesc) (components st))))).
  { unfold answer, GET_components.
    rewrite (optionalAuthMiddleware_no_identity w _ request)
      by (right; exists tok; split; assumption).
    unfold handle. rewrite getComponents_unfold. cbn [request Wire.listRequest user query_favorites].
    rewrite andb_false_r.
    rewrite (getComponents_run_anonymous w request (baseQuery request) st eq_refl).
    cbn [fst]. unfold findRows. cbn [baseQuery request Wire.listRequest].
    now rewrite (filter_all _ _ (matches_all w)). }
  assert (Au : Client.isAuthenticated auth = true).
  { unfold Client.isAuthenticated. rewrite T. now apply truthy_nonempty. }
  unfold view, Client.favoritesChildren. rewrite Au. cbn [negb]. rewrite A.
  unfold Wire.componentsData. cbn [status json Wire.is2xx Nat.leb andb Client.getComponents].
  rewrite !length_map.
  assert (Hlen : List.length (sortBy (sortLe CreatedAtDesc) (components st))
                 = List.length (components st)).
  { symmetry. apply Permutation_length, sortBy_Permutation. }
  rewrite Hlen.
  split; [|split; [reflexivity|split]].
  - destruct (components st); reflexivity.
  - intros ->. reflexivity.
  - intros N. destruct (components st) as [|c rest] eqn:E; [congruence|].
    cbn [List.length Nat.eqb fst]. now rewrite !map_map.
Qed.

Lemma stale_token_favorites_view_witness :
  fst (fst (Client.favoritesChildren None Cases.stale_client
              (Wire.componentsData Cases.decode
                 (fst (GET_components Sample.world
                         (Wire.listRequest
                            (Client.queryParams (Client.mkFilters None None None (Some true)))
                            (Client.getAuthHeader Cases.stale_client))
                         Sample.store)))
              []))
  = map (fun c => Client.ComponentItem (Cases.decode (populateAuthor Sample.store c)))
        (sortBy (sortLe CreatedAtDesc) (components Sample.store)).
Proof.
  refine (proj2 (proj2 (proj2 (stale_token_favorites_view Sample.world Sample.store
                                 Cases.stale_client "expired.token" Cases.decode []
                                 _ _ _ _))) _).
  - reflexivity.
  - discriminate.
  - vm_compute. reflexivity.
  - vm_compute. reflexivity.
  - vm_compute. discriminate.
Defined.

(** X22. The panel's message handler has no case for [logout], which
    the page's own script posts: that message, like every command
    outside the six the handler knows, only raises the error
    notification for an unknown command; no request is made, nothing is
    posted back, and the auth service keeps its token.  Every other
    command the page posts is one the handler knows. *)
Theorem panel_unknown_command :
  forall (msg : Client.WebviewMessage) (resp : Client.Responses)
         (auth : Client.AuthService),
    (~ In (Client.command msg) Client.panelCommands ->
     Client.handleWebviewMessage msg resp auth
     = ([Client.ShowErrorMessage
           ("操作失败: Error: 未知的命令: " ++ Client.command msg)%string], auth))
    /\ (Client.command msg = "logout" ->
        snd (Client.handleWebviewMessage msg resp auth) = auth
        /\ Client.getAuthHeader (snd (Client.handleWebviewMessage msg resp auth))
           = Client.getAuthHeader auth)
    /\ In "logout" Client.pageCommands
    /\ (forall c, In c Client.pageCommands -> c <> "logout" -> In c Client.panelCommands).
Proof.
  intros msg resp auth.
  assert (U : ~ In (Client.command msg) Client.panelCommands ->
              Client.handleWebviewMessage msg resp auth
              = ([Client.ShowErrorMessage
                    ("操作失败: Error: 未知的命令: " ++ Client.command msg)%string], auth)).
  { intros N. unfold Client.handleWebviewMessage. cbv zeta.
    unfold Client.panelCommands in N. cbn [In] in N.
    repeat match goal with
           | |- context [String.eqb (Client.command msg) ?lit] =>
               destruct (String.eqb_spec (Client.command msg) lit) as [E|_];
               [exfalso; apply N; rewrite E; tauto|]
           end.
    reflexivity. }
  split; [exact U|]. split; [|split].
  - intros E. rewrite U; [split; reflexivity|].
    rewrite E. unfold Client.panelCommands. cbn [In].
    intros H. repeat (destruct H as [H|H]; [discriminate|]). exact H.
  - unfold Client.pageCommands. cbn [In]. tauto.
  - intros c H N. unfold Client.pageCommands, Client.panelCommands in *. cbn [In] in *.
    intuition congruence.
Qed.

Lemma panel_unknown_command_witness :
  Client.handleWebviewMessage
    (Client.mkMessage "logout" Client.noFilters "" "" "" None)
    (Client.mkResponses (Client.Rejected None) (Client.Rejected None)
                        (Client.Rejected None) (Client.Rejected None))
    Cases.bob_client
  = ([Client.ShowErrorMessage "操作失败: Error: 未知的命令: logout"], Cases.bob_client).
Proof.
  refine (proj1 (panel_unknown_command
                   (Client.mkMessage "logout" Client.noFilters "" "" "" None)
                   (Client.mkResponses (Client.Rejected None) (Client.Rejected None)
                                       (Client.Rejected None) (Client.Rejected None))
                   Cases.bob_client) _).
  cbn. intros H. repeat (destruct H as [H|H]; [discriminate|]). exact H.
Defined.

(* ================================================================== *)
(** ** The client's filters as the backend reads them *)

(** X23. The filters of the client's component service reach the list
    query unchanged.  Read back under the keys the backend uses, the
    query entries the client sends give the same search term and
    category filter (a missing or empty one is not sent and filters
    nothing), the same sort order, and the favorites flag exactly when
    the client's [favorites] is true. *)
Theorem client_filters_reach_query :
  forall (f : Client.ComponentFilters) (h : option string),
    let req := Wire.listRequest (Client.queryParams f) h in
    q_text (baseQuery req)
    = (if Js.truthy (Client.searchTerm f) then Client.searchTerm f else None)
    /\ q_category (baseQuery req)
       = (if Js.truthy (Client.category f) then Client.category f else None)
    /\ sortOptionOf (query_sort req) = sortOptionOf (Client.sort f)
    /\ Js.is_lit (query_favorites req) "true"
       = match Client.favorites f with Some true => true | _ => false end
    /\ authorization req = h.
Proof.
  intros [[s|] [c|] [o|] [[|]|]] h;
    cbv zeta; unfold Client.queryParams, baseQuery, Wire.listRequest, Wire.param, sortOptionOf;
    cbn [Client.searchTerm Client.category Client.sort Client.favorites
         query_search query_category query_sort query_favorites authorization
         q_text q_category Js.truthy];
    repeat match goal with
           | |- context [String.eqb ?x ""] =>
               is_var x;
               let E := fresh "E" in
               destruct (String.eqb_spec x "") as [E|E];
               [subst x|apply String.eqb_neq in E]
           end;
    cbn; rewrite ?E, ?E0, ?E1; cbn;
    repeat split; reflexivity.
Qed.

(* ================================================================== *)
(** ** The statuses a route can answer *)

Lemma yields_ret {A} (P : A -> Prop) (a : A) : P a -> yields P (ret a).
Proof. intros H st. exact H. Qed.

Lemma yields_throw {A} (P : A -> Prop) (e : Error) :
  statusCode e = None -> yields P (@throw A e).
Proof. intros H st. exact H. Qed.

Lemma yields_bind {A B} (P : B -> Prop) (c : M A) (k : A -> M B) :
  yields (fun _ => True) c -> (forall a, yields P (k a)) -> yields P (bind c k).
Proof.
  intros Hc Hk st. unfold bind. specialize (Hc st).
  destruct (c st) as [[a|e] st']; cbn in *.
  - apply Hk.
  - exact Hc.
Qed.

Lemma yields_getStore : yields (fun _ => True) getStore.
Proof. intros st. exact I. Qed.

Lemma yields_putStore (P : unit -> Prop) (st' : Store) : P tt -> yields P (putStore st').
Proof. intros H st. exact H. Qed.

Ltac yields_step :=
  lazymatch goal with
  | |- yields _ (bind _ _) => apply yields_bind
  | |- yields _ (ret _) => apply yields_ret; cbn; auto 10
  | |- yields _ (respond _ _) => unfold respond
  | |- yields _ (respondOk _) => unfold respondOk
  | |- yields _ (throw _) => apply yields_throw; reflexivity
  | |- yields _ getStore => apply yields_getStore
  | |- yields _ (putStore _) => apply yields_putStore; cbn; auto 10
  | |- yields _ (match ?x with _ => _ end) => destruct x
  end.

Ltac yields_all := repeat (intros; cbv zeta; yields_step).

(** The errors of the two save operations carry no [statusCode]. *)
Lemma yields_User_save (w : World) (doc : UserDoc) :
  yields (fun _ => True) (User_save w doc).
Proof.
  unfold User_save, validate. cbv zeta.
  destruct (filter _ _); [|apply yields_throw; reflexivity].
  yields_all.
Qed.

Lemma yields_Component_save (w : World) (d : ComponentDoc) :
  yields (fun _ => True) (Component_save w d).
Proof.
  unfold Component_save, validateComponent.
  destruct (filter _ _); [|apply yields_throw; reflexivity].
  yields_all.
Qed.

Ltac yields_saves :=
  repeat (intros; cbv zeta;
          first [ apply yields_User_save | apply yields_Component_save | yields_step ]).

(** A thrown error without a [statusCode] is answered with 500. *)
Lemma handle_answers (codes : list nat) (c : M Response) (st : Store) :
  answers codes c -> In (status (fst (handle c st))) (500%nat :: codes).
Proof.
  intros H. specialize (H st). unfold handle.
  destruct (c st) as [[r|e] st']; cbn [fst] in *.
  - right. exact H.
  - left. unfold errorMiddleware. cbn [status]. now rewrite H.
Qed.

Lemma handleReply_replies (codes : list nat) (c : M Reply) (st : Store) :
  replies codes c -> In (replyStatus (fst (handleReply c st))) (500%nat :: codes).
Proof.
  intros H. specialize (H st). unfold handleReply.
  destruct (c st) as [[r|e] st']; cbn [fst] in *.
  - right. exact H.
  - left. unfold errorMiddleware. cbn [replyStatus status]. now rewrite H.
Qed.

(** X24. What the middleware and controller of each route do with a
    request that has entered the route: they either answer with one of
    the statuses they set themselves, or throw an error that carries no
    [statusCode], which the error responder therefore answers with 500.
    The statuses set are 200 and 404 for the two catalog reads (never
    401); 200, 401 and 404 for the favorites toggle; 201 and 400 for the
    register controller; 200 and 401 for the login controller; 201 and
    401 for component creation; 200, 401 and 404 for the current user;
    200, 400, 401 and 404 for the profile update.  The thrown errors
    are the cast, validation, duplicate-key and missing-document errors
    of the model operations; a failure of the database itself, and what
    is raised before a route is entered (the body parser of the
    application), are not part of the statement. *)
Theorem handler_statuses :
  forall (w : World) (req : Request) (body : ComponentBody),
    answers [200; 404]%nat (optionalAuthMiddleware w (getComponents w) req)
    /\ answers [200; 404]%nat (optionalAuthMiddleware w getComponent req)
    /\ answers [200; 401; 404]%nat (authMiddleware w (toggleFavorite w) req)
    /\ answers [201; 400]%nat (register w req)
    /\ answers [200; 401]%nat (login w req)
    /\ replies [201; 401]%nat (authMiddlewareFor Std w (createComponent w body) req)
    /\ replies [200; 401; 404]%nat (authMiddlewareFor Std w getCurrentUser req)
    /\ replies [200; 400; 401; 404]%nat
         (authMiddlewareFor Std w
            (fun req' =>
               match user req' with
               | Some userId => updateUser w userId req'
               | None => ret (Std (mkResponse 401 (Message "未提供认证令牌")))
               end)
            req)
    /\ (forall codes c st,
           answers codes c -> In (status (fst (handle c st))) (500%nat :: codes))
    /\ (forall codes c st,
           replies codes c ->
           In (replyStatus (fst (handleReply c st))) (500%nat :: codes)).
Proof.
  intros w req body.
  repeat match goal with |- _ /\ _ => split end.
  - unfold answers, optionalAuthMiddleware, getComponents, getComponents_run,
      Component_find, User_findById, respond, respondOk.
    yields_all.
  - unfold answers, optionalAuthMiddleware, getComponent,
      Component_findById, User_findById, respond, respondOk.
    yields_all.
  - unfold answers, authMiddleware, toggleFavorite,
      Component_findById, User_findById, newObjectId, respond, respondOk.
    yields_saves.
  - unfold answers, register, User_findOne_email_or_username, respond, respondOk.
    yields_saves.
  - unfold answers, login, User_findOne_email, respond, respondOk.
    yields_all.
  - unfold replies, authMiddlewareFor, createComponent.
    yields_saves.
  - unfold replies, authMiddlewareFor, getCurrentUser, User_findById.
    yields_all.
  - unfold replies, authMiddlewareFor, updateUser, User_findOne_other,
      User_findByIdAndUpdate.
    yields_all.
  - apply handle_answers.
  - apply handleReply_replies.
Qed.

Lemma handler_statuses_witness :
  In (status (fst (POST_favorite Sample.world Cases.favorite_malformed Sample.store)))
     [500; 200; 401; 404]%nat.
Proof.
  exact (proj1 (proj2 (proj2 (proj2 (proj2 (proj2 (proj2 (proj2 (proj2
           (handler_statuses Sample.world Cases.favorite_malformed Cases.badge_body)))))))))
           [200; 401; 404]%nat
           (authMiddleware Sample.world (toggleFavorite Sample.world) Cases.favorite_malformed)
           Sample.store
           (proj1 (proj2 (proj2
              (handler_statuses Sample.world Cases.favorite_malformed Cases.badge_body))))).
Defined.

(* ================================================================== *)
(** ** What a page message can change *)

(** X25. The panel's message handler changes the auth service on a
    successful login only: a message with any other command, and a login
    whose request is rejected, leave the token, the profile and the
    secret storage as they were, and a login that is answered stores the
    answered token and profile.  What the editor commands it runs do is
    not part of the statement. *)
Theorem panel_auth_frame :
  forall (msg : Client.WebviewMessage) (resp : Client.Responses)
         (auth : Client.AuthService),
    let result := Client.handleWebviewMessage msg resp auth in
    (Client.command msg <> "login" -> snd result = auth)
    /\ (forall m, Client.r_login resp = Client.Rejected m -> snd result = auth)
    /\ (forall tok u,
           Client.command msg = "login" ->
           Client.r_login resp = Client.Resolved (tok, u) ->
           Client._token (snd result) = tok
           /\ Client._currentUser (snd result) = Some u
           /\ Client.secret (snd result)
              = (if Js.truthy tok then tok else Client.secret auth)).
Proof.
  intros msg resp auth. cbv zeta. unfold Client.handleWebviewMessage. cbv zeta.
  destruct (String.eqb_spec (Client.command msg) "getComponents") as [E1|E1].
  { split; [reflexivity|]. split; [reflexivity|].
    intros tok u E. rewrite E1 in E. discriminate. }
  destruct (String.eqb_spec (Client.command msg) "login") as [E2|E2].
  { destruct (Client.r_login resp) as [[tok0 u0]|m0] eqn:R; cbn.
    - split; [intros N; contradiction|]. split; [intros m; discriminate|].
      intros tok u _ [= <- <-]. repeat split.
    - split; [intros N; contradiction|]. split; [reflexivity|].
      intros tok u _. discriminate. }
  assert (F : forall a : Client.AuthService,
             (Client.command msg <> "login" -> a = a)
             /\ (forall m : option string, Client.r_login resp = Client.Rejected m -> a = a)
             /\ (forall tok u,
                    Client.command msg = "login" ->
                    Client.r_login resp = Client.Resolved (tok, u) ->
                    Client._token a = tok
                    /\ Client._currentUser a = Some u
                    /\ Client.secret a = (if Js.truthy tok then tok else Client.secret auth))).
  { intros a. split; [reflexivity|]. split; [reflexivity|].
    intros tok u E. contradiction. }
  destruct (String.eqb (Client.command msg) "register").
  { destruct (Client.r_register resp); apply F. }
  destruct (String.eqb (Client.command msg) "uploadComponent"); [apply F|].
  destruct (String.eqb (Client.command msg) "insertComponent"); [apply F|].
  destruct (String.eqb (Client.command msg) "toggleFavorite"); apply F.
Qed.

Lemma panel_auth_frame_witness :
  snd (Client.handleWebviewMessage
         (Client.mkMessage "register" Client.noFilters "carol" "carol@example.com"
                           "secret1" None)
         (Client.mkResponses (Client.Rejected None) (Client.Rejected None)
                             (Client.Resolved tt) (Client.Rejected None))
         Cases.bob_client)
  = Cases.bob_client.
Proof.
  refine (proj1 (panel_auth_frame
                   (Client.mkMessage "register" Client.noFilters "carol"
                                     "carol@example.com" "secret1" None)
                   (Client.mkResponses (Client.Rejected None) (Client.Rejected None)
                                       (Client.Resolved tt) (Client.Rejected None))
                   Cases.bob_client) _).
  cbn. discriminate.
Defined.
